(** * InfoGen: names, phone numbers and VCF batches

    A shallow embedding of [name_generator.py] (classes [PhoneGenerator]
    and [NameGenerator]), of [vcf_generator.py] (class [VCFGenerator]) and
    of the worker threads, the carrier selection and the name statistics
    of [main_window.py], followed by the properties of the generators.

    Python values are modelled as follows.
    - [str] is a list of Unicode code points, so that [s[0]], [s[1:]],
      [s[:3]] and [len(s)] are the list operations.  String literals of
      the source are written as UTF-8 literals and decoded once.
    - [int] is [Z]; [float] is an IEEE 754 binary64 value ([spec_float]
      with precision 53 and maximal exponent 1024).
    - the [random] module draws from a tape of naturals carried by the
      state; every sequence of outcomes is some tape.
    - exceptions are an [outcome]; a raised exception keeps the state
      reached so far, as in Python. *)

From Stdlib Require Import ZArith NArith List String Ascii Lia SpecFloat DecimalString.
From Stdlib Require DecimalPos DecimalZ.
From stdpp Require Import base list gmap strings.
Import ListNotations.
Local Open Scope Z_scope.

(** ** Python strings *)

Abbreviation pystr := (list N).

(** Decoder of the UTF-8 bytes of a literal into code points. *)
Fixpoint utf8_bytes (bs : list N) : list N :=
  match bs with
  | [] => []
  | b :: rest =>
      if (b <? 128)%N then b :: utf8_bytes rest
      else if (b <? 224)%N then
        match rest with
        | b1 :: rest1 =>
            N.lor (N.shiftl (N.land b 31) 6) (N.land b1 63) :: utf8_bytes rest1
        | _ => []
        end
      else if (b <? 240)%N then
        match rest with
        | b1 :: b2 :: rest2 =>
            N.lor (N.shiftl (N.land b 15) 12)
              (N.lor (N.shiftl (N.land b1 63) 6) (N.land b2 63))
              :: utf8_bytes rest2
        | _ => []
        end
      else
        match rest with
        | b1 :: b2 :: b3 :: rest3 =>
            N.lor (N.shiftl (N.land b 7) 18)
              (N.lor (N.shiftl (N.land b1 63) 12)
                 (N.lor (N.shiftl (N.land b2 63) 6) (N.land b3 63)))
              :: utf8_bytes rest3
        | _ => []
        end
  end.

Definition utf8_decode (s : string) : pystr :=
  utf8_bytes (map N_of_ascii (list_ascii_of_string s)).

Arguments utf8_decode : simpl never.

Notation "'u8' s" := (utf8_decode s) (at level 9, s at level 0, only parsing).

(** [a == b] on strings. *)
Definition str_eqb (a b : pystr) : bool := bool_decide (a = b).

(** [x in l] for a list of strings. *)
Definition str_in (x : pystr) (l : list pystr) : bool := bool_decide (x ∈ l).

(** [s.startswith(p)]. *)
Definition startswith (s p : pystr) : bool := str_eqb (take (length p) s) p.

(** [c] is one of the characters '0' .. '9'. *)
Definition is_digit (c : N) : bool := ((48 <=? c) && (c <=? 57))%N.

(** [str(n)] for an integer. *)
Definition str_of_int (n : Z) : pystr :=
  map N_of_ascii (list_ascii_of_string (NilZero.string_of_int (Z.to_int n))).

(** [format(n, "03d")]: the sign first, then zeros up to width 3, then the
    decimal digits of the absolute value. *)
Definition format_03d (n : Z) : pystr :=
  let digits := str_of_int (Z.abs n) in
  let sign := if n <? 0 then [45%N] else [] in
  sign ++ replicate (3 - length sign - length digits)%nat 48%N ++ digits.

(** [s[i:j]] for [0 <= i <= j]. *)
Definition slice (s : pystr) (i j : nat) : pystr := take (j - i) (drop i s).

(** ** Exceptions and outcomes *)

Inductive exn :=
| ValueError (msg : pystr)
| IndexError (msg : pystr)
| NameError (msg : pystr)
| OSError (msg : pystr)
| ZeroDivisionError (msg : pystr)
| OverflowError (msg : pystr).

(** [str(e)] *)
Definition exn_str (e : exn) : pystr :=
  match e with
  | ValueError m | IndexError m | NameError m | OSError m
  | ZeroDivisionError m | OverflowError m => m
  end.

(** What running a piece of code gives: a value, a raised exception, or
    [OutOfFuel] when a bounded unfolding of a [while] loop was too short. *)
Inductive outcome (A : Type) :=
| Ok (a : A)
| Raise (e : exn)
| OutOfFuel.
Arguments Ok {A} a.
Arguments Raise {A} e.
Arguments OutOfFuel {A}.

(** ** Floating point: IEEE 754 binary64 *)

Abbreviation float := spec_float.
Definition prec : Z := 53.
Definition emax : Z := 1024.

(** [float(n)]: the nearest double, exact when [|n| <= 2^53]. *)
Definition float_of_int (n : Z) : float := binary_normalize prec emax n 0 false.

(** [a / b] on integers (true division).  Within [|a|, |b| <= 2^53] the
    operands convert exactly and the quotient is rounded once. *)
Definition int_truediv (a b : Z) : outcome float :=
  if b =? 0 then Raise (ZeroDivisionError (u8 "division by zero"))
  else Ok (SFdiv prec emax (float_of_int a) (float_of_int b)).

(** [x * n] for a float [x] and an integer [n]. *)
Definition float_mul_int (x : float) (n : Z) : float :=
  SFmul prec emax x (float_of_int n).

(** [int(x)]: truncation toward zero. *)
Definition int_of_float (x : float) : outcome Z :=
  match x with
  | S754_zero _ => Ok 0
  | S754_finite s m e => Ok (cond_Zopp s (Z.shiftl (Z.pos m) e))
  | S754_infinity _ =>
      Raise (OverflowError (u8 "cannot convert float infinity to integer"))
  | S754_nan => Raise (ValueError (u8 "cannot convert float NaN to integer"))
  end.

(** The literal [0.7]: the double nearest to 7/10. *)
Definition float_0_7 : float := SFdiv prec emax (float_of_int 7) (float_of_int 10).

(** ** The state: random tape, file system, observable events *)

Inductive event :=
| EvOpen (path : pystr) (ok : bool)   (* open(path, 'w') returned / raised *)
| EvPrint (msg : pystr)               (* print(msg) *)
| EvProgress (pct : Z).               (* progress_callback(pct) *)

Record world := mkWorld {
  fs_dirs : gset pystr;                     (* existing directories *)
  fs_files : gmap pystr pystr;              (* path to text content *)
  env_mkdir_error : pystr -> option pystr;  (* os.makedirs(p) fails with *)
  env_open_error : pystr -> option pystr;   (* open(p, 'w') fails with *)
  env_now : pystr;  (* datetime.now().strftime("%Y%m%d_%H%M%S") *)
  trace : list event                        (* events, oldest first *)
}.

Record state := mkState {
  rand_tape : nat -> N;   (* the draws of the random module, in order *)
  rand_pos : nat;         (* how many of them were consumed *)
  gen_calls : nat;        (* ghost: calls of generate_phone_number so far *)
  the_world : world
}.

Definition M (A : Type) : Type := state -> outcome A * state.

Definition ret {A} (a : A) : M A := fun s => (Ok a, s).

Definition bind {A B} (c : M A) (k : A -> M B) : M B :=
  fun s =>
    match c s with
    | (Ok a, s') => k a s'
    | (Raise e, s') => (Raise e, s')
    | (OutOfFuel, s') => (OutOfFuel, s')
    end.

Definition raise {A} (e : exn) : M A := fun s => (Raise e, s).

Definition lift {A} (o : outcome A) : M A := fun s => (o, s).

(** [try: body except Exception as e: handler(e)] *)
Definition try_except {A} (body : M A) (handler : exn -> M A) : M A :=
  fun s =>
    match body s with
    | (Raise e, s') => handler e s'
    | r => r
    end.

Notation "x <- c ;; k" := (bind c (fun x => k))
  (at level 100, c at next level, right associativity).
Notation "c ;;; k" := (bind c (fun _ => k))
  (at level 100, right associativity).

Definition with_world (f : world -> world) : M unit :=
  fun s => (Ok tt, mkState (rand_tape s) (rand_pos s) (gen_calls s) (f (the_world s))).

Definition read_world {A} (f : world -> A) : M A :=
  fun s => (Ok (f (the_world s)), s).

Definition emit (e : event) : M unit :=
  with_world (fun w =>
    mkWorld (fs_dirs w) (fs_files w) (env_mkdir_error w) (env_open_error w)
            (env_now w) (trace w ++ [e])).

(** [for x in xs: body(x)] *)
Fixpoint for_each {A} (xs : list A) (body : A -> M unit) : M unit :=
  match xs with
  | [] => ret tt
  | x :: rest => body x ;;; for_each rest body
  end.

(** *** The [random] module *)

(** One raw draw from the tape. *)
Definition draw : M N :=
  fun s => (Ok (rand_tape s (rand_pos s)),
            mkState (rand_tape s) (S (rand_pos s)) (gen_calls s) (the_world s)).

(** [random.choice(seq)] *)
Definition random_choice {A} (seq : list A) : M A :=
  match seq with
  | [] => raise (IndexError (u8 "Cannot choose from an empty sequence"))
  | x :: _ =>
      r <- draw ;;
      ret (nth (N.to_nat (r mod N.of_nat (length seq))) seq x)
  end.

(** [random.randint(a, b)] *)
Definition random_randint (a b : Z) : M Z :=
  if b <? a then raise (ValueError (u8 "empty range for randrange()"))
  else r <- draw ;; ret (a + Z.of_N r mod (b - a + 1)).

(** [random.random()]: a multiple of 2^-53 in [0, 1). *)
Definition random_random : M float :=
  r <- draw ;;
  ret (binary_normalize prec emax (Z.of_N r mod 2 ^ 53) (-53) false).

(** *** The operating system *)

(** [os.path.exists(p)] *)
Definition os_path_exists (p : pystr) : M bool :=
  read_world (fun w => bool_decide (p ∈ fs_dirs w) || bool_decide (p ∈ dom (fs_files w))).

(** [os.makedirs(p)] *)
Definition os_makedirs (p : pystr) : M unit :=
  err <- read_world (fun w => env_mkdir_error w p) ;;
  match err with
  | Some msg => raise (OSError msg)
  | None =>
      with_world (fun w =>
        mkWorld ({[ p ]} ∪ fs_dirs w) (fs_files w) (env_mkdir_error w)
                (env_open_error w) (env_now w) (trace w))
  end.

(** [open(p, 'w')]: creates or truncates the file. *)
Definition open_w (p : pystr) : M unit :=
  err <- read_world (fun w => env_open_error w p) ;;
  match err with
  | Some msg => emit (EvOpen p false) ;;; raise (OSError msg)
  | None =>
      with_world (fun w =>
        mkWorld (fs_dirs w) (<[ p := [] ]> (fs_files w)) (env_mkdir_error w)
                (env_open_error w) (env_now w) (trace w)) ;;;
      emit (EvOpen p true)
  end.

(** [file.write(data)] on the file opened at [p]. *)
Definition file_write (p : pystr) (data : pystr) : M unit :=
  with_world (fun w =>
    mkWorld (fs_dirs w)
            (<[ p := default [] (fs_files w !! p) ++ data ]> (fs_files w))
            (env_mkdir_error w) (env_open_error w) (env_now w) (trace w)).

(** [print(msg)] *)
Definition print (msg : pystr) : M unit := emit (EvPrint msg).

(** [datetime.now().strftime("%Y%m%d_%H%M%S")] *)
Definition datetime_now_strftime : M pystr := read_world env_now.

(** ** PhoneGenerator *)

Module PhoneGenerator.

(** [self.prefixes]: every supported prefix. *)
Definition prefixes : list pystr := Eval vm_compute in
  map utf8_decode
    [
     "134"; "135"; "136"; "137"; "138"; "139"; "150"; "151";
     "152"; "157"; "158"; "159"; "182"; "183"; "184"; "187";
     "188"; "195"; "197"; "198"; "147"; "1440"; "130"; "131";
     "132"; "145"; "155"; "156"; "166"; "175"; "176"; "185";
     "186"; "133"; "149"; "153"; "173"; "174"; "177"; "180";
     "181"; "189"; "190"; "191"; "193"; "199"; "170"; "171";
     "162"
    ].

(** [self.mobile_prefixes] *)
Definition mobile_prefixes : list pystr := Eval vm_compute in
  map utf8_decode
    [
     "134"; "135"; "136"; "137"; "138"; "139"; "150"; "151";
     "152"; "157"; "158"; "159"; "182"; "183"; "184"; "187";
     "188"; "195"; "197"; "198"; "147"
    ].

(** [self.unicom_prefixes] *)
Definition unicom_prefixes : list pystr := Eval vm_compute in
  map utf8_decode
    [
     "130"; "131"; "132"; "145"; "155"; "156"; "166"; "175";
     "176"; "185"; "186"
    ].

(** [self.telecom_prefixes] *)
Definition telecom_prefixes : list pystr := Eval vm_compute in
  map utf8_decode
    [
     "133"; "149"; "153"; "173"; "174"; "177"; "180"; "181";
     "189"; "190"; "191"; "193"; "199"
    ].

(** [self.virtual_prefixes] *)
Definition virtual_prefixes : list pystr := Eval vm_compute in
  map utf8_decode
    [
     "170"; "171"; "162"
    ].

(** The block of [generate_phone_number] that chooses the prefix.  A
    prefix argument that is [None] or the empty string is falsy. *)
Definition choose_prefix (prefix carrier : option pystr) : M pystr :=
  match prefix with
  | Some (c :: p) =>
      if str_in (c :: p) prefixes then ret (c :: p)
      else raise (ValueError (u8 "不支持的号段前缀: " ++ c :: p))
  | _ =>
      if bool_decide (carrier = Some (u8 "mobile")) then
        random_choice mobile_prefixes
      else if bool_decide (carrier = Some (u8 "unicom")) then
        random_choice unicom_prefixes
      else if bool_decide (carrier = Some (u8 "telecom")) then
        random_choice telecom_prefixes
      else if bool_decide (carrier = Some (u8 "virtual")) then
        random_choice virtual_prefixes
      else random_choice prefixes
  end.

(** [''.join([str(random.randint(0, 9)) for _ in range(n)])] *)
Fixpoint random_digits (n : nat) : M pystr :=
  match n with
  | O => ret []
  | S n' =>
      d <- random_randint 0 9 ;;
      rest <- random_digits n' ;;
      ret (str_of_int d ++ rest)
  end.

(** Ghost step: one more call of [generate_phone_number]. *)
Definition count_call : M unit :=
  fun s => (Ok tt, mkState (rand_tape s) (rand_pos s) (S (gen_calls s)) (the_world s)).

Definition generate_phone_number (prefix carrier : option pystr) : M pystr :=
  count_call ;;;
  chosen_prefix <- choose_prefix prefix carrier ;;
  let remaining_digits := 11 - Z.of_nat (length chosen_prefix) in
  random_suffix <- random_digits (Z.to_nat remaining_digits) ;;
  ret (chosen_prefix ++ random_suffix).

(** The [while] loop of [generate_phone_numbers]; [fuel] bounds the
    number of iterations that are unfolded. *)
Fixpoint phone_loop (fuel : nat) (count max_attempts : Z)
    (prefix carrier : option pystr) (unique : bool)
    (phone_numbers : list pystr) (generated_set : option (gset pystr))
    (attempts : Z) : M (list pystr) :=
  if (Z.of_nat (length phone_numbers) <? count) && (attempts <? max_attempts) then
    match fuel with
    | O => lift OutOfFuel
    | S fuel' =>
        phone <- generate_phone_number prefix carrier ;;
        let '(phone_numbers', generated_set') :=
          match unique, generated_set with
          | true, Some seen =>
              if bool_decide (phone ∈ seen) then (phone_numbers, generated_set)
              else (phone_numbers ++ [phone], Some ({[ phone ]} ∪ seen))
          | _, _ => (phone_numbers ++ [phone], generated_set)
          end in
        phone_loop fuel' count max_attempts prefix carrier unique
                   phone_numbers' generated_set' (attempts + 1)
    end
  else ret phone_numbers.

Definition generate_phone_numbers (count : Z) (prefix carrier : option pystr)
    (unique : bool) : M (list pystr) :=
  if count <=? 0 then ret []
  else
    let phone_numbers := [] in
    let generated_set := if unique then Some (∅ : gset pystr) else None in
    let max_attempts := count * 10 in
    let attempts := 0 in
    phone_loop (Z.to_nat max_attempts) count max_attempts prefix carrier unique
               phone_numbers generated_set attempts.

Definition get_carrier_name (phone_number : pystr) : pystr :=
  if bool_decide (phone_number = []) || (length phone_number <? 3)%nat then u8 "未知"
  else
    let prefix := take 3 phone_number in
    if str_in prefix mobile_prefixes then u8 "中国移动"
    else if str_in prefix unicom_prefixes then u8 "中国联通"
    else if str_in prefix telecom_prefixes then u8 "中国电信"
    else if str_in prefix virtual_prefixes then u8 "虚拟运营商"
    else u8 "未知运营商".

End PhoneGenerator.

(** ** NameGenerator *)

Module NameGenerator.

(** [self.boy2]: two-character given names for boys. *)
Definition boy2 : list pystr := Eval vm_compute in
  map utf8_decode
    [
     "煜洋"; "雨泽"; "越泽"; "之玉"; "锦程"; "修杰"; "烨伟"; "尔曼"; "立辉"; "致远"; "天思"; "友绿"; "聪健"; "修洁";
     "平灵"; "源智"; "烨华"; "振家"; "越彬"; "子轩"; "伟宸"; "晋鹏"; "觅松"; "海亦"; "雨珍"; "浩宇"; "嘉熙"; "志泽";
     "苑博"; "念波"; "峻熙"; "俊驰"; "聪展"; "南松"; "黎昕"; "谷波"; "凝海"; "靖易"; "渊思"; "煜祺"; "乐驹"; "风华";
     "睿渊"; "博超"; "天磊"; "夜白"; "初晴"; "瑾瑜"; "鹏飞"; "弘文"; "伟泽"; "迎松"; "雨泽"; "白易"; "远航"; "晓啸";
     "智宸"; "晓博"; "靖琪"; "十八"; "君浩"; "绍辉"; "天德"; "半山"; "一江"; "皓轩"; "子默"; "青寒"; "问筠"; "旭尧";
     "冷之"; "天宇"; "正豪"; "文博"; "明辉"; "子骞"; "灵竹"; "三德"; "连虎"; "十三"; "天川"; "一德"; "严青"; "擎苍";
     "思远"; "嘉懿"; "鸿煊"; "晟睿"; "鸿涛"; "孤风"; "青文"; "浩然"; "明杰"; "若风"; "广山"; "若之"; "浩阑"; "南风";
     "浩轩"; "博涛"; "烨霖"; "天佑"; "半雪"; "文轩"; "明轩"; "鹏煊"; "沛山"; "道天"; "千筹"; "远望"; "乘风"; "道之";
     "乘云"; "天抒"; "士萧"; "文龙"; "一鸣"; "半仙"; "远锋"; "元正"; "断秋"; "远山"; "飞扬"; "一笑"; "天问"; "浩天";
     "沧海"; "安康"; "安平"; "安然"; "安晏"; "安宜"; "安志"; "波鸿"; "博明"; "博雅"; "博易"; "博远"; "才哲"; "才俊";
     "成和"; "承安"; "承平"; "承宣"; "承允"; "承泽"; "承志"; "飞虎"; "飞龙"; "飞羽"; "涵煦"; "昊苍"; "昊空"; "昊然";
     "昊天"; "宏达"; "宏恺"; "景辉"; "景明"; "景山"; "乐池"; "天逸"; "伟志"; "文宣"; "文彦"; "向晨"; "向阳"; "星阑";
     "阳波"; "逸仙"; "逸明"; "正奇"; "子瑜"; "玮涛"; "庭霖"; "弘智"; "品川"; "钰宸"; "子尘"; "润楚"; "元云"; "杰弘";
     "杰棠"; "智语"; "绍若"; "贤权"; "禹哲"; "纪德"; "轩军"; "楠佑"; "鸿华"; "峻莱"; "裕韬"; "寒淮"; "烨若"; "畅孝";
     "雨泰"; "绍若"; "庆韬"; "浩慕"; "恩晨"; "佑晨"; "翰俊"; "聪铭"; "瑜睿"; "应泰"; "为城"; "炫杰"; "竟锋"; "亦韵";
     "若杰"; "航苏"; "俊建"; "玮锋"; "晔苏"; "桦君"; "信煊"; "益正"; "惠坪"; "炳城"; "川健"; "煊博"; "瀚强"; "亦健";
     "卓逸"; "仲智"; "旭柳"; "易扬"; "浩淼"; "若星"; "书润"; "文博"; "圣霖"; "濡温"; "生朋"; "永润"; "温泰"; "言佑";
     "乐凡"; "均语"; "卓锦"; "炜泽"; "奕辰"; "韵熙"; "汇润"; "润庭"; "伟俊"; "立圣"; "东子"; "轩宏"; "哲聪"; "庭苍";
     "亮涛"; "松清"; "绍校"; "峻熙"; "立诚"; "弘文"; "熠彤"; "鸿煊"; "哲瀚"; "博涛"; "伟泽"; "煜城"; "鹤轩"; "昊天";
     "思聪"; "展鹏"; "笑愚"; "志强"; "炫明"; "雪松"; "思源"; "智渊"; "思淼"; "晓啸"; "天宇"; "浩然"; "文轩"; "鹭洋";
     "振家"; "乐驹"; "晓博"; "文博"; "昊焱"; "立果"; "金鑫"; "锦程"; "嘉熙"; "鹏飞"; "子默"; "思远"; "浩轩"; "语堂";
     "聪健"; "炎彬"; "子骞"; "君浩"; "博超"; "昊强"; "鑫磊"; "晋鹏"; "雨泽"; "弘文"; "瑾瑜"; "郜坤"; "哲羽"; "意致";
     "瑾靖"; "易琦"; "光济"; "玄奕"; "骞尧"; "清嘉"; "冷睿"; "永丰"; "夭锦"; "辰哲"; "承颜"; "习凛"; "堇文"; "鹏云";
     "华茂"; "永以"; "澎湃"; "康伯"; "玉韬"; "云霆"; "雨伯"; "友健"; "维峰"; "沺誉"; "安陵"; "君皓"; "志勇"; "茂材";
     "运杰"; "苑博"; "佳炎"; "鸿月"; "加答"; "涛卓"; "康顺"; "凯定"; "城可"; "世砚"; "博良"; "俊宇"; "睿书"; "泓佳";
     "书鸣"; "辉鑫"; "语智"; "艺智"; "思涵"; "呈岚"; "天骐"; "翰睿"; "哲涛"; "凯霆"; "君皓"; "言陌"; "浩志"; "勇笠";
     "玮翔"; "志宇"; "雄浚"; "祖弘"; "宏颢"; "雨辰"; "诗颢"
    ].

(** [self.xing]: surnames, of one or two characters. *)
Definition xing : list pystr := Eval vm_compute in
  map utf8_decode
    [
     "赵"; "钱"; "孙"; "李"; "周"; "吴"; "郑"; "王"; "冯"; "陈"; "褚"; "卫"; "蒋"; "沈"; "韩"; "杨"; "朱"; "秦"; "尤"; "许";
     "何"; "吕"; "施"; "张"; "孔"; "曹"; "严"; "华"; "金"; "魏"; "陶"; "姜"; "戚"; "谢"; "邹"; "喻"; "柏"; "水"; "窦"; "章";
     "云"; "苏"; "潘"; "葛"; "奚"; "范"; "彭"; "郎"; "鲁"; "韦"; "昌"; "马"; "苗"; "凤"; "花"; "方"; "任"; "袁"; "柳"; "鲍";
     "史"; "唐"; "费"; "薛"; "雷"; "贺"; "倪"; "汤"; "滕"; "殷"; "罗"; "毕"; "郝"; "安"; "常"; "傅"; "卞"; "齐"; "元"; "顾";
     "孟"; "平"; "黄"; "穆"; "萧"; "尹"; "姚"; "邵"; "湛"; "汪"; "祁"; "毛"; "狄"; "米"; "伏"; "成"; "戴"; "谈"; "宋"; "茅";
     "庞"; "熊"; "纪"; "舒"; "屈"; "项"; "祝"; "董"; "梁"; "杜"; "阮"; "蓝"; "闵"; "季"; "贾"; "路"; "娄"; "江"; "童"; "颜";
     "郭"; "梅"; "盛"; "林"; "钟"; "徐"; "邱"; "骆"; "高"; "夏"; "蔡"; "田"; "樊"; "胡"; "凌"; "霍"; "虞"; "万"; "支"; "柯";
     "管"; "卢"; "莫"; "柯"; "房"; "裘"; "缪"; "解"; "应"; "宗"; "丁"; "宣"; "邓"; "单"; "杭"; "洪"; "包"; "诸"; "左"; "石";
     "崔"; "吉"; "龚"; "程"; "嵇"; "邢"; "裴"; "陆"; "荣"; "翁"; "荀"; "于"; "惠"; "甄"; "曲"; "封"; "储"; "仲"; "伊"; "宁";
     "仇"; "甘"; "武"; "符"; "刘"; "景"; "詹"; "龙"; "叶"; "幸"; "司"; "黎"; "溥"; "印"; "怀"; "蒲"; "邰"; "从"; "索"; "赖";
     "卓"; "屠"; "池"; "乔"; "胥"; "闻"; "莘"; "翟"; "谭"; "贡"; "劳"; "逄"; "姬"; "申"; "扶"; "堵"; "冉"; "宰"; "雍"; "桑";
     "寿"; "通"; "燕"; "浦"; "尚"; "农"; "温"; "别"; "庄"; "晏"; "柴"; "瞿"; "阎"; "连"; "习"; "容"; "向"; "古"; "易"; "廖";
     "庾"; "终"; "步"; "都"; "耿"; "满"; "弘"; "匡"; "国"; "文"; "寇"; "广"; "禄"; "阙"; "东"; "欧"; "利"; "师"; "巩"; "聂";
     "关"; "荆"; "红"; "游"; "竺"; "司马"; "上官"; "欧阳"; "夏侯"; "诸葛"; "东方"; "赫连"; "皇甫"; "尉迟"; "公羊"; "澹台"; "公冶"; "宗政"; "濮阳"; "淳于";
     "单于"; "太叔"; "申屠"; "公孙"; "仲孙"; "轩辕"; "令狐"; "宇文"; "长孙"; "慕容"; "司徒"; "司空"; "拓拔"
    ].

(** [self.girl2]: two-character given names for girls. *)
Definition girl2 : list pystr := Eval vm_compute in
  map utf8_decode
    [
     "紫萱"; "紫霜"; "紫菱"; "紫蓝"; "紫翠"; "紫安"; "芷容"; "芷巧"; "芷卉"; "之桃"; "元霜"; "语雪"; "语蓉"; "语琴";
     "语芙"; "语蝶"; "雨梅"; "雨莲"; "雨兰"; "又菡"; "映萱"; "映安"; "忆雪"; "雅彤"; "雪瑶"; "雪卉"; "晓夏"; "向梦";
     "香萱"; "香岚"; "惜雪"; "思菱"; "水瑶"; "诗桃"; "山菡"; "若菱"; "青曼"; "千柔"; "绮梅"; "凝雁"; "凝安"; "妙之";
     "凌波"; "寄琴"; "涵易"; "涵菱"; "含烟"; "曼冬"; "灵珊"; "映菡"; "易真"; "小萱"; "怜南"; "书瑶"; "慕晴"; "半烟";
     "翠桃"; "向真"; "晓瑶"; "香菱"; "凡霜"; "晓霜"; "芷蝶"; "之云"; "寄翠"; "涵菡"; "念薇"; "灵凡"; "冰夏"; "绮晴";
     "碧琴"; "以寒"; "梦绾"; "禾霓"; "落柔"; "恬栖"; "以蓝"; "星楚"; "晚棠"; "乐薇"; "云毓"; "静昀"; "洛一"; "馨雅";
     "芊昔"; "沐颜"; "清墨"; "意羡"; "禾凝"; "黎思"; "锦惜"; "北茉"; "清筱"; "青玥"; "可星"; "芝恬"; "昕甜"; "禾婉";
     "慕唯"; "唯兮"; "歆一"; "佳念"; "晚柠"; "初恩"; "乐晗"; "佳觅"; "初语"; "苏郁"; "知宛"; "意暄"; "安诺"; "可夏";
     "予希"; "木冉"; "优游"; "伊依"; "倾清"; "心歆"; "颖恩"; "楚瑶"; "如一"; "沐心"; "子沛"; "婷秀"; "芳凝"; "洛颜";
     "思璐"; "郡一"; "向妙"; "想蓉"; "待臻"; "姝美"; "蓉柳"; "溪颜"; "璞诗"; "知韦"; "之寒"; "蓉珊"; "尔毓"; "诗睿";
     "诗钰"; "念汐"; "恬懿"; "和佩"; "芒可"; "靖柳"; "欣碧"; "婧媛"; "芸霞"; "子茗"; "梦琳"; "琳姿"; "寄影"; "若嫣";
     "艺珂"; "素琳"; "淑云"; "茜涵"; "莹云"; "清媛"; "思怡"; "待晚"; "绮晴"; "夏婷"; "熙瑾"; "玉珍"; "语彤"; "聪怡";
     "善蕊"; "菀柠"; "颖菲"; "君雨"; "柳如"; "欣静"; "怡岚"; "芳睿"; "语淑"; "慧偲"; "半槐"; "娥菲"; "余芸"; "婉吟";
     "媚鸿"; "听薇"; "恬懿"; "琳娜"; "思妤"; "双芸"; "梓欣"; "乐巧"; "宁敏"; "逸恬"; "婷颜"; "羽莹"; "曼溪"; "思璎";
     "梦淑"; "映嘉"; "天亦"; "映凝"; "曦薇"; "泱祺"; "艳蕊"; "壁煊"; "心怡"; "茉涵"; "熙柔"; "玥芙"; "倚真"; "雅惠";
     "千羽"; "思雅"; "希柠"; "辰柚"; "亦橙"; "伊桃"; "南柚"; "蕉礼"; "橙美"; "宛桔"; "皙恬"; "锦芊"; "栀萌"; "亦攸";
     "皙宁"; "舒淳"; "以葵"; "伊湉"; "司纯"; "稚京"; "奈笙"; "西棠"; "今安"; "晏乔"; "舒然"; "慕倾"; "玖鸢"; "思莞";
     "紫茉"; "珑琪"; "冉峤"; "凝初"; "南嫣"; "知潼"; "奕北"; "桑宁"; "禾茉"; "昕言"; "念一"; "希雅"; "伊诺"; "婉柠";
     "岁穗"; "苏酥"; "诗施"; "声笙"; "芊澄"; "梨珂"; "晞悦"; "芮柒"; "南星"; "苡沫"; "鹿绫"; "楚奈"; "芊凛"; "婉宁";
     "安禾"; "舒言"; "芮瑶"; "艺涵"; "恬雨"; "清颜"; "乔仪"; "幼沅"; "简心"; "宁希"; "婧恬"; "黎念"; "灵淼"; "含卿";
     "兮虞"; "缘珞"; "依莹"; "玥冰"; "谷梓"; "南芊"; "筱茵"; "甜亦"; "佳知"; "惜珞"; "惜灵"; "傲晴"; "若琼"; "晴岚";
     "诗淇"; "语兰"; "傲龄"; "知薇"; "晓汐"; "萌知"; "含蓓"; "安冉"; "梓紫"; "璇知"; "冰晴"; "汐梓"; "静若"; "诗云";
     "紫知"; "紫丝"; "觅甜"; "奕芊"; "倩知"; "笑珞"; "万姝"; "初瑶"; "妍依"; "碧希"; "晓蓓"; "冉娇"; "笑龄"; "以兮";
     "兮筱"; "雨甯"; "妤华"; "冰蓉"; "沁蓉"; "万奕"; "虞兰"; "静笛"; "媱雅"; "黛绿"; "水静"; "水妍"; "语蕊"; "欣蓉";
     "妙馨"; "龄蓉"; "紫莎"; "婧琳"; "甜晴"; "静芙"; "恬娣"; "晓倩"; "熙萱"; "冉清"; "歆瑜"; "黛颖"; "婧芷"; "姗梵";
     "夏蓉"; "菲悦"; "依龄"; "寻双"
    ].

(** [self.boy1]: one-character given names for boys. *)
Definition boy1 : list pystr := Eval vm_compute in
  map utf8_decode
    [
     "宇"; "翔"; "飞"; "雄"; "帅"; "涛"; "强"; "斌"; "昊"; "伟"; "泽"; "峰"; "博"; "德"; "荣"; "辉"; "俊"; "志"; "勇"; "琪";
     "杰"; "洋"; "瑞"; "奇"; "鸿"; "浩"; "宏"; "华"; "东"; "光"; "辰"; "丰"; "栋"; "昌"; "朋"; "坚"; "智"; "聪"; "亮"; "正";
     "明"; "诚"; "永"; "联"; "瑜"; "雷"; "威"; "敏"; "乐"; "信"; "柏"; "佳"; "晋"; "育"; "立"; "祥"; "学"; "豪"; "仁"; "友"
    ].

(** [self.girl1]: one-character given names for girls. *)
Definition girl1 : list pystr := Eval vm_compute in
  map utf8_decode
    [
     "美"; "娜"; "秀"; "雯"; "蕾"; "洁"; "思"; "慧"; "心"; "涵"; "静"; "英"; "晓"; "琳"; "珊"; "莉"; "佳"; "婷"; "璐"; "晨";
     "安"; "包"; "贝"; "冰"; "蓓"; "珂"; "柏"; "琳"; "菲"; "怡"; "娜"; "心"; "洁"; "梓"; "瑶"; "珊"; "艾"; "诗"; "璐"; "倩";
     "苏"; "雯"; "婧"; "秀"; "慧"; "彤"; "媛"; "美"; "晶"; "琪"; "云"; "萍"; "蕾"; "莉"; "莹"; "薇"; "楠"; "楚"; "佳"; "爽";
     "卓"; "格"; "斌"; "羽"; "茜"; "婷"; "琦"; "绮"; "燕"; "张"; "青"; "红"; "翠"; "帆"; "离"; "莲"; "宜"; "园"; "冬"; "霜"
    ].

Definition get_random_from_array (array : list pystr) : M pystr :=
  random_choice array.

Definition make_boy_name : M pystr :=
  first <- get_random_from_array xing ;;
  r <- random_random ;;
  let choice := if SFltb r float_0_7 then 1 else 2 in
  second <- (if choice =? 1 then get_random_from_array boy2
             else get_random_from_array boy1) ;;
  ret (first ++ second).

Definition make_girl_name : M pystr :=
  first <- get_random_from_array xing ;;
  r <- random_random ;;
  let choice := if SFltb r float_0_7 then 1 else 2 in
  second <- (if choice =? 1 then get_random_from_array girl2
             else get_random_from_array girl1) ;;
  ret (first ++ second).

(** The [for _ in range(num)] loop of [generate_names], with [n]
    iterations left. *)
Fixpoint names_loop (n : nat) (gender : pystr) (names : list pystr)
    : M (list pystr) :=
  match n with
  | O => ret names
  | S n' =>
      names' <-
        (if str_eqb gender (u8 "boy") then
           name <- make_boy_name ;; ret (names ++ [name])
         else if str_eqb gender (u8 "girl") then
           name <- make_girl_name ;; ret (names ++ [name])
         else if str_eqb gender (u8 "all") then
           choice <- random_randint 1 2 ;;
           if choice =? 1 then name <- make_boy_name ;; ret (names ++ [name])
           else name <- make_girl_name ;; ret (names ++ [name])
         else ret names) ;;
      names_loop n' gender names'
  end.

Definition generate_names (num : Z) (gender : pystr) : M (list pystr) :=
  if num <=? 0 then ret []
  else
    let names := [] in
    names_loop (Z.to_nat num) gender names.

End NameGenerator.

(** ** VCFGenerator *)

Inductive pyval :=
| VBool (b : bool)
| VInt (n : Z)
| VStr (s : pystr)
| VList (l : list pystr).

Module VCFGenerator.

Definition create_contact_vcf_entry (name phone : pystr) : outcome pystr :=
  let formatted_phone :=
    if (length phone =? 11)%nat
    then take 3 phone ++ u8 " " ++ slice phone 3 7 ++ u8 " " ++ drop 7 phone
    else phone in
  match name with
  | [] => Raise (IndexError (u8 "string index out of range"))
  | name_0 :: name_1_ =>
      Ok (u8 "BEGIN:VCARD" ++ [10%N]
          ++ u8 "VERSION:3.0" ++ [10%N]
          ++ u8 "FN:" ++ name ++ [10%N]
          ++ u8 "N:" ++ [name_0] ++ u8 ";" ++ name_1_ ++ u8 ";;;" ++ [10%N]
          ++ u8 "TEL;CELL:" ++ phone ++ [10%N]
          ++ u8 "TEL;CELL;TYPE=VOICE:" ++ formatted_phone ++ [10%N]
          ++ u8 "END:VCARD" ++ [10%N])
  end.

Definition generate_contacts (count : Z) (gender : pystr)
    (carrier : option pystr) (unique_phones : bool)
    : M (list (pystr * pystr)) :=
  if count <=? 0 then ret []
  else
    names <- NameGenerator.generate_names count gender ;;
    phones <- PhoneGenerator.generate_phone_numbers count None carrier unique_phones ;;
    let min_count := Nat.min (length names) (length phones) in
    let contacts := map (fun i => (nth i names [], nth i phones [])) (seq 0 min_count) in
    ret contacts.

(** The text is stored as code points; [encoding] only fixes the bytes on
    disk and cannot fail on the strings handled here. *)
Definition create_vcf_file (contacts : list (pystr * pystr)) (filename : pystr)
    : M bool :=
  try_except
    (open_w filename ;;;
     for_each contacts (fun '(name, phone) =>
       vcf_entry <- lift (create_contact_vcf_entry name phone) ;;
       file_write filename vcf_entry ;;;
       file_write filename [10%N]) ;;;
     ret true)
    (fun e =>
       print (u8 "创建VCF文件失败: " ++ exn_str e) ;;;
       ret false).

Section Batch.

(** Library functions whose result is left open: [fmt.format(n)] and
    [os.path.join(dir, name)]. *)
Variable str_format : pystr -> Z -> outcome pystr.
Variable os_path_join : pystr -> pystr -> pystr.

(** Reading the local variable [timestamp], unbound unless assigned. *)
Definition read_timestamp (timestamp : option pystr) : M pystr :=
  match timestamp with
  | Some v => ret v
  | None =>
      raise (NameError
        (u8 "cannot access local variable 'timestamp' where it is not associated with a value"))
  end.

(** The body of the loop [for i in range(file_count)]. *)
Fixpoint files_loop (indices : list Z)
    (contacts_per_file : Z) (output_dir filename_prefix gender : pystr)
    (carrier : option pystr) (unique_phones progress_callback : bool)
    (naming_mode : pystr) (start_number : Z) (number_format : pystr)
    (file_count : Z) (timestamp : option pystr)
    (created_files failed_files : list pystr)
    : M (list pystr * list pystr) :=
  match indices with
  | [] => ret (created_files, failed_files)
  | i :: rest =>
      contacts <- generate_contacts contacts_per_file gender carrier unique_phones ;;
      filename <-
        (if str_eqb naming_mode (u8 "custom_number") then
           let current_number := start_number + i in
           number_str <- lift (str_format number_format current_number) ;;
           ret (filename_prefix ++ u8 "_" ++ number_str ++ u8 ".vcf")
         else
           ts <- read_timestamp timestamp ;;
           ret (filename_prefix ++ u8 "_" ++ ts ++ u8 "_" ++ format_03d (i + 1)
                ++ u8 ".vcf")) ;;
      let filepath := os_path_join output_dir filename in
      ok <- create_vcf_file contacts filepath ;;
      let '(created_files', failed_files') :=
        if ok then (created_files ++ [filepath], failed_files)
        else (created_files, failed_files ++ [filepath]) in
      (if progress_callback then
         q <- lift (int_truediv (i + 1) file_count) ;;
         let progress := float_mul_int q 100 in
         pct <- lift (int_of_float progress) ;;
         emit (EvProgress pct)
       else ret tt) ;;;
      files_loop rest contacts_per_file output_dir filename_prefix gender
                 carrier unique_phones progress_callback naming_mode
                 start_number number_format file_count timestamp
                 created_files' failed_files'
  end.

Definition generate_vcf_files (file_count contacts_per_file : Z)
    (output_dir filename_prefix gender : pystr) (carrier : option pystr)
    (unique_phones progress_callback : bool) (naming_mode : pystr)
    (start_number : Z) (number_format : pystr) : M (gmap string pyval) :=
  present <- os_path_exists output_dir ;;
  made <- (if negb present then
             try_except (os_makedirs output_dir ;;; ret None)
               (fun e => ret (Some (
                  {[ "success" := VBool false;
                     "error" := VStr (u8 "无法创建输出目录: " ++ exn_str e);
                     "files_created" := VInt 0 ]} : gmap string pyval)))
           else ret None) ;;
  match made with
  | Some failure => ret failure
  | None =>
      timestamp <-
        (if str_eqb naming_mode (u8 "timestamp") then
           ts <- datetime_now_strftime ;; ret (Some ts)
         else ret None) ;;
      let created_files := [] in
      let failed_files := [] in
      lists <-
        files_loop (map Z.of_nat (seq 0 (Z.to_nat file_count)))
                   contacts_per_file output_dir filename_prefix gender carrier
                   unique_phones progress_callback naming_mode start_number
                   number_format file_count timestamp created_files failed_files ;;
      let '(created_files, failed_files) := lists in
      ret ({[ "success" := VBool (length failed_files =? 0)%nat;
              "files_created" := VInt (Z.of_nat (length created_files));
              "files_failed" := VInt (Z.of_nat (length failed_files));
              "created_files" := VList created_files;
              "failed_files" := VList failed_files;
              "output_directory" := VStr output_dir;
              "total_contacts" :=
                VInt (Z.of_nat (length created_files) * contacts_per_file) ]}
           : gmap string pyval)
  end.

End Batch.



End VCFGenerator.

(** ** The window: worker threads, carrier selection, name statistics *)

(** What a worker thread emits when it ends: [finished.emit(result)] or
    [error.emit(msg)]. *)
Inductive signal (A : Type) :=
| Finished (result : A)
| Error (msg : pystr).
Arguments Finished {A} result.
Arguments Error {A} msg.

Module NameGeneratorThread.

Definition run (count : Z) (gender : pystr) : M (signal (list pystr)) :=
  try_except
    (names <- NameGenerator.generate_names count gender ;;
     ret (Finished names))
    (fun e => ret (Error (exn_str e))).

End NameGeneratorThread.

Module PhoneGeneratorThread.

Definition run (count : Z) (carrier : option pystr) (prefix : pystr)
    : M (signal (list pystr)) :=
  try_except
    (phones <-
       PhoneGenerator.generate_phone_numbers count
         (if negb (str_eqb prefix (u8 "随机")) then Some prefix else None)
         (if negb (bool_decide (carrier = Some (u8 "全部"))) then carrier else None)
         true ;;
     ret (Finished phones))
    (fun e => ret (Error (exn_str e))).

End PhoneGeneratorThread.

Module VCFGeneratorThread.

Section Run.

Variable str_format : pystr -> Z -> outcome pystr.
Variable os_path_join : pystr -> pystr -> pystr.

(** The callback is [self.progress.emit]: each call is an [EvProgress]
    event. *)
Definition run (file_count contacts_per_file : Z)
    (output_dir filename_prefix gender : pystr) (carrier : option pystr)
    (naming_mode : pystr) (start_number : Z) (number_format : pystr)
    : M (signal (gmap string pyval)) :=
  try_except
    (result <-
       VCFGenerator.generate_vcf_files str_format os_path_join file_count
         contacts_per_file output_dir filename_prefix gender
         (if negb (bool_decide (carrier = Some (u8 "全部"))) then carrier else None)
         true true naming_mode start_number number_format ;;
     ret (Finished result))
    (fun e => ret (Error (exn_str e))).

End Run.

End VCFGeneratorThread.

Module MainWindow.

(** The dictionary [carrier_map] of [generate_phones] and
    [generate_vcf_files], from the texts of the carrier box to the
    [carrier] argument. *)
Definition carrier_map : list (pystr * option pystr) :=
  [ (u8 "全部", None);
    (u8 "中国移动", Some (u8 "mobile"));
    (u8 "中国联通", Some (u8 "unicom"));
    (u8 "中国电信", Some (u8 "telecom"));
    (u8 "虚拟运营商", Some (u8 "virtual")) ].

(** [carrier_map.get(carrier_text)]: None for a missing key. *)
Fixpoint dict_get (d : list (pystr * option pystr)) (key : pystr)
    : option pystr :=
  match d with
  | [] => None
  | (k, v) :: rest => if str_eqb k key then v else dict_get rest key
  end.

(** The loop [for boy_name in ...: if name_part == boy_name: return True]
    of [is_likely_boy_name], followed by [return False]. *)
Fixpoint boy_name_loop (name_part : pystr) (boy_names : list pystr) : bool :=
  match boy_names with
  | [] => false
  | boy_name :: rest =>
      if str_eqb name_part boy_name then true else boy_name_loop name_part rest
  end.

Definition is_likely_boy_name (name : pystr) : bool :=
  if (length name <=? 1)%nat then true
  else
    let name_part := drop 1 name in
    boy_name_loop name_part (NameGenerator.boy2 ++ NameGenerator.boy1).

End MainWindow.

(** *** Instances of the library functions *)

(** [fmt.format(n)] for the two format strings that the window passes,
    ["{:03d}"] and ["{:d}"]; other format strings are not interpreted. *)
Definition str_format_ui (fmt : pystr) (n : Z) : outcome pystr :=
  if str_eqb fmt (u8 "{:03d}") then Ok (format_03d n)
  else if str_eqb fmt (u8 "{:d}") then Ok (str_of_int n)
  else Raise (ValueError (u8 "format string outside the model")).

(** [posixpath.join(a, b)] *)
Definition posix_join (a b : pystr) : pystr :=
  if startswith b (u8 "/") then b
  else if bool_decide (a = []) || str_eqb (drop (length a - 1) a) (u8 "/") then a ++ b
  else a ++ u8 "/" ++ b.

(** ** Vocabulary of the statements *)

(** A computation that returns normally and touches only the random
    tape position and the call counter, adding [k] calls. *)
Definition pure_run {A} (c : M A) (s : state) (k : nat) (P : A -> Prop) : Prop :=
  exists a s', c s = (Ok a, s') /\ P a
    /\ the_world s' = the_world s
    /\ rand_tape s' = rand_tape s
    /\ gen_calls s' = (gen_calls s + k)%nat.

Definition all_digits (s : pystr) : Prop := Forall (fun c => is_digit c = true) s.

#[local] Instance all_digits_dec s : Decision (all_digits s).
Proof. unfold all_digits. apply _. Defined.

(** The list from which [choose_prefix] takes the prefix. *)
Definition prefix_pool (prefix carrier : option pystr) : list pystr :=
  match prefix with
  | Some (c :: p) => [c :: p]
  | _ =>
      if bool_decide (carrier = Some (u8 "mobile")) then PhoneGenerator.mobile_prefixes
      else if bool_decide (carrier = Some (u8 "unicom")) then PhoneGenerator.unicom_prefixes
      else if bool_decide (carrier = Some (u8 "telecom")) then PhoneGenerator.telecom_prefixes
      else if bool_decide (carrier = Some (u8 "virtual")) then PhoneGenerator.virtual_prefixes
      else PhoneGenerator.prefixes
  end.

(** The prefix argument is absent, empty, or a supported prefix. *)
Definition prefix_arg_valid (prefix : option pystr) : Prop :=
  match prefix with
  | Some p => p = [] \/ p ∈ PhoneGenerator.prefixes
  | None => True
  end.

(** [name] starts with an entry of the surname table. *)
Definition surname_prefixed (name : pystr) : Prop :=
  exists x, x ∈ NameGenerator.xing /\ startswith name x = true.

Definition gender_valid (gender : pystr) : Prop :=
  gender ∈ [u8 "boy"; u8 "girl"; u8 "all"].

(** The lines of a vCard 3.0 entry for a name split after its first
    character and a phone with its grouped form. *)
Definition vcard_lines (name_0 : N) (name_rest phone grouped : pystr) : list pystr :=
  [ u8 "BEGIN:VCARD";
    u8 "VERSION:3.0";
    u8 "FN:" ++ name_0 :: name_rest;
    u8 "N:" ++ [name_0] ++ u8 ";" ++ name_rest ++ u8 ";;;";
    u8 "TEL;CELL:" ++ phone;
    u8 "TEL;CELL;TYPE=VOICE:" ++ grouped;
    u8 "END:VCARD" ].

(** Every line followed by a newline. *)
Definition unlines (lines : list pystr) : pystr :=
  concat (map (fun l => l ++ [10%N]) lines).

(** What an observer of files and progress sees of an event. *)
Definition observe (e : event) : option (pystr + Z) :=
  match e with
  | EvOpen path _ => Some (inl path)
  | EvProgress pct => Some (inr pct)
  | EvPrint _ => None
  end.

(** The path of an [open] event and the argument of a progress call. *)
Definition opened_path (e : event) : option pystr :=
  match e with EvOpen path _ => Some path | _ => None end.

Definition progress_of (e : event) : option Z :=
  match e with EvProgress pct => Some pct | _ => None end.

(** The value [int((i + 1) / file_count * 100)]. *)
Definition percent_value (i file_count : Z) : Z :=
  match int_truediv (i + 1) file_count with
  | Ok q =>
      match int_of_float (float_mul_int q 100) with
      | Ok pct => pct
      | _ => 0
      end
  | _ => 0
  end.

(** Following the spec's words: [round(x)], to the nearest integer, ties
    to the even one. *)
Definition py_round (x : float) : outcome Z :=
  match x with
  | S754_zero _ => Ok 0
  | S754_finite s m e =>
      if 0 <=? e then Ok (cond_Zopp s (Z.pos m * 2 ^ e))
      else
        let d := 2 ^ (- e) in
        let q := Z.pos m / d in
        let r := Z.pos m mod d in
        Ok (cond_Zopp s
              (match 2 * r ?= d with
               | Lt => q
               | Gt => q + 1
               | Eq => if Z.even q then q else q + 1
               end))
  | S754_infinity _ =>
      Raise (OverflowError (u8 "cannot convert float infinity to integer"))
  | S754_nan => Raise (ValueError (u8 "cannot convert float NaN to integer"))
  end.

(** Following the spec's words: [round((i + 1) / file_count * 100)]. *)
Definition spec_rounded_percent (i file_count : Z) : Z :=
  match int_truediv (i + 1) file_count with
  | Ok q =>
      match py_round (float_mul_int q 100) with
      | Ok pct => pct
      | _ => 0
      end
  | _ => 0
  end.

(** The output directory exists already or can be created. *)
Definition dir_available (output_dir : pystr) (s : state) : Prop :=
  output_dir ∈ fs_dirs (the_world s)
  \/ output_dir ∈ dom (fs_files (the_world s))
  \/ env_mkdir_error (the_world s) output_dir = None.

(** The record returned after the loop. *)
Definition batch_record (created_files failed_files : list pystr)
    (output_dir : pystr) (contacts_per_file : Z) : gmap string pyval :=
  {[ "success" := VBool (length failed_files =? 0)%nat;
     "files_created" := VInt (Z.of_nat (length created_files));
     "files_failed" := VInt (Z.of_nat (length failed_files));
     "created_files" := VList created_files;
     "failed_files" := VList failed_files;
     "output_directory" := VStr output_dir;
     "total_contacts" :=
       VInt (Z.of_nat (length created_files) * contacts_per_file) ]}.

(** The indices of [range(file_count)]. *)
Definition range (file_count : Z) : list Z := map Z.of_nat (seq 0 (Z.to_nat file_count)).

(** A float below [2^K] in magnitude with exponent in [lo, 971], or zero. *)
Definition fin_bound (lo K : Z) (x : float) : Prop :=
  match x with
  | S754_zero _ => True
  | S754_finite _ m e => Z.pos m < 2 ^ (K - e) /\ lo <= e <= 971
  | _ => False
  end.

(** The computation of the file name in iteration [i] of the loop of
    [generate_vcf_files]. *)
Definition filename_expr (str_format : pystr -> Z -> outcome pystr)
    (filename_prefix naming_mode : pystr) (start_number : Z)
    (number_format : pystr) (timestamp : option pystr) (i : Z) : M pystr :=
  if str_eqb naming_mode (u8 "custom_number") then
    let current_number := start_number + i in
    number_str <- lift (str_format number_format current_number) ;;
    ret (filename_prefix ++ u8 "_" ++ number_str ++ u8 ".vcf")
  else
    ts <- VCFGenerator.read_timestamp timestamp ;;
    ret (filename_prefix ++ u8 "_" ++ ts ++ u8 "_" ++ format_03d (i + 1)
         ++ u8 ".vcf").

(** What an observer sees of iteration [i]: the file opened, then the
    progress call if a callback was supplied. *)
Definition iteration_view (os_path_join : pystr -> pystr -> pystr)
    (output_dir : pystr) (progress_callback : bool) (file_count : Z)
    (name : Z -> pystr) (i : Z) : list (pystr + Z) :=
  inl (os_path_join output_dir (name i))
  :: (if progress_callback then [inr (percent_value i file_count)] else []).

(** The part of [generate_vcf_files] after the directory step. *)
Definition after_directory (str_format : pystr -> Z -> outcome pystr)
    (os_path_join : pystr -> pystr -> pystr) (file_count contacts_per_file : Z)
    (output_dir filename_prefix gender : pystr) (carrier : option pystr)
    (unique_phones progress_callback : bool) (naming_mode : pystr)
    (start_number : Z) (number_format : pystr) : M (gmap string pyval) :=
  timestamp <-
    (if str_eqb naming_mode (u8 "timestamp") then
       ts <- datetime_now_strftime ;; ret (Some ts)
     else ret None) ;;
  lists <-
    VCFGenerator.files_loop str_format os_path_join (range file_count)
      contacts_per_file output_dir filename_prefix gender carrier unique_phones
      progress_callback naming_mode start_number number_format file_count
      timestamp [] [] ;;
  let '(created_files, failed_files) := lists in
  ret (batch_record created_files failed_files output_dir contacts_per_file).

(** The file name [name i] of iteration [i] can be computed, in either
    naming mode. *)
Definition naming_ok (str_format : pystr -> Z -> outcome pystr)
    (file_count : Z) (filename_prefix naming_mode : pystr) (start_number : Z)
    (number_format : pystr) (name : Z -> pystr) (s : state) : Prop :=
  (naming_mode = u8 "timestamp"
   /\ forall i, name i = filename_prefix ++ u8 "_" ++ env_now (the_world s)
                         ++ u8 "_" ++ format_03d (i + 1) ++ u8 ".vcf")
  \/ (naming_mode = u8 "custom_number"
      /\ forall i, 0 <= i < file_count ->
           exists v, str_format number_format (start_number + i) = Ok v
                     /\ name i = filename_prefix ++ u8 "_" ++ v ++ u8 ".vcf").

(** A phone number made of a prefix of [pool] and digits up to length 11. *)
Definition phone_from (pool : list pystr) (phone : pystr) : Prop :=
  exists chosen ds,
    phone = chosen ++ ds /\ chosen ∈ pool
    /\ length phone = 11%nat /\ all_digits phone.

(** A surname followed by a given name of the tables of a gender. *)
Definition name_from (given : list pystr) (name : pystr) : Prop :=
  exists x g, name = x ++ g /\ x ∈ NameGenerator.xing /\ g ∈ given.

Definition boy_given : list pystr := NameGenerator.boy2 ++ NameGenerator.boy1.
Definition girl_given : list pystr := NameGenerator.girl2 ++ NameGenerator.girl1.

(** The given names that [generate_names] can use for a gender. *)
Definition given_of_gender (gender : pystr) : list pystr :=
  if str_eqb gender (u8 "boy") then boy_given
  else if str_eqb gender (u8 "girl") then girl_given
  else if str_eqb gender (u8 "all") then boy_given ++ girl_given
  else [].

(** The text of a list of contacts: every entry followed by an empty
    line.  Contacts whose entry cannot be made contribute nothing. *)
Definition vcf_text (contacts : list (pystr * pystr)) : pystr :=
  flat_map (fun '(name, phone) =>
              match VCFGenerator.create_contact_vcf_entry name phone with
              | Ok entry => entry ++ [10%N]
              | _ => []
              end) contacts.

(** Every contact has a name with a first character. *)
Definition named (contacts : list (pystr * pystr)) : Prop :=
  Forall (fun c => fst c <> []) contacts.

(** The [carrier] arguments of [generate_phone_number] with the names
    that [get_carrier_name] gives to their prefixes. *)
Definition carrier_names : list (pystr * pystr) :=
  [ (u8 "mobile", u8 "中国移动"); (u8 "unicom", u8 "中国联通");
    (u8 "telecom", u8 "中国电信"); (u8 "virtual", u8 "虚拟运营商") ].

(** The state [s] after [events] were observed. *)
Definition with_events (s : state) (events : list event) : state :=
  let w := the_world s in
  mkState (rand_tape s) (rand_pos s) (gen_calls s)
    (mkWorld (fs_dirs w) (fs_files w) (env_mkdir_error w) (env_open_error w)
             (env_now w) (trace w ++ events)).

(** The state [s] after the file [filename] was given the text [content]
    and [events] were observed. *)
Definition with_file (s : state) (filename content : pystr)
    (events : list event) : state :=
  let w := the_world s in
  mkState (rand_tape s) (rand_pos s) (gen_calls s)
    (mkWorld (fs_dirs w) (<[ filename := content ]> (fs_files w))
             (env_mkdir_error w) (env_open_error w) (env_now w)
             (trace w ++ events)).

(** A generated contact: a name of the gender and a number of the carrier. *)
Definition contact_from (gender : pystr) (carrier : option pystr)
    (contact : pystr * pystr) : Prop :=
  name_from (given_of_gender gender) (fst contact)
  /\ phone_from (prefix_pool None carrier) (snd contact).

(** The contacts of one file of a batch: generated contacts, at most
    [contacts_per_file] of them, exactly that many when the gender is one
    of the three and duplicate numbers are allowed, none for another
    gender. *)
Definition batch_ok (gender : pystr) (carrier : option pystr)
    (unique_phones : bool) (contacts_per_file : Z)
    (batch : list (pystr * pystr)) : Prop :=
  Forall (contact_from gender carrier) batch
  /\ Z.of_nat (length batch) <= Z.max 0 contacts_per_file
  /\ (gender_valid gender -> unique_phones = false ->
      Z.of_nat (length batch) = Z.max 0 contacts_per_file)
  /\ (~ gender_valid gender -> batch = []).

(** Whether [open(path, 'w')] succeeds in the world of [s]. *)
Definition opens (s : state) (path : pystr) : bool :=
  bool_decide (env_open_error (the_world s) path = None).

(** The record returned when the output directory cannot be created. *)
Definition failure_record (msg : pystr) : gmap string pyval :=
  {[ "success" := VBool false;
     "error" := VStr (u8 "无法创建输出目录: " ++ msg);
     "files_created" := VInt 0 ]}.

(** A prefix text that [generate_phone_number] rejects: not the text
    "随机" of the prefix box, not empty, and not a supported prefix. *)
Definition unsupported_prefix (prefix : pystr) : Prop :=
  prefix <> u8 "随机" /\ prefix <> [] /\ prefix ∉ PhoneGenerator.prefixes.

(** ** Example inputs *)

(** A tape whose draws vary, and one that always draws 0. *)
Definition example_tape : nat -> N := fun i => (N.of_nat i * 7919 + 3)%N.
Definition zero_tape : nat -> N := fun _ => 0%N.

(** An empty file system in which every directory can be created and
    every file opened. *)
Definition example_world : world :=
  mkWorld ∅ ∅ (fun _ => None) (fun _ => None) (u8 "20240101_120000") [].

(** A file system in which no directory can be created. *)
Definition readonly_world : world :=
  mkWorld ∅ ∅ (fun _ => Some (u8 "Permission denied")) (fun _ => None)
          (u8 "20240101_120000") [].

Definition example_state : state := mkState example_tape 0 0 example_world.
Definition zero_state : state := mkState zero_tape 0 0 example_world.
Definition readonly_state : state := mkState example_tape 0 0 readonly_world.

(** * Properties *)

(** ** Running monadic code *)

Lemma bind_ok {A B} (c : M A) (k : A -> M B) s a s' :
  c s = (Ok a, s') -> bind c k s = k a s'.
Proof. intros H. unfold bind. now rewrite H. Qed.

Lemma bind_raise {A B} (c : M A) (k : A -> M B) s e s' :
  c s = (Raise e, s') -> bind c k s = (Raise e, s').
Proof. intros H. unfold bind. now rewrite H. Qed.

Lemma pure_run_ret {A} (a : A) s (P : A -> Prop) : P a -> pure_run (ret a) s 0 P.
Proof. intros H. exists a, s. unfold ret. repeat split; auto with lia. Qed.

Lemma pure_run_bind {A B} (c : M A) (k : A -> M B) s n m P Q :
  pure_run c s n P ->
  (forall a s', P a -> the_world s' = the_world s -> rand_tape s' = rand_tape s ->
     pure_run (k a) s' m Q) ->
  pure_run (bind c k) s (n + m) Q.
Proof.
  intros (a & s1 & Hc & Ha & Hw & Ht & Hg) Hk.
  destruct (Hk a s1 Ha Hw Ht) as (b & s2 & Hb & Hq & Hw2 & Ht2 & Hg2).
  exists b, s2. rewrite (bind_ok _ _ _ _ _ Hc).
  repeat split; auto; try congruence. lia.
Qed.

Lemma pure_run_weaken {A} (c : M A) s k (P Q : A -> Prop) :
  pure_run c s k P -> (forall a, P a -> Q a) -> pure_run c s k Q.
Proof. intros (a & s' & H & Hp & Hrest) HPQ. exists a, s'. auto. Qed.

Lemma draw_run s : pure_run draw s 0 (fun _ => True).
Proof. eexists _, _. unfold draw. repeat split; simpl; auto with lia. Qed.

Lemma random_choice_run {A} (l : list A) s :
  l <> [] -> pure_run (random_choice l) s 0 (fun x => x ∈ l).
Proof.
  intros Hl. destruct l as [|x l]; [congruence|].
  unfold random_choice.
  apply (pure_run_bind _ _ _ 0 0 (fun _ => True)); [apply draw_run|].
  intros r s' _ _ _. apply pure_run_ret.
  apply list_elem_of_In, nth_In.
  pose proof (N.mod_lt r (N.of_nat (length (x :: l)))) as Hlt.
  cbn [length] in *. lia.
Qed.

Lemma random_randint_run a b s :
  a <= b -> pure_run (random_randint a b) s 0 (fun x => a <= x <= b).
Proof.
  intros Hab. unfold random_randint.
  destruct (Z.ltb_spec b a); [lia|].
  apply (pure_run_bind _ _ _ 0 0 (fun _ => True)); [apply draw_run|].
  intros r s' _ _ _. apply pure_run_ret.
  pose proof (Z.mod_pos_bound (Z.of_N r) (b - a + 1)). lia.
Qed.

Lemma random_random_run s : pure_run random_random s 0 (fun _ => True).
Proof.
  unfold random_random.
  apply (pure_run_bind _ _ _ 0 0 (fun _ => True)); [apply draw_run|].
  intros. now apply pure_run_ret.
Qed.

(** ** Facts read off the tables *)

Ltac by_evaluation := apply (bool_decide_unpack _); vm_compute; exact I.

Lemma prefixes_shape :
  Forall (fun p => (length p = 3 \/ length p = 4)%nat /\ all_digits p)
         PhoneGenerator.prefixes.
Proof. by_evaluation. Qed.

Lemma mobile_in_prefixes : PhoneGenerator.mobile_prefixes ⊆ PhoneGenerator.prefixes.
Proof. by_evaluation. Qed.
Lemma unicom_in_prefixes : PhoneGenerator.unicom_prefixes ⊆ PhoneGenerator.prefixes.
Proof. by_evaluation. Qed.
Lemma telecom_in_prefixes : PhoneGenerator.telecom_prefixes ⊆ PhoneGenerator.prefixes.
Proof. by_evaluation. Qed.
Lemma virtual_in_prefixes : PhoneGenerator.virtual_prefixes ⊆ PhoneGenerator.prefixes.
Proof. by_evaluation. Qed.

Lemma carrier_prefixes_length_3 :
  Forall (fun p => length p = 3%nat)
    (PhoneGenerator.mobile_prefixes ++ PhoneGenerator.unicom_prefixes
     ++ PhoneGenerator.telecom_prefixes ++ PhoneGenerator.virtual_prefixes).
Proof. by_evaluation. Qed.

Lemma unicom_not_mobile :
  Forall (fun p => p ∉ PhoneGenerator.mobile_prefixes) PhoneGenerator.unicom_prefixes.
Proof. by_evaluation. Qed.

Lemma telecom_not_earlier :
  Forall (fun p => p ∉ PhoneGenerator.mobile_prefixes ++ PhoneGenerator.unicom_prefixes)
         PhoneGenerator.telecom_prefixes.
Proof. by_evaluation. Qed.

Lemma virtual_not_earlier :
  Forall (fun p => p ∉ PhoneGenerator.mobile_prefixes ++ PhoneGenerator.unicom_prefixes
                         ++ PhoneGenerator.telecom_prefixes)
         PhoneGenerator.virtual_prefixes.
Proof. by_evaluation. Qed.

Lemma name_tables_nonempty :
  NameGenerator.xing <> [] /\ NameGenerator.boy1 <> [] /\ NameGenerator.boy2 <> []
  /\ NameGenerator.girl1 <> [] /\ NameGenerator.girl2 <> [].
Proof. repeat split; discriminate. Qed.

(** ** PhoneGenerator *)

Lemma prefix_pool_supported prefix carrier :
  prefix_arg_valid prefix -> prefix_pool prefix carrier ⊆ PhoneGenerator.prefixes.
Proof.
  intros Hv. unfold prefix_pool.
  destruct prefix as [[|c p]|]; simpl in Hv.
  2: { destruct Hv as [Hv|Hv]; [discriminate|]. intros x Hx.
       apply list_elem_of_singleton in Hx. now subst. }
  all: repeat case_bool_decide;
    auto using mobile_in_prefixes, unicom_in_prefixes, telecom_in_prefixes,
               virtual_in_prefixes.
Qed.

Lemma choose_prefix_run prefix carrier s :
  prefix_arg_valid prefix ->
  pure_run (PhoneGenerator.choose_prefix prefix carrier) s 0
           (fun p => p ∈ prefix_pool prefix carrier).
Proof.
  intros Hv. unfold PhoneGenerator.choose_prefix, prefix_pool.
  destruct prefix as [[|c p]|]; simpl in Hv.
  2: { destruct Hv as [Hv|Hv]; [discriminate|].
       unfold str_in. rewrite bool_decide_eq_true_2 by assumption.
       apply pure_run_ret. now apply list_elem_of_singleton. }
  all: repeat case_bool_decide; apply random_choice_run; discriminate.
Qed.

Lemma str_of_digit d :
  0 <= d <= 9 -> exists c, str_of_int d = [c] /\ is_digit c = true.
Proof.
  intros Hd.
  assert (d = 0 \/ d = 1 \/ d = 2 \/ d = 3 \/ d = 4 \/ d = 5 \/ d = 6 \/ d = 7
          \/ d = 8 \/ d = 9) as Hcases by lia.
  repeat (destruct Hcases as [-> | Hcases]); try subst d;
    (eexists; split; [vm_compute; reflexivity | reflexivity]).
Qed.

Lemma random_digits_run n s :
  pure_run (PhoneGenerator.random_digits n) s 0
           (fun ds => length ds = n /\ all_digits ds).
Proof.
  revert s. induction n as [|n IH]; intros s; simpl.
  - apply pure_run_ret. split; [reflexivity | constructor].
  - apply (pure_run_bind _ _ _ 0 0 (fun d => 0 <= d <= 9));
      [apply random_randint_run; lia|].
    intros d s1 Hd _ _.
    apply (pure_run_bind _ _ _ 0 0 (fun ds => length ds = n /\ all_digits ds));
      [apply IH|].
    intros ds s2 [Hlen Hds] _ _. apply pure_run_ret.
    destruct (str_of_digit d Hd) as (c & -> & Hc). simpl.
    split; [now rewrite Hlen | now constructor].
Qed.

Lemma count_call_run s : pure_run PhoneGenerator.count_call s 1 (fun _ => True).
Proof. eexists _, _. unfold PhoneGenerator.count_call. repeat split; simpl; lia. Qed.

(** What one call gives when the prefix argument is valid: a chosen
    prefix from the pool, followed by digits up to length 11. *)
Lemma generate_phone_number_run prefix carrier s :
  prefix_arg_valid prefix ->
  pure_run (PhoneGenerator.generate_phone_number prefix carrier) s 1
    (fun phone => exists chosen ds,
       phone = chosen ++ ds
       /\ chosen ∈ prefix_pool prefix carrier
       /\ chosen ∈ PhoneGenerator.prefixes
       /\ length phone = 11%nat
       /\ all_digits phone).
Proof.
  intros Hv. unfold PhoneGenerator.generate_phone_number.
  apply (pure_run_bind _ _ _ 1 0 (fun _ => True)); [apply count_call_run|].
  intros _ s1 _ _ _.
  apply (pure_run_bind _ _ _ 0 0 (fun p => p ∈ prefix_pool prefix carrier));
    [now apply choose_prefix_run|].
  intros chosen s2 Hpool _ _.
  pose proof (prefix_pool_supported prefix carrier Hv chosen Hpool) as Hsup.
  pose proof (proj1 (Forall_forall _ _) prefixes_shape chosen Hsup) as [Hlen Hdig].
  eapply (pure_run_bind _ _ _ 0 0); [apply random_digits_run|].
  intros ds s3 [Hds Hdd] _ _. apply pure_run_ret.
  exists chosen, ds. repeat split; auto.
  - rewrite length_app, Hds. lia.
  - apply Forall_app. split; assumption.
Qed.

(** C1.  The claim: the four per-carrier lists partition the full prefix
    list.  The lists are pairwise disjoint and every prefix of the full
    list other than "1440" is in exactly one of them, but "1440", which
    the full list holds among the China Mobile prefixes, is in none of
    the four lists. *)
Theorem C1_prefix_1440_in_no_carrier_list :
  let carrier_lists :=
    [PhoneGenerator.mobile_prefixes; PhoneGenerator.unicom_prefixes;
     PhoneGenerator.telecom_prefixes; PhoneGenerator.virtual_prefixes] in
  let owners (p : pystr) := filter (fun l => p ∈ l) carrier_lists in
  u8 "1440" ∈ PhoneGenerator.prefixes
  /\ owners (u8 "1440") = []
  /\ Forall (fun p => p <> u8 "1440" -> length (owners p) = 1%nat)
            PhoneGenerator.prefixes
  /\ Forall (fun l => l ⊆ PhoneGenerator.prefixes) carrier_lists
  /\ NoDup (concat carrier_lists).
Proof.
  cbv zeta. split_and!.
  - by_evaluation.
  - vm_compute. reflexivity.
  - by_evaluation.
  - by_evaluation.
  - by_evaluation.
Qed.

(** C5.  For a valid prefix argument (absent, empty or supported) and any
    carrier argument, [generate_phone_number] returns a string of length
    11 made of decimal digits that starts with an entry of the full
    prefix list. *)
Theorem C5_generate_phone_number_shape prefix carrier s :
  prefix_arg_valid prefix ->
  exists phone s',
    PhoneGenerator.generate_phone_number prefix carrier s = (Ok phone, s')
    /\ length phone = 11%nat
    /\ all_digits phone
    /\ exists p, p ∈ PhoneGenerator.prefixes /\ startswith phone p = true.
Proof.
  intros Hv.
  destruct (generate_phone_number_run prefix carrier s Hv)
    as (phone & s' & Hrun & (chosen & ds & -> & _ & Hsup & Hlen & Hdig) & _).
  exists (chosen ++ ds), s'. repeat split; auto.
  exists chosen. split; [assumption|].
  unfold startswith, str_eqb. rewrite take_app_length.
  now apply bool_decide_eq_true_2.
Qed.

Lemma C5_generate_phone_number_shape_witness :
  prefix_arg_valid (Some (u8 "138"))
  /\ exists phone s',
    PhoneGenerator.generate_phone_number (Some (u8 "138")) None example_state
      = (Ok phone, s')
    /\ length phone = 11%nat
    /\ all_digits phone
    /\ exists p, p ∈ PhoneGenerator.prefixes /\ startswith phone p = true.
Proof.
  assert (prefix_arg_valid (Some (u8 "138"))) as Hv by (right; by_evaluation).
  split; [exact Hv|].
  exact (C5_generate_phone_number_shape (Some (u8 "138")) None example_state Hv).
Defined.

Lemma phone_loop_unfold fuel count max_attempts prefix carrier unique
    phone_numbers generated_set attempts :
  PhoneGenerator.phone_loop (S fuel) count max_attempts prefix carrier unique
    phone_numbers generated_set attempts
  = if (Z.of_nat (length phone_numbers) <? count) && (attempts <? max_attempts)
    then
      phone <- PhoneGenerator.generate_phone_number prefix carrier ;;
      let '(phone_numbers', generated_set') :=
        match unique, generated_set with
        | true, Some seen =>
            if bool_decide (phone ∈ seen) then (phone_numbers, generated_set)
            else (phone_numbers ++ [phone], Some ({[ phone ]} ∪ seen))
        | _, _ => (phone_numbers ++ [phone], generated_set)
        end in
      PhoneGenerator.phone_loop fuel count max_attempts prefix carrier unique
        phone_numbers' generated_set' (attempts + 1)
    else ret phone_numbers.
Proof. reflexivity. Qed.

(** C6, as stated, fails for the empty string: it is not a member of the
    full prefix list, yet [if prefix:] takes it for an absent prefix and a
    number is returned. *)
Lemma C6_empty_prefix_is_not_rejected :
  (([] : pystr) ∉ PhoneGenerator.prefixes)
  /\ fst (PhoneGenerator.generate_phone_number (Some []) None example_state)
     = Ok (u8 "13721098765").
Proof. split; [by_evaluation | vm_compute; reflexivity]. Qed.

Lemma unsupported_prefix_raises_once prefix carrier s :
  prefix <> [] ->
  prefix ∉ PhoneGenerator.prefixes ->
  PhoneGenerator.generate_phone_number (Some prefix) carrier s
  = (Raise (ValueError (u8 "不支持的号段前缀: " ++ prefix)),
     mkState (rand_tape s) (rand_pos s) (S (gen_calls s)) (the_world s)).
Proof.
  intros Hne Hnot.
  unfold PhoneGenerator.generate_phone_number, PhoneGenerator.choose_prefix.
  destruct prefix as [|c p]; [congruence|].
  unfold str_in. rewrite bool_decide_eq_false_2 by assumption.
  reflexivity.
Qed.

(** C6, amended.  For every non-empty prefix argument that is not a
    member of the full prefix list, [generate_phone_number] raises
    ValueError ("unsupported prefix") before any random draw, and
    [generate_phone_numbers] with a positive count raises it in its first
    call of the generator, with no further call. *)
Theorem C6_unsupported_prefix_raises prefix carrier s :
  prefix <> [] ->
  prefix ∉ PhoneGenerator.prefixes ->
  let err := ValueError (u8 "不支持的号段前缀: " ++ prefix) in
  let s' := mkState (rand_tape s) (rand_pos s) (S (gen_calls s)) (the_world s) in
  PhoneGenerator.generate_phone_number (Some prefix) carrier s = (Raise err, s')
  /\ forall count unique, 0 < count ->
       PhoneGenerator.generate_phone_numbers count (Some prefix) carrier unique s
       = (Raise err, s').
Proof.
  intros Hne Hnot err s'.
  pose proof (unsupported_prefix_raises_once prefix carrier s Hne Hnot) as Hone.
  split; [exact Hone|].
  intros count unique Hcount.
  unfold PhoneGenerator.generate_phone_numbers.
  destruct (Z.leb_spec count 0); [lia|].
  destruct (Z.to_nat (count * 10)) as [|fuel] eqn:Hfuel; [lia|].
  rewrite phone_loop_unfold.
  change (Z.of_nat (length (@nil pystr))) with 0.
  destruct (Z.ltb_spec 0 count); [|lia].
  destruct (Z.ltb_spec 0 (count * 10)); [|lia].
  cbn [andb]. now rewrite (bind_raise _ _ _ _ _ Hone).
Qed.

Lemma C6_unsupported_prefix_raises_witness :
  let prefix := u8 "999" in
  let err := ValueError (u8 "不支持的号段前缀: " ++ prefix) in
  let s' := mkState example_tape 0 1 example_world in
  PhoneGenerator.generate_phone_number (Some prefix) None example_state = (Raise err, s')
  /\ forall count unique, 0 < count ->
       PhoneGenerator.generate_phone_numbers count (Some prefix) None unique example_state
       = (Raise err, s').
Proof.
  apply (C6_unsupported_prefix_raises (u8 "999") None example_state).
  - discriminate.
  - by_evaluation.
Defined.

(** Classification of a number that starts with a three-character prefix. *)
Lemma get_carrier_name_app p ds :
  length p = 3%nat ->
  PhoneGenerator.get_carrier_name (p ++ ds)
  = if str_in p PhoneGenerator.mobile_prefixes then u8 "中国移动"
    else if str_in p PhoneGenerator.unicom_prefixes then u8 "中国联通"
    else if str_in p PhoneGenerator.telecom_prefixes then u8 "中国电信"
    else if str_in p PhoneGenerator.virtual_prefixes then u8 "虚拟运营商"
    else u8 "未知运营商".
Proof.
  intros Hlen. destruct p as [|a [|b [|c [|d p]]]]; try discriminate.
  unfold PhoneGenerator.get_carrier_name.
  rewrite bool_decide_eq_false_2 by discriminate. reflexivity.
Qed.

Lemma get_carrier_name_1440 phone :
  take 4 phone = u8 "1440" ->
  PhoneGenerator.get_carrier_name phone = u8 "未知运营商".
Proof.
  intros H. destruct phone as [|a [|b [|c [|d rest]]]]; try discriminate.
  injection H as -> -> -> ->.
  etransitivity;
    [exact (get_carrier_name_app [49%N; 52%N; 52%N] (48%N :: rest) eq_refl)|].
  reflexivity.
Qed.

Lemma classify_in_pool (pool : list pystr) (name : pystr) prefix carrier s :
  prefix_arg_valid prefix ->
  prefix_pool prefix carrier = pool ->
  Forall (fun p => length p = 3%nat
                   /\ forall ds, PhoneGenerator.get_carrier_name (p ++ ds) = name) pool ->
  exists phone s',
    PhoneGenerator.generate_phone_number prefix carrier s = (Ok phone, s')
    /\ PhoneGenerator.get_carrier_name phone = name.
Proof.
  intros Hv Hpool Hall.
  destruct (generate_phone_number_run prefix carrier s Hv)
    as (phone & s' & Hrun & (chosen & ds & -> & Hin & _) & _).
  exists (chosen ++ ds), s'. split; [assumption|].
  rewrite Hpool in Hin.
  now apply (proj1 (Forall_forall _ _) Hall chosen Hin).
Qed.

Lemma pool_classified (pool : list pystr) (name : pystr) :
  Forall (fun p => length p = 3%nat
                   /\ PhoneGenerator.get_carrier_name (p ++ []) = name) pool ->
  Forall (fun p => length p = 3%nat
                   /\ forall ds, PhoneGenerator.get_carrier_name (p ++ ds) = name) pool.
Proof.
  intros Hall. eapply Forall_impl; [exact Hall|].
  intros p [Hlen Hname]. split; [assumption|].
  intros ds. rewrite get_carrier_name_app in * by assumption. assumption.
Qed.

Lemma supported_prefix_owner :
  Forall (fun p => p = u8 "1440"
                   \/ length p = 3%nat /\
                      (p ∈ PhoneGenerator.mobile_prefixes
                         /\ PhoneGenerator.get_carrier_name (p ++ []) = u8 "中国移动"
                       \/ p ∈ PhoneGenerator.unicom_prefixes
                         /\ PhoneGenerator.get_carrier_name (p ++ []) = u8 "中国联通"
                       \/ p ∈ PhoneGenerator.telecom_prefixes
                         /\ PhoneGenerator.get_carrier_name (p ++ []) = u8 "中国电信"
                       \/ p ∈ PhoneGenerator.virtual_prefixes
                         /\ PhoneGenerator.get_carrier_name (p ++ []) = u8 "虚拟运营商"))
         PhoneGenerator.prefixes.
Proof. by_evaluation. Qed.

Lemma generate_phone_number_ok_valid prefix carrier s phone s' :
  PhoneGenerator.generate_phone_number prefix carrier s = (Ok phone, s') ->
  prefix_arg_valid prefix.
Proof.
  intros H. destruct prefix as [[|c p]|]; simpl; auto.
  destruct (decide (c :: p ∈ PhoneGenerator.prefixes)) as [Hin|Hout]; auto.
  exfalso.
  rewrite (unsupported_prefix_raises_once (c :: p) carrier s) in H;
    [discriminate | discriminate | assumption].
Qed.

(** C3.  A number generated for one of the four carriers (no prefix
    argument) is classified by [get_carrier_name] to that carrier's
    display name.  A number whose chosen prefix is "1440", which an
    explicit prefix argument gives, is classified by its first three
    characters to "unknown carrier"; every other generated number is
    classified to the carrier whose list holds its first three
    characters. *)
Theorem C3_carrier_round_trip :
  (forall s, exists phone s',
      PhoneGenerator.generate_phone_number None (Some (u8 "mobile")) s = (Ok phone, s')
      /\ PhoneGenerator.get_carrier_name phone = u8 "中国移动")
  /\ (forall s, exists phone s',
      PhoneGenerator.generate_phone_number None (Some (u8 "unicom")) s = (Ok phone, s')
      /\ PhoneGenerator.get_carrier_name phone = u8 "中国联通")
  /\ (forall s, exists phone s',
      PhoneGenerator.generate_phone_number None (Some (u8 "telecom")) s = (Ok phone, s')
      /\ PhoneGenerator.get_carrier_name phone = u8 "中国电信")
  /\ (forall s, exists phone s',
      PhoneGenerator.generate_phone_number None (Some (u8 "virtual")) s = (Ok phone, s')
      /\ PhoneGenerator.get_carrier_name phone = u8 "虚拟运营商")
  /\ (forall carrier s, exists phone s',
      PhoneGenerator.generate_phone_number (Some (u8 "1440")) carrier s = (Ok phone, s')
      /\ take 4 phone = u8 "1440"
      /\ PhoneGenerator.get_carrier_name phone = u8 "未知运营商")
  /\ (forall prefix carrier s phone s',
      PhoneGenerator.generate_phone_number prefix carrier s = (Ok phone, s') ->
      if bool_decide (take 4 phone = u8 "1440")
      then PhoneGenerator.get_carrier_name phone = u8 "未知运营商"
      else
        take 3 phone ∈ PhoneGenerator.mobile_prefixes
          /\ PhoneGenerator.get_carrier_name phone = u8 "中国移动"
        \/ take 3 phone ∈ PhoneGenerator.unicom_prefixes
          /\ PhoneGenerator.get_carrier_name phone = u8 "中国联通"
        \/ take 3 phone ∈ PhoneGenerator.telecom_prefixes
          /\ PhoneGenerator.get_carrier_name phone = u8 "中国电信"
        \/ take 3 phone ∈ PhoneGenerator.virtual_prefixes
          /\ PhoneGenerator.get_carrier_name phone = u8 "虚拟运营商").
Proof.
  split_and!.
  - intros s. apply (classify_in_pool PhoneGenerator.mobile_prefixes); auto.
    + exact I.
    + apply pool_classified. by_evaluation.
  - intros s. apply (classify_in_pool PhoneGenerator.unicom_prefixes); auto.
    + exact I.
    + apply pool_classified. by_evaluation.
  - intros s. apply (classify_in_pool PhoneGenerator.telecom_prefixes); auto.
    + exact I.
    + apply pool_classified. by_evaluation.
  - intros s. apply (classify_in_pool PhoneGenerator.virtual_prefixes); auto.
    + exact I.
    + apply pool_classified. by_evaluation.
  - intros carrier s.
    assert (prefix_arg_valid (Some (u8 "1440"))) as Hv by (right; by_evaluation).
    destruct (generate_phone_number_run _ carrier s Hv)
      as (phone & s' & Hrun & (chosen & ds & -> & Hin & _) & _).
    apply list_elem_of_singleton in Hin. subst chosen.
    exists (u8 "1440" ++ ds), s'. split_and!; [assumption | reflexivity |].
    now apply get_carrier_name_1440.
  - intros prefix carrier s phone s' Hrun.
    pose proof (generate_phone_number_ok_valid _ _ _ _ _ Hrun) as Hv.
    destruct (generate_phone_number_run prefix carrier s Hv)
      as (phone' & s'' & Hrun' & (chosen & ds & -> & _ & Hsup & _) & _).
    rewrite Hrun in Hrun'. injection Hrun' as -> _.
    case_bool_decide as H4; [now apply get_carrier_name_1440|].
    pose proof (proj1 (Forall_forall _ _) supported_prefix_owner chosen Hsup)
      as [-> | [Hlen Hown]]; [now contradiction H4|].
    rewrite (take_app_length' chosen ds 3) by (now symmetry).
    rewrite !get_carrier_name_app in * by assumption.
    exact Hown.
Qed.

Lemma C3_carrier_round_trip_witness :
  PhoneGenerator.generate_phone_number None None example_state
    = (Ok (u8 "13721098765"), mkState example_tape 9 1 example_world)
  /\ (take 3 (u8 "13721098765") ∈ PhoneGenerator.mobile_prefixes
        /\ PhoneGenerator.get_carrier_name (u8 "13721098765") = u8 "中国移动"
      \/ take 3 (u8 "13721098765") ∈ PhoneGenerator.unicom_prefixes
        /\ PhoneGenerator.get_carrier_name (u8 "13721098765") = u8 "中国联通"
      \/ take 3 (u8 "13721098765") ∈ PhoneGenerator.telecom_prefixes
        /\ PhoneGenerator.get_carrier_name (u8 "13721098765") = u8 "中国电信"
      \/ take 3 (u8 "13721098765") ∈ PhoneGenerator.virtual_prefixes
        /\ PhoneGenerator.get_carrier_name (u8 "13721098765") = u8 "虚拟运营商").
Proof.
  assert (PhoneGenerator.generate_phone_number None None example_state
          = (Ok (u8 "13721098765"), mkState example_tape 9 1 example_world)) as H
    by (vm_compute; reflexivity).
  split; [exact H|].
  exact (proj2 (proj2 (proj2 (proj2 (proj2 C3_carrier_round_trip))))
           None None example_state _ _ H).
Defined.

(** The loop of [generate_phone_numbers] when uniqueness is requested:
    it returns, the numbers are pairwise distinct, at most [count], and
    the generator is called at most [max_attempts - attempts] times, all
    of them when the list stays short. *)
Lemma phone_loop_unique fuel :
  forall count max_attempts prefix carrier phone_numbers (seen : gset pystr)
         attempts s,
    prefix_arg_valid prefix ->
    max_attempts - attempts <= Z.of_nat fuel ->
    attempts <= max_attempts ->
    NoDup phone_numbers ->
    (forall x, x ∈ phone_numbers -> x ∈ seen) ->
    Z.of_nat (length phone_numbers) <= count ->
    exists k,
      pure_run (PhoneGenerator.phone_loop fuel count max_attempts prefix carrier
                  true phone_numbers (Some seen) attempts) s k
               (fun l => NoDup l /\ Z.of_nat (length l) <= count
                         /\ (Z.of_nat (length l) < count ->
                             Z.of_nat k = max_attempts - attempts))
      /\ Z.of_nat k <= max_attempts - attempts.
Proof.
  induction fuel as [|fuel IH];
    intros count max_attempts prefix carrier pn seen attempts s
           Hv Hfuel Hatt Hnd Hseen Hlen.
  - assert (attempts = max_attempts) as -> by lia.
    exists 0%nat. split; [|lia]. simpl.
    rewrite Z.ltb_irrefl, andb_false_r.
    apply pure_run_ret. split_and!; auto. lia.
  - rewrite phone_loop_unfold.
    destruct (Z.ltb_spec (Z.of_nat (length pn)) count) as [Hshort|Hfull];
      destruct (Z.ltb_spec attempts max_attempts) as [Hmore|Hdone]; cbn [andb];
      try (exists 0%nat; split; [|lia]; apply pure_run_ret; split_and!; auto; lia).
    destruct (generate_phone_number_run prefix carrier s Hv)
      as (phone & s1 & Hrun & _ & Hw1 & Ht1 & Hg1).
    destruct (decide (phone ∈ seen)) as [Hdup|Hnew].
    + destruct (IH count max_attempts prefix carrier pn seen (attempts + 1) s1)
        as (k & (l & s2 & Hloop & (Hl1 & Hl2 & Hl3) & Hw2 & Ht2 & Hg2) & Hk);
        auto; try lia.
      exists (S k). split; [|lia].
      exists l, s2. rewrite (bind_ok _ _ _ _ _ Hrun). cbv beta.
      rewrite bool_decide_eq_true_2 by assumption.
      split_and!; auto; try congruence; lia.
    + destruct (IH count max_attempts prefix carrier (pn ++ [phone])
                   ({[ phone ]} ∪ seen) (attempts + 1) s1)
        as (k & (l & s2 & Hloop & (Hl1 & Hl2 & Hl3) & Hw2 & Ht2 & Hg2) & Hk);
        auto; try lia.
      * apply NoDup_app. split_and!; auto.
        -- intros x Hx Hx'. apply list_elem_of_singleton in Hx'. subst x.
           apply Hnew. now apply Hseen.
        -- apply NoDup_singleton.
      * intros x Hx. apply elem_of_app in Hx as [Hx|Hx].
        -- apply elem_of_union_r. now apply Hseen.
        -- apply list_elem_of_singleton in Hx. subst x.
           apply elem_of_union_l. now apply elem_of_singleton.
      * rewrite length_app. simpl. lia.
      * exists (S k). split; [|lia].
        exists l, s2. rewrite (bind_ok _ _ _ _ _ Hrun). cbv beta.
        rewrite bool_decide_eq_false_2 by assumption.
        split_and!; auto; try congruence; lia.
Qed.

(** The loop when duplicates are allowed: every call adds a number. *)
Lemma phone_loop_any fuel :
  forall count max_attempts prefix carrier phone_numbers attempts s,
    prefix_arg_valid prefix ->
    max_attempts - attempts <= Z.of_nat fuel ->
    count - Z.of_nat (length phone_numbers) <= max_attempts - attempts ->
    Z.of_nat (length phone_numbers) <= count ->
    exists k,
      pure_run (PhoneGenerator.phone_loop fuel count max_attempts prefix carrier
                  false phone_numbers None attempts) s k
               (fun l => Z.of_nat (length l) = count).
Proof.
  induction fuel as [|fuel IH];
    intros count max_attempts prefix carrier pn attempts s Hv Hfuel Hleft Hlen.
  - exists 0%nat. simpl.
    destruct (Z.ltb_spec (Z.of_nat (length pn)) count); [lia|]. cbn [andb].
    apply pure_run_ret. lia.
  - rewrite phone_loop_unfold.
    destruct (Z.ltb_spec (Z.of_nat (length pn)) count) as [Hshort|Hfull]; cbn [andb].
    2: { exists 0%nat. apply pure_run_ret. lia. }
    destruct (Z.ltb_spec attempts max_attempts) as [Hmore|Hdone]; [|lia].
    destruct (generate_phone_number_run prefix carrier s Hv)
      as (phone & s1 & Hrun & _ & Hw1 & Ht1 & Hg1).
    destruct (IH count max_attempts prefix carrier (pn ++ [phone]) (attempts + 1) s1)
      as (k & l & s2 & Hloop & Hl & Hw2 & Ht2 & Hg2); auto;
      try (rewrite length_app; simpl; lia); try lia.
    exists (S k), l, s2. rewrite (bind_ok _ _ _ _ _ Hrun).
    split_and!; auto; try congruence; lia.
Qed.

(** C4.  For a positive count and a valid prefix argument:
    with [unique=True] the call returns normally a list of pairwise
    distinct numbers, of length at most [count], after at most
    [count * 10] calls of the single-number generator, and a list shorter
    than [count] is returned only after all [count * 10] calls (silent
    truncation); with [unique=False] it returns exactly [count] numbers. *)
Theorem C4_generate_phone_numbers_cap count prefix carrier s :
  0 < count ->
  prefix_arg_valid prefix ->
  (exists l s',
     PhoneGenerator.generate_phone_numbers count prefix carrier true s = (Ok l, s')
     /\ NoDup l
     /\ Z.of_nat (length l) <= count
     /\ Z.of_nat (gen_calls s' - gen_calls s) <= count * 10
     /\ (Z.of_nat (length l) < count ->
         Z.of_nat (gen_calls s' - gen_calls s) = count * 10))
  /\ (exists l s',
     PhoneGenerator.generate_phone_numbers count prefix carrier false s = (Ok l, s')
     /\ Z.of_nat (length l) = count).
Proof.
  intros Hcount Hv. unfold PhoneGenerator.generate_phone_numbers.
  destruct (Z.leb_spec count 0); [lia|]. split.
  - destruct (phone_loop_unique (Z.to_nat (count * 10)) count (count * 10)
                prefix carrier [] ∅ 0 s)
      as (k & (l & s' & Hrun & (Hnd & Hlen & Hcap) & _ & _ & Hg) & Hk);
      auto; try lia.
    + constructor.
    + intros x Hx. now apply elem_of_nil in Hx.
    + simpl. lia.
    + exists l, s'. rewrite Hg.
      replace (gen_calls s + k - gen_calls s)%nat with k by lia.
      split_and!; auto; lia.
  - destruct (phone_loop_any (Z.to_nat (count * 10)) count (count * 10)
                prefix carrier [] 0 s)
      as (k & l & s' & Hrun & Hlen & _); auto; try (simpl; lia).
    exists l, s'. auto.
Qed.

Lemma C4_generate_phone_numbers_cap_witness :
  0 < 3 /\ prefix_arg_valid (Some (u8 "138"))
  /\ (exists l s',
     PhoneGenerator.generate_phone_numbers 3 (Some (u8 "138")) None true zero_state
       = (Ok l, s')
     /\ NoDup l
     /\ Z.of_nat (length l) <= 3
     /\ Z.of_nat (gen_calls s' - gen_calls zero_state) <= 3 * 10
     /\ (Z.of_nat (length l) < 3 ->
         Z.of_nat (gen_calls s' - gen_calls zero_state) = 3 * 10))
  /\ (exists l s',
     PhoneGenerator.generate_phone_numbers 3 (Some (u8 "138")) None false zero_state
       = (Ok l, s')
     /\ Z.of_nat (length l) = 3).
Proof.
  assert (prefix_arg_valid (Some (u8 "138"))) as Hv by (right; by_evaluation).
  split; [lia|]. split; [exact Hv|].
  apply (C4_generate_phone_numbers_cap 3 (Some (u8 "138")) None zero_state);
    [lia | exact Hv].
Defined.

(** A run that reaches the cap: the tape always draws 0, so every call
    gives the same number and one number comes back after 30 calls. *)
Example generate_phone_numbers_truncated :
  let r := PhoneGenerator.generate_phone_numbers 3 (Some (u8 "138")) None true
             zero_state in
  fst r = Ok [u8 "13800000000"] /\ gen_calls (snd r) = 30%nat.
Proof. vm_compute. split; reflexivity. Qed.

(** ** NameGenerator *)

Lemma startswith_app (x y : pystr) : startswith (x ++ y) x = true.
Proof.
  unfold startswith, str_eqb. rewrite take_app_length.
  now apply bool_decide_eq_true_2.
Qed.

Lemma make_name_run (given2 given1 : list pystr) s :
  given2 <> [] -> given1 <> [] ->
  pure_run
    (first <- NameGenerator.get_random_from_array NameGenerator.xing ;;
     r <- random_random ;;
     let choice := if SFltb r float_0_7 then 1 else 2 in
     second <- (if choice =? 1 then NameGenerator.get_random_from_array given2
                else NameGenerator.get_random_from_array given1) ;;
     ret (first ++ second))
    s 0 surname_prefixed.
Proof.
  intros H2 H1.
  apply (pure_run_bind _ _ _ 0 0 (fun x => x ∈ NameGenerator.xing)).
  { apply random_choice_run. discriminate. }
  intros first s1 Hfirst _ _.
  apply (pure_run_bind _ _ _ 0 0 (fun _ => True)); [apply random_random_run|].
  intros r s2 _ _ _. cbv zeta.
  apply (pure_run_bind _ _ _ 0 0 (fun _ => True)).
  { destruct (_ =? 1);
      (eapply pure_run_weaken; [apply random_choice_run; assumption | auto]). }
  intros second s3 _ _ _. apply pure_run_ret.
  exists first. split; [assumption | apply startswith_app].
Qed.

Lemma make_boy_name_run s : pure_run NameGenerator.make_boy_name s 0 surname_prefixed.
Proof. apply make_name_run; discriminate. Qed.

Lemma make_girl_name_run s : pure_run NameGenerator.make_girl_name s 0 surname_prefixed.
Proof. apply make_name_run; discriminate. Qed.

Lemma append_name_run (c : M pystr) (names : list pystr) s :
  pure_run c s 0 surname_prefixed ->
  Forall surname_prefixed names ->
  pure_run (name <- c ;; ret (names ++ [name])) s 0
    (fun l => Forall surname_prefixed l /\ length l = S (length names)).
Proof.
  intros Hc Hnames.
  apply (pure_run_bind _ _ _ 0 0 surname_prefixed); [assumption|].
  intros name s1 Hname _ _. apply pure_run_ret. split.
  - apply Forall_app. split; [assumption | now constructor].
  - rewrite length_app. simpl. lia.
Qed.

(** The loop of [generate_names] always returns; for one of the three
    genders every iteration adds one name. *)
Lemma names_loop_run n :
  forall gender names s,
    Forall surname_prefixed names ->
    pure_run (NameGenerator.names_loop n gender names) s 0
      (fun l => Forall surname_prefixed l
                /\ (gender_valid gender -> length l = (length names + n)%nat)).
Proof.
  induction n as [|n IH]; intros gender names s Hnames; simpl.
  - apply pure_run_ret. split; [assumption | lia].
  - apply (pure_run_bind _ _ _ 0 0
             (fun l => Forall surname_prefixed l
                       /\ (gender_valid gender -> length l = S (length names)))).
    + unfold str_eqb. repeat case_bool_decide.
      * eapply pure_run_weaken;
          [apply append_name_run; [apply make_boy_name_run | assumption]|].
        intros l [? ?]. auto.
      * eapply pure_run_weaken;
          [apply append_name_run; [apply make_girl_name_run | assumption]|].
        intros l [? ?]. auto.
      * apply (pure_run_bind _ _ _ 0 0 (fun _ => True));
          [eapply pure_run_weaken; [apply random_randint_run; lia | auto]|].
        intros choice s1 _ _ _.
        destruct (choice =? 1);
          (eapply pure_run_weaken;
            [apply append_name_run;
              [first [apply make_boy_name_run | apply make_girl_name_run]
              | assumption]|]);
          intros l [? ?]; auto.
      * apply pure_run_ret. split; [assumption|].
        intros Hg. unfold gender_valid in Hg.
        repeat (apply elem_of_cons in Hg as [Hg|Hg]; [congruence|]).
        now apply elem_of_nil in Hg.
    + intros l s1 [Hl Hlen] _ _.
      eapply pure_run_weaken; [apply IH; assumption|].
      intros l' [Hl' Hlen']. split; [assumption|].
      intros Hg. rewrite (Hlen' Hg), (Hlen Hg). lia.
Qed.

Lemma generate_names_run num gender s :
  pure_run (NameGenerator.generate_names num gender) s 0
    (fun l => Forall surname_prefixed l
              /\ (gender_valid gender -> length l = Z.to_nat num)).
Proof.
  unfold NameGenerator.generate_names.
  destruct (Z.leb_spec num 0).
  - apply pure_run_ret. split; [constructor|]. intros _. simpl. lia.
  - eapply pure_run_weaken; [apply names_loop_run; constructor|].
    intros l [Hl Hlen]. split; [assumption|]. simpl in Hlen. exact Hlen.
Qed.

(** C7.  For every count and every gender among "boy", "girl" and "all",
    [generate_names] returns exactly [count] strings (none for
    [count <= 0]), each of which starts with an entry of the surname
    table. *)
Theorem C7_generate_names_count count gender s :
  gender_valid gender ->
  exists names s',
    NameGenerator.generate_names count gender s = (Ok names, s')
    /\ Z.of_nat (length names) = Z.max 0 count
    /\ Forall surname_prefixed names.
Proof.
  intros Hg.
  destruct (generate_names_run count gender s)
    as (names & s' & Hrun & (Hall & Hlen) & _).
  exists names, s'. split_and!; auto. rewrite (Hlen Hg). lia.
Qed.

Lemma C7_generate_names_count_witness :
  gender_valid (u8 "all")
  /\ exists names s',
    NameGenerator.generate_names 5 (u8 "all") example_state = (Ok names, s')
    /\ Z.of_nat (length names) = Z.max 0 5
    /\ Forall surname_prefixed names.
Proof.
  assert (gender_valid (u8 "all")) as Hg by by_evaluation.
  split; [exact Hg|].
  exact (C7_generate_names_count 5 (u8 "all") example_state Hg).
Defined.

(** ** VCFGenerator *)

(** C8.  [create_contact_vcf_entry] depends on its two arguments only and
    leaves the state alone; for a name with first character [c] and rest
    [rest] it is the vCard 3.0 template with [N:c;rest;;;], in which the
    TYPE=VOICE line carries an 11-character phone grouped 3-4-4 with
    spaces, and any other phone unchanged. *)
Theorem C8_create_contact_vcf_entry_template (c : N) (rest phone : pystr) :
  (forall s : state,
     lift (VCFGenerator.create_contact_vcf_entry (c :: rest) phone) s
     = (VCFGenerator.create_contact_vcf_entry (c :: rest) phone, s))
  /\ (forall a b d : pystr,
        length a = 3%nat -> length b = 4%nat -> length d = 4%nat ->
        phone = a ++ b ++ d ->
        VCFGenerator.create_contact_vcf_entry (c :: rest) phone
        = Ok (unlines (vcard_lines c rest phone (a ++ u8 " " ++ b ++ u8 " " ++ d))))
  /\ (length phone <> 11%nat ->
        VCFGenerator.create_contact_vcf_entry (c :: rest) phone
        = Ok (unlines (vcard_lines c rest phone phone))).
Proof.
  split_and!.
  - reflexivity.
  - intros a b d Ha Hb Hd ->.
    unfold VCFGenerator.create_contact_vcf_entry, slice.
    rewrite !length_app, Ha, Hb, Hd. cbn [Nat.eqb Nat.add].
    rewrite (take_app_length' a (b ++ d) 3) by (now symmetry).
    rewrite (drop_app_length' a (b ++ d) 3) by (now symmetry).
    rewrite (take_app_length' b d (7 - 3)) by (now rewrite Hb).
    replace (drop 7 (a ++ b ++ d)) with d.
    2: { rewrite app_assoc. rewrite drop_app_length'; [reflexivity|].
         rewrite length_app, Ha, Hb. reflexivity. }
    unfold unlines, vcard_lines. simpl. f_equal.
    repeat (rewrite <- ?app_assoc; simpl). reflexivity.
  - intros Hlen. unfold VCFGenerator.create_contact_vcf_entry.
    destruct (Nat.eqb_spec (length phone) 11); [contradiction|].
    unfold unlines, vcard_lines. simpl. f_equal.
    repeat (rewrite <- ?app_assoc; simpl). reflexivity.
Qed.

Lemma C8_create_contact_vcf_entry_template_witness :
  VCFGenerator.create_contact_vcf_entry (u8 "司马光") (u8 "13812345678")
  = Ok (unlines [ u8 "BEGIN:VCARD";
                  u8 "VERSION:3.0";
                  u8 "FN:司马光";
                  u8 "N:司;马光;;;";
                  u8 "TEL;CELL:13812345678";
                  u8 "TEL;CELL;TYPE=VOICE:138 1234 5678";
                  u8 "END:VCARD" ]).
Proof.
  exact (proj1 (proj2 (C8_create_contact_vcf_entry_template
                         21496%N (u8 "马光") (u8 "13812345678")))
           (u8 "138") (u8 "1234") (u8 "5678") eq_refl eq_refl eq_refl eq_refl).
Defined.

Lemma generate_phone_numbers_run count prefix carrier unique s :
  prefix_arg_valid prefix ->
  exists k, pure_run (PhoneGenerator.generate_phone_numbers count prefix carrier unique)
                     s k (fun _ => True).
Proof.
  intros Hv. unfold PhoneGenerator.generate_phone_numbers.
  destruct (Z.leb_spec count 0) as [|Hpos].
  { exists 0%nat. now apply pure_run_ret. }
  destruct unique.
  - destruct (phone_loop_unique (Z.to_nat (count * 10)) count (count * 10)
                prefix carrier [] ∅ 0 s) as (k & Hrun & _); auto; try lia.
    + constructor.
    + intros x Hx. now apply elem_of_nil in Hx.
    + simpl. lia.
    + exists k. eapply pure_run_weaken; [exact Hrun | auto].
  - destruct (phone_loop_any (Z.to_nat (count * 10)) count (count * 10)
                prefix carrier [] 0 s) as (k & Hrun); auto; try (simpl; lia).
    exists k. eapply pure_run_weaken; [exact Hrun | auto].
Qed.

(** [generate_contacts] always returns and leaves the world alone. *)
Lemma generate_contacts_run count gender carrier unique_phones s :
  exists contacts s',
    VCFGenerator.generate_contacts count gender carrier unique_phones s
      = (Ok contacts, s')
    /\ the_world s' = the_world s.
Proof.
  unfold VCFGenerator.generate_contacts.
  destruct (Z.leb_spec count 0).
  { exists [], s. split; reflexivity. }
  destruct (generate_names_run count gender s)
    as (names & s1 & Hnames & _ & Hw1 & _).
  destruct (generate_phone_numbers_run count None carrier unique_phones s1 I)
    as (k & phones & s2 & Hphones & _ & Hw2 & _).
  rewrite (bind_ok _ _ _ _ _ Hnames), (bind_ok _ _ _ _ _ Hphones).
  eexists _, s2. split; [reflexivity | congruence].
Qed.

Lemma for_each_run {A} (body : A -> M unit) (xs : list A) :
  (forall x s, exists r s',
      body x s = (r, s') /\ r <> OutOfFuel
      /\ trace (the_world s') = trace (the_world s)) ->
  forall s, exists r s',
    for_each xs body s = (r, s') /\ r <> OutOfFuel
    /\ trace (the_world s') = trace (the_world s).
Proof.
  intros Hbody. induction xs as [|x rest IH]; intros s; cbn [for_each].
  - exists (Ok tt), s. repeat split. discriminate.
  - unfold bind. destruct (Hbody x s) as (r & s1 & -> & Hne & Htr).
    destruct r as [[]|e|]; [| |congruence].
    + destruct (IH s1) as (r' & s2 & -> & Hne' & Htr').
      exists r', s2. repeat split; [assumption | congruence].
    + exists (Raise e), s1. repeat split; [discriminate | assumption].
Qed.

Lemma write_entry_run (filename : pystr) (contact : pystr * pystr) s :
  exists r s',
    (let '(name, phone) := contact in
     vcf_entry <- lift (VCFGenerator.create_contact_vcf_entry name phone) ;;
     file_write filename vcf_entry ;;;
     file_write filename [10%N]) s = (r, s')
    /\ r <> OutOfFuel
    /\ trace (the_world s') = trace (the_world s).
Proof.
  destruct contact as [name phone].
  unfold bind, lift, file_write, with_world.
  destruct (VCFGenerator.create_contact_vcf_entry name phone) as [entry|e|] eqn:He.
  - eexists _, _. split; [reflexivity|]. split; [discriminate | reflexivity].
  - eexists _, _. split; [reflexivity|]. split; [discriminate | reflexivity].
  - unfold VCFGenerator.create_contact_vcf_entry in He.
    destruct name; discriminate.
Qed.

(** [create_vcf_file] always returns a boolean; it opens the file once
    and may print. *)
Lemma create_vcf_file_run contacts filename s :
  exists ok s' opened tail,
    VCFGenerator.create_vcf_file contacts filename s = (Ok ok, s')
    /\ trace (the_world s') = trace (the_world s) ++ EvOpen filename opened :: tail
    /\ omap observe tail = [].
Proof.
  unfold VCFGenerator.create_vcf_file, try_except.
  unfold bind at 1. unfold open_w.
  unfold bind at 1. unfold read_world at 1.
  destruct (env_open_error (the_world s) filename) as [msg|] eqn:Herr.
  - eexists _, _, false, [_].
    unfold bind, emit, with_world, raise, print, emit, with_world, ret.
    cbn [the_world trace].
    split; [reflexivity|]. split.
    + now rewrite <- app_assoc.
    + reflexivity.
  - unfold bind at 1. unfold with_world at 1. unfold emit at 1, with_world at 1.
    cbn [the_world rand_tape rand_pos gen_calls fs_dirs fs_files env_mkdir_error
         env_open_error env_now trace].
    unfold bind at 1.
    match goal with |- context [for_each contacts ?body ?st] =>
      destruct (for_each_run body contacts (write_entry_run filename) st)
        as (r & s' & Hr & Hne & Htr)
    end.
    rewrite Hr. cbn [the_world trace] in Htr.
    destruct r as [[]|e|]; [| |congruence].
    + eexists _, _, true, []. unfold ret. split; [reflexivity|].
      split; [|reflexivity]. assumption.
    + eexists _, _, true, [_].
      unfold bind, print, emit, with_world, ret. cbn [the_world trace].
      split; [reflexivity|]. split.
      * rewrite Htr. now rewrite <- app_assoc.
      * reflexivity.
Qed.

(** ** Floating point: the percentage is always defined *)

Lemma digits2_pos_size p : digits2_pos p = Pos.size p.
Proof. induction p; simpl; congruence. Qed.

Lemma Zdigits2_upper m : 0 <= m -> m < 2 ^ Zdigits2 m.
Proof.
  destruct m as [|p|p]; simpl; intros H; try lia.
  rewrite digits2_pos_size. pose proof (Pos.size_gt p) as Hp.
  apply Pos2Z.pos_lt_pos in Hp. now rewrite Pos2Z.inj_pow in Hp.
Qed.

Lemma Zdigits2_lower m : 0 < m -> 2 ^ (Zdigits2 m - 1) <= m.
Proof.
  destruct m as [|p|p]; simpl; intros H; try lia.
  rewrite digits2_pos_size. pose proof (Pos.size_le p) as Hp.
  apply Pos2Z.pos_le_pos in Hp. rewrite Pos2Z.inj_pow in Hp.
  replace (Z.pos (Pos.size p)) with (Z.succ (Z.pos (Pos.size p) - 1)) in Hp by lia.
  rewrite Z.pow_succ_r in Hp by lia. lia.
Qed.

Lemma Zdigits2_nonneg m : 0 <= Zdigits2 m.
Proof. destruct m; simpl; lia. Qed.

Lemma Zdigits2_le m k : 0 <= m < 2 ^ k -> 0 <= k -> Zdigits2 m <= k.
Proof.
  intros [H0 Hk] Hk0.
  destruct (Z.eq_dec m 0) as [->|Hm]; [simpl; lia|].
  pose proof (Zdigits2_lower m ltac:(lia)) as Hlow.
  destruct (Z.le_gt_cases (Zdigits2 m) k) as [|Hgt]; [assumption|].
  pose proof (Z.pow_le_mono_r 2 k (Zdigits2 m - 1) ltac:(lia) ltac:(lia)). lia.
Qed.

Lemma fexp_eq e : fexp prec emax e = Z.max (e - 53) (-1074).
Proof. reflexivity. Qed.

Lemma shr_1_m mrs : 0 <= shr_m mrs -> shr_m (shr_1 mrs) = shr_m mrs / 2.
Proof.
  destruct mrs as [m r s]. simpl. intros Hm.
  destruct m as [|[p|p|]|p]; simpl; try lia; try reflexivity.
  - apply Z.div_unique with (r := 1); lia.
  - apply Z.div_unique with (r := 0); lia.
Qed.

Lemma iter_shr_m p : forall mrs,
  0 <= shr_m mrs ->
  shr_m (SpecFloat.iter_pos shr_1 p mrs) = shr_m mrs / 2 ^ Z.pos p.
Proof.
  induction p as [p IH|p IH|]; intros mrs Hm; simpl.
  - pose proof (shr_1_m mrs Hm) as H1.
    assert (0 <= shr_m (shr_1 mrs)) as Hs by (rewrite H1; apply Z.div_pos; lia).
    rewrite IH by (rewrite IH by assumption; apply Z.div_pos; lia).
    rewrite IH by assumption. rewrite H1.
    rewrite !Z.div_div by lia. f_equal.
    replace (Z.pos p~1) with (1 + Z.pos p + Z.pos p) by lia.
    rewrite !Z.pow_add_r by lia. lia.
  - rewrite IH by (rewrite IH by assumption; apply Z.div_pos; lia).
    rewrite IH by assumption.
    rewrite !Z.div_div by lia. f_equal.
    replace (Z.pos p~0) with (Z.pos p + Z.pos p) by lia.
    rewrite !Z.pow_add_r by lia. lia.
  - now apply shr_1_m.
Qed.

Lemma shr_record_of_loc_m m l : shr_m (shr_record_of_loc m l) = m.
Proof. destruct l as [|[]]; reflexivity. Qed.

(** What [shr_fexp] gives on a non-negative mantissa: the exponent is
    raised to the canonical one and the mantissa shifted accordingly. *)
Lemma shr_fexp_spec m e l :
  0 <= m ->
  exists mrs e',
    shr_fexp prec emax m e l = (mrs, e')
    /\ e' = Z.max e (fexp prec emax (Zdigits2 m + e))
    /\ shr_m mrs = m / 2 ^ (e' - e).
Proof.
  intros Hm. unfold shr_fexp, shr.
  destruct (fexp prec emax (Zdigits2 m + e) - e) as [|p|p] eqn:Hn.
  - eexists _, _. split; [reflexivity|]. split; [lia|].
    rewrite shr_record_of_loc_m. replace (e - e) with 0 by lia.
    now rewrite Z.div_1_r.
  - eexists _, _. split; [reflexivity|]. split; [lia|].
    rewrite iter_shr_m by (now rewrite shr_record_of_loc_m).
    rewrite shr_record_of_loc_m. f_equal. f_equal. lia.
  - eexists _, _. split; [reflexivity|]. split; [lia|].
    rewrite shr_record_of_loc_m. replace (e - e) with 0 by lia.
    now rewrite Z.div_1_r.
Qed.

Lemma round_nearest_even_bound m l :
  m <= round_nearest_even m l <= m + 1.
Proof. destruct l as [|[]]; simpl; try destruct (Z.even m); lia. Qed.

Lemma pow2_div_lt m a b :
  0 <= m < 2 ^ a -> 0 <= b <= a -> m / 2 ^ b < 2 ^ (a - b).
Proof.
  intros [Hm Ha] Hb.
  apply Z.div_lt_upper_bound; [lia|].
  rewrite <- Z.pow_add_r by lia. now replace (b + (a - b)) with a by lia.
Qed.

Lemma binary_round_aux_bound sx mx ex lx K :
  0 <= mx < 2 ^ (K - ex) ->
  ex <= K -> -1074 <= K <= 1023 -> ex <= 971 ->
  fin_bound ex (K + 1) (binary_round_aux prec emax sx mx ex lx).
Proof.
  intros [Hm0 HmK] HeK HK He. unfold binary_round_aux.
  destruct (shr_fexp_spec mx ex lx Hm0) as (mrs1 & e1 & -> & He1 & Hm1).
  pose proof (Zdigits2_le mx (K - ex) (conj Hm0 HmK) ltac:(lia)) as Hd.
  rewrite fexp_eq in He1.
  assert (ex <= e1 <= K /\ e1 <= 971) as [[He1lo He1K] He1hi] by lia.
  assert (0 <= shr_m mrs1 < 2 ^ (K - e1)) as [Hm1lo Hm1hi].
  { rewrite Hm1. split; [apply Z.div_pos; lia|].
    replace (K - e1) with (K - ex - (e1 - ex)) by lia.
    apply pow2_div_lt; lia. }
  pose proof (round_nearest_even_bound (shr_m mrs1) (loc_of_shr_record mrs1)) as Hr.
  set (m2 := round_nearest_even (shr_m mrs1) (loc_of_shr_record mrs1)) in *.
  assert (0 <= m2 < 2 ^ (K + 1 - e1)) as Hm2.
  { split; [lia|].
    replace (K + 1 - e1) with (Z.succ (K - e1)) by lia.
    rewrite Z.pow_succ_r by lia. lia. }
  destruct (shr_fexp_spec m2 e1 loc_Exact (proj1 Hm2)) as (mrs2 & e2 & -> & He2 & Hm3).
  pose proof (Zdigits2_le m2 (K + 1 - e1) Hm2 ltac:(lia)) as Hd2.
  rewrite fexp_eq in He2.
  assert (e1 <= e2 <= K + 1 /\ e2 <= 971) as [[He2lo He2K] He2hi] by lia.
  assert (0 <= shr_m mrs2 < 2 ^ (K + 1 - e2)) as [Hm3lo Hm3hi].
  { rewrite Hm3. split; [apply Z.div_pos; lia|].
    replace (K + 1 - e2) with (K + 1 - e1 - (e2 - e1)) by lia.
    apply pow2_div_lt; lia. }
  destruct (shr_m mrs2) as [|m|m] eqn:Hfinal; simpl; try lia.
  destruct (Z.leb_spec e2 (emax - prec)) as [|Hbig].
  - simpl. lia.
  - unfold emax, prec in Hbig. lia.
Qed.

Lemma fin_bound_weaken lo lo' K K' x :
  lo' <= lo -> K <= K' -> fin_bound lo K x -> fin_bound lo' K' x.
Proof.
  intros Hlo HK. destruct x as [| | |s m e]; simpl; auto.
  intros [Hm He]. split; [|lia].
  assert (0 < K - e) as Hpos.
  { destruct (Z.lt_ge_cases 0 (K - e)) as [|Hneg]; [assumption|].
    destruct (Z.eq_dec (K - e) 0) as [H0|H0].
    - rewrite H0 in Hm. simpl in Hm. lia.
    - rewrite Z.pow_neg_r in Hm by lia. lia. }
  pose proof (Z.pow_le_mono_r 2 (K - e) (K' - e) ltac:(lia) ltac:(lia)). lia.
Qed.

Lemma shr_fexp_canonical m e :
  fexp prec emax (Zdigits2 m + e) <= e ->
  shr_fexp prec emax m e loc_Exact = (Build_shr_record m false false, e).
Proof.
  intros Hcan. unfold shr_fexp, shr.
  destruct (fexp prec emax (Zdigits2 m + e) - e) eqn:Hn; try lia; reflexivity.
Qed.

(** Rounding a mantissa that already has its canonical exponent. *)
Lemma binary_round_aux_canonical sx m e :
  fexp prec emax (Zdigits2 (Z.pos m) + e) <= e -> e <= 971 ->
  binary_round_aux prec emax sx (Z.pos m) e loc_Exact = S754_finite sx m e.
Proof.
  intros Hcan He. unfold binary_round_aux.
  rewrite shr_fexp_canonical by assumption.
  cbn [shr_m loc_of_shr_record round_nearest_even].
  rewrite shr_fexp_canonical by assumption.
  cbn [shr_m].
  destruct (Z.leb_spec e (emax - prec)) as [|Hbig];
    [reflexivity | unfold emax, prec in Hbig; lia].
Qed.

Lemma iter_xO_value p k : Z.pos (Pos.iter xO p k) = Z.pos p * 2 ^ Z.pos k.
Proof.
  induction k as [|k IH] using Pos.peano_ind.
  - simpl. lia.
  - rewrite Pos.iter_succ, Pos2Z.inj_xO, IH, Pos2Z.inj_succ, Z.pow_succ_r by lia.
    lia.
Qed.

Lemma iter_xO_digits p k :
  Zdigits2 (Z.pos (Pos.iter xO p k)) = Zdigits2 (Z.pos p) + Z.pos k.
Proof.
  induction k as [|k IH] using Pos.peano_ind.
  - simpl. lia.
  - rewrite Pos.iter_succ. simpl in *. lia.
Qed.

(** Integers from 1 to [2^53 - 1] convert exactly, with an exponent in
    [-52, 0]. *)
Lemma float_of_int_pos b :
  1 <= b < 2 ^ 53 ->
  exists m e,
    float_of_int b = S754_finite false m e
    /\ Z.pos m < 2 ^ (53 - e) /\ -52 <= e <= 0.
Proof.
  intros [Hb1 Hb]. destruct b as [|p|p]; try lia.
  unfold float_of_int, binary_normalize, binary_round, shl_align.
  change (Z.pos (digits2_pos p)) with (Zdigits2 (Z.pos p)).
  pose proof (Zdigits2_le (Z.pos p) 53 ltac:(lia) ltac:(lia)) as Hd.
  pose proof (Zdigits2_lower (Z.pos p) ltac:(lia)) as Hlow.
  assert (1 <= Zdigits2 (Z.pos p)) as Hd1 by (simpl; lia).
  rewrite fexp_eq.
  destruct (Z.max (Zdigits2 (Z.pos p) + 0 - 53) (-1074) - 0) as [|k|k] eqn:Ht;
    try lia.
  - exists p, 0. split; [|split; [assumption | lia]].
    apply binary_round_aux_canonical; [rewrite fexp_eq|]; lia.
  - exists (Pos.iter xO p k), (Z.max (Zdigits2 (Z.pos p) + 0 - 53) (-1074)).
    split; [|split; [|lia]].
    + apply binary_round_aux_canonical; [|lia].
      rewrite iter_xO_digits, fexp_eq. lia.
    + rewrite iter_xO_value.
      replace (53 - Z.max (Zdigits2 (Z.pos p) + 0 - 53) (-1074))
        with (53 + Z.pos k) by lia.
      rewrite Z.pow_add_r by lia.
      apply Z.mul_lt_mono_pos_r; lia.
Qed.

(** The core of the division, written with the operators of [Z]. *)
Lemma SFdiv_core_binary_eq m1 e1 m2 e2 :
  SFdiv_core_binary prec emax m1 e1 m2 e2
  = let e' := Z.min (Z.max (Zdigits2 m1 + e1 - (Zdigits2 m2 + e2) - 53) (-1074))
                    (e1 - e2) in
    let m' := match e1 - e2 - e' with
              | Z.pos _ => Z.shiftl m1 (e1 - e2 - e')
              | 0 => m1
              | Z.neg _ => 0
              end in
    (m' / m2, e', new_location m2 (m' mod m2)).
Proof.
  unfold SFdiv_core_binary, Z.div, Z.modulo. cbv zeta.
  change IntDef.Z.div_eucl with Z.div_eucl.
  now destruct (Z.div_eucl _ m2).
Qed.

Lemma SFdiv_bound m1 e1 m2 e2 :
  Z.pos m1 < 2 ^ (53 - e1) -> -52 <= e1 <= 0 -> -52 <= e2 <= 0 ->
  fin_bound (-1074) 106
    (SFdiv prec emax (S754_finite false m1 e1) (S754_finite false m2 e2)).
Proof.
  intros Hm1 He1 He2. unfold SFdiv.
  rewrite SFdiv_core_binary_eq. cbv beta iota zeta.
  set (e' := Z.min _ (e1 - e2)).
  assert (-1074 <= e' <= e1 - e2) as He' by (unfold e'; lia).
  set (m' := match e1 - e2 - e' with
             | 0 => Z.pos m1
             | Z.pos _ => Z.shiftl (Z.pos m1) (e1 - e2 - e')
             | Z.neg _ => 0
             end).
  assert (0 <= m' < 2 ^ (105 - e')) as Hm'.
  { assert (m' = Z.pos m1 * 2 ^ (e1 - e2 - e')) as ->.
    { unfold m'. destruct (e1 - e2 - e') as [|s|s] eqn:Hs; try lia.
      now rewrite Z.shiftl_mul_pow2 by lia. }
    split; [apply Z.mul_nonneg_nonneg; [lia | apply Z.pow_nonneg; lia]|].
    apply Z.lt_le_trans with (2 ^ (53 - e1) * 2 ^ (e1 - e2 - e')).
    - apply Z.mul_lt_mono_pos_r; [apply Z.pow_pos_nonneg; lia | assumption].
    - rewrite <- Z.pow_add_r by lia. apply Z.pow_le_mono_r; lia. }
  assert (0 <= m' / Z.pos m2 <= m') as Hqb.
  { split; [apply Z.div_pos; lia|].
    apply Z.div_le_upper_bound; [lia|]. nia. }
  eapply fin_bound_weaken;
    [| |apply (binary_round_aux_bound _ (m' / Z.pos m2) e' _ 105)]; try lia.
Qed.

Lemma SFmul_100_bound x :
  fin_bound (-1074) 106 x ->
  fin_bound (-1200) 114 (float_mul_int x 100).
Proof.
  unfold float_mul_int.
  change (float_of_int 100) with (S754_finite false 7036874417766400 (-46)).
  destruct x as [| | |s m e]; simpl; try tauto.
  intros [Hm He].
  assert (e <= 105) as He105.
  { destruct (Z.le_gt_cases e 105) as [|Hgt]; [assumption|].
    destruct (Z.eq_dec (106 - e) 0) as [H0|H0].
    - rewrite H0 in Hm. simpl in Hm. lia.
    - rewrite Z.pow_neg_r in Hm by lia. lia. }
  eapply fin_bound_weaken;
    [| |apply (binary_round_aux_bound _ (Z.pos (m * 7036874417766400)) (e + -46) _ 113)];
    try lia.
  split; [lia|]. rewrite Pos2Z.inj_mul.
  replace (113 - (e + -46)) with ((106 - e) + 53) by lia.
  rewrite Z.pow_add_r by lia.
  apply Z.lt_trans with (Z.pos m * 2 ^ 53).
  - apply Z.mul_lt_mono_pos_l; [lia|]. reflexivity.
  - apply Z.mul_lt_mono_pos_r; [reflexivity | assumption].
Qed.

Lemma int_of_float_bounded lo K x :
  fin_bound lo K x -> exists z, int_of_float x = Ok z.
Proof. destruct x; simpl; intros H; try tauto; eauto. Qed.

(** The percentage [int((i + 1) / file_count * 100)] is defined whenever
    [1 <= i + 1] and both integers are below [2^53]. *)
Lemma progress_percent_defined a b :
  1 <= a < 2 ^ 53 -> 1 <= b < 2 ^ 53 ->
  exists q pct,
    int_truediv a b = Ok q /\ int_of_float (float_mul_int q 100) = Ok pct.
Proof.
  intros Ha Hb. unfold int_truediv.
  destruct (Z.eqb_spec b 0); [lia|].
  destruct (float_of_int_pos a Ha) as (m1 & e1 & -> & Hm1 & He1).
  destruct (float_of_int_pos b Hb) as (m2 & e2 & -> & Hm2 & He2).
  pose proof (SFdiv_bound m1 e1 m2 e2 Hm1 He1 He2) as Hq.
  destruct (int_of_float_bounded _ _ _ (SFmul_100_bound _ Hq)) as (pct & Hpct).
  eauto.
Qed.

Lemma progress_callback_run i file_count s :
  0 <= i < file_count -> file_count < 2 ^ 53 ->
  exists s',
    (q <- lift (int_truediv (i + 1) file_count) ;;
     let progress := float_mul_int q 100 in
     pct <- lift (int_of_float progress) ;;
     emit (EvProgress pct)) s = (Ok tt, s')
    /\ trace (the_world s')
       = trace (the_world s) ++ [EvProgress (percent_value i file_count)].
Proof.
  intros Hi Hn.
  destruct (progress_percent_defined (i + 1) file_count) as (q & pct & Hq & Hpct);
    try lia.
  unfold percent_value, bind, lift, emit, with_world. rewrite Hq. cbv zeta.
  rewrite Hpct. eexists. split; reflexivity.
Qed.

Section FilesLoop.

Variable str_format : pystr -> Z -> outcome pystr.
Variable os_path_join : pystr -> pystr -> pystr.
Variables (contacts_per_file : Z) (output_dir filename_prefix gender : pystr)
          (carrier : option pystr) (unique_phones progress_callback : bool)
          (naming_mode : pystr) (start_number : Z) (number_format : pystr)
          (file_count : Z) (timestamp : option pystr).

Variable name : Z -> pystr.

Local Abbreviation file_name :=
  (filename_expr str_format filename_prefix naming_mode start_number
                 number_format timestamp).
Local Abbreviation view :=
  (iteration_view os_path_join output_dir progress_callback file_count name).

Lemma files_loop_run indices :
  file_count < 2 ^ 53 ->
  (forall i, i ∈ indices ->
     0 <= i < file_count /\ forall s, file_name i s = (Ok (name i), s)) ->
  forall created_files failed_files s,
  exists created failed s' new,
    VCFGenerator.files_loop str_format os_path_join indices contacts_per_file
      output_dir filename_prefix gender carrier unique_phones progress_callback
      naming_mode start_number number_format file_count timestamp
      created_files failed_files s
    = (Ok (created_files ++ created, failed_files ++ failed), s')
    /\ trace (the_world s') = trace (the_world s) ++ new
    /\ omap observe new = flat_map view indices
    /\ (forall p, p ∈ created ++ failed ->
          p ∈ map (fun i => os_path_join output_dir (name i)) indices)
    /\ (length created + length failed = length indices)%nat.
Proof.
  intros Hn. induction indices as [|i rest IH]; intros Hidx created failed s.
  - exists [], [], s, []. cbn [VCFGenerator.files_loop]. unfold ret.
    rewrite !app_nil_r. split_and!; auto.
  - destruct (Hidx i ltac:(left)) as [Hi Hname].
    destruct (generate_contacts_run contacts_per_file gender carrier
                unique_phones s) as (contacts & s1 & Hcontacts & Hw1).
    destruct (create_vcf_file_run contacts (os_path_join output_dir (name i)) s1)
      as (ok & s2 & opened & tail & Hcreate & Htr2 & Htail).
    assert (exists s3 cb,
      (if progress_callback then
         q <- lift (int_truediv (i + 1) file_count) ;;
         let progress := float_mul_int q 100 in
         pct <- lift (int_of_float progress) ;;
         emit (EvProgress pct)
       else ret tt) s2 = (Ok tt, s3)
      /\ trace (the_world s3) = trace (the_world s2) ++ cb
      /\ omap observe cb
         = (if progress_callback then [inr (percent_value i file_count)] else []))
      as (s3 & cb & Hcb & Htr3 & Hview).
    { destruct progress_callback.
      - destruct (progress_callback_run i file_count s2 Hi Hn) as (s3 & Hrun & Htr).
        exists s3, [EvProgress (percent_value i file_count)]. auto.
      - exists s2, []. unfold ret. rewrite app_nil_r. auto. }
    specialize (Hname s1). unfold filename_expr in Hname.
    assert (forall j, j ∈ rest ->
              0 <= j < file_count
              /\ forall s, file_name j s = (Ok (name j), s)) as Hrest.
    { intros j Hj. apply Hidx. now right. }
    cbn [VCFGenerator.files_loop].
    rewrite (bind_ok _ _ _ _ _ Hcontacts).
    rewrite (bind_ok _ _ _ _ _ Hname). cbv zeta.
    rewrite (bind_ok _ _ _ _ _ Hcreate).
    destruct ok.
    + rewrite (bind_ok _ _ _ _ _ Hcb).
      destruct (IH Hrest (created ++ [os_path_join output_dir (name i)]) failed s3)
        as (more_c & more_f & s' & new & Hloop & Htr & Hobs & Hin & Hlen).
      exists (os_path_join output_dir (name i) :: more_c), more_f, s',
        (EvOpen (os_path_join output_dir (name i)) opened :: tail ++ cb ++ new).
      rewrite Hloop, <- app_assoc. split_and!.
      * reflexivity.
      * rewrite Htr, Htr3, Htr2, Hw1. now rewrite <- !app_assoc.
      * cbn [omap list_omap observe flat_map iteration_view].
        rewrite !omap_app, Htail, Hview, Hobs. reflexivity.
      * intros p Hp. cbn [map]. cbn [app] in Hp.
        apply elem_of_cons in Hp as [->|Hp]; [now left | right; auto].
      * cbn [length]. lia.
    + rewrite (bind_ok _ _ _ _ _ Hcb).
      destruct (IH Hrest created (failed ++ [os_path_join output_dir (name i)]) s3)
        as (more_c & more_f & s' & new & Hloop & Htr & Hobs & Hin & Hlen).
      exists more_c, (os_path_join output_dir (name i) :: more_f), s',
        (EvOpen (os_path_join output_dir (name i)) opened :: tail ++ cb ++ new).
      rewrite Hloop, <- app_assoc. split_and!.
      * reflexivity.
      * rewrite Htr, Htr3, Htr2, Hw1. now rewrite <- !app_assoc.
      * cbn [omap list_omap observe flat_map iteration_view].
        rewrite !omap_app, Htail, Hview, Hobs. reflexivity.
      * intros p Hp. cbn [map].
        apply elem_of_app in Hp as [Hp|Hp].
        -- right. apply Hin. apply elem_of_app. now left.
        -- apply elem_of_cons in Hp as [->|Hp]; [now left|].
           right. apply Hin. apply elem_of_app. now right.
      * cbn [length]. lia.
Qed.

(** When the file name cannot be computed in the first iteration, the
    loop raises there, before any file is opened. *)
Lemma files_loop_raises i rest e created_files failed_files s :
  (forall s, file_name i s = (Raise e, s)) ->
  exists s',
    VCFGenerator.files_loop str_format os_path_join (i :: rest) contacts_per_file
      output_dir filename_prefix gender carrier unique_phones progress_callback
      naming_mode start_number number_format file_count timestamp
      created_files failed_files s
    = (Raise e, s')
    /\ the_world s' = the_world s.
Proof.
  intros Hname.
  destruct (generate_contacts_run contacts_per_file gender carrier
              unique_phones s) as (contacts & s1 & Hcontacts & Hw1).
  specialize (Hname s1). unfold filename_expr in Hname.
  cbn [VCFGenerator.files_loop].
  rewrite (bind_ok _ _ _ _ _ Hcontacts).
  rewrite (bind_raise _ _ _ _ _ Hname).
  exists s1. auto.
Qed.

End FilesLoop.

Lemma elem_of_range i n : i ∈ range n -> 0 <= i < n.
Proof.
  unfold range. intros H. apply list_elem_of_fmap in H as (k & -> & Hk).
  apply elem_of_seq in Hk. lia.
Qed.

Lemma range_cons n : 1 <= n -> exists rest, range n = 0 :: rest.
Proof.
  intros Hn. unfold range.
  destruct (Z.to_nat n) as [|k] eqn:Hk; [lia|]. simpl. eauto.
Qed.

Section BatchRun.

Variable str_format : pystr -> Z -> outcome pystr.
Variable os_path_join : pystr -> pystr -> pystr.
Variables (file_count contacts_per_file : Z)
          (output_dir filename_prefix gender : pystr)
          (carrier : option pystr) (unique_phones progress_callback : bool)
          (naming_mode : pystr) (start_number : Z) (number_format : pystr).

Local Abbreviation run :=
  (VCFGenerator.generate_vcf_files str_format os_path_join file_count
     contacts_per_file output_dir filename_prefix gender carrier unique_phones
     progress_callback naming_mode start_number number_format).
Local Abbreviation rest_of_run :=
  (after_directory str_format os_path_join file_count contacts_per_file
     output_dir filename_prefix gender carrier unique_phones progress_callback
     naming_mode start_number number_format).

Lemma directory_step s :
  dir_available output_dir s ->
  exists s1,
    run s = rest_of_run s1
    /\ trace (the_world s1) = trace (the_world s)
    /\ fs_files (the_world s1) = fs_files (the_world s)
    /\ env_now (the_world s1) = env_now (the_world s).
Proof.
  intros Hdir. unfold VCFGenerator.generate_vcf_files.
  unfold bind at 1. unfold os_path_exists, read_world.
  destruct (bool_decide (output_dir ∈ fs_dirs (the_world s))
            || bool_decide (output_dir ∈ dom (fs_files (the_world s)))) eqn:Hpresent.
  - cbn [negb]. unfold bind at 1. unfold ret at 1. exists s. auto.
  - apply orb_false_iff in Hpresent as [Hd Hf].
    apply bool_decide_eq_false in Hd, Hf.
    destruct Hdir as [Hdir|[Hdir|Hdir]]; [contradiction | contradiction |].
    cbn [negb]. unfold bind at 1, try_except, os_makedirs.
    unfold bind at 1. unfold bind at 1. unfold read_world at 1. rewrite Hdir.
    unfold with_world at 1. unfold ret at 1.
    eexists. split; [reflexivity|]. auto.
Qed.

Lemma generate_vcf_files_run (name : Z -> pystr) s :
  file_count < 2 ^ 53 ->
  dir_available output_dir s ->
  naming_ok str_format file_count filename_prefix naming_mode start_number
            number_format name s ->
  exists created failed s' new,
    run s = (Ok (batch_record created failed output_dir contacts_per_file), s')
    /\ trace (the_world s') = trace (the_world s) ++ new
    /\ omap observe new
       = flat_map (iteration_view os_path_join output_dir progress_callback
                                  file_count name) (range file_count)
    /\ (forall p, p ∈ created ++ failed ->
          p ∈ map (fun i => os_path_join output_dir (name i)) (range file_count))
    /\ (length created + length failed = length (range file_count))%nat.
Proof.
  intros Hn Hdir Hmode.
  destruct (directory_step s Hdir) as (s1 & -> & Htr1 & _ & Hnow).
  unfold after_directory.
  set (timestamp := if str_eqb naming_mode (u8 "timestamp")
                    then Some (env_now (the_world s1)) else None).
  assert ((if str_eqb naming_mode (u8 "timestamp") then
             ts <- datetime_now_strftime ;; ret (Some ts)
           else ret None) s1 = (Ok timestamp, s1)) as Hts.
  { unfold timestamp. now destruct (str_eqb naming_mode (u8 "timestamp")). }
  rewrite (bind_ok _ _ _ _ _ Hts).
  destruct (files_loop_run str_format os_path_join contacts_per_file output_dir
              filename_prefix gender carrier unique_phones progress_callback
              naming_mode start_number number_format file_count timestamp name
              (range file_count) Hn) with (created_files := @nil pystr)
              (failed_files := @nil pystr) (s := s1)
    as (created & failed & s' & new & Hloop & Htr & Hobs & Hin & Hlen).
  { intros i Hi. apply elem_of_range in Hi. split; [assumption|].
    intros s0. unfold filename_expr, timestamp, str_eqb.
    destruct Hmode as [[-> Hname] | [-> Hname]].
    - rewrite (bool_decide_eq_false_2 (u8 "timestamp" = u8 "custom_number"))
        by discriminate.
      rewrite bool_decide_eq_true_2 by reflexivity.
      rewrite Hname, Hnow. reflexivity.
    - rewrite (bool_decide_eq_true_2 (u8 "custom_number" = u8 "custom_number"))
        by reflexivity.
      destruct (Hname i Hi) as (v & Hv & ->).
      unfold bind, lift. rewrite Hv. reflexivity. }
  rewrite (bind_ok _ _ _ _ _ Hloop). cbn [app].
  exists created, failed, s', new. rewrite Htr, Htr1. auto.
Qed.

End BatchRun.

Lemma omap_opened_path (l : list event) :
  omap opened_path l
  = omap (fun v : pystr + Z => match v with inl p => Some p | inr _ => None end)
         (omap observe l).
Proof.
  induction l as [|[p ok|msg|pct] l IH]; cbn [omap list_omap observe opened_path];
    now rewrite ?IH.
Qed.

Lemma omap_progress_of (l : list event) :
  omap progress_of l
  = omap (fun v : pystr + Z => match v with inl _ => None | inr z => Some z end)
         (omap observe l).
Proof.
  induction l as [|[p ok|msg|pct] l IH]; cbn [omap list_omap observe progress_of];
    now rewrite ?IH.
Qed.

Lemma view_opened_paths os_path_join output_dir cb file_count name indices :
  omap (fun v : pystr + Z => match v with inl p => Some p | inr _ => None end)
       (flat_map (iteration_view os_path_join output_dir cb file_count name) indices)
  = map (fun i => os_path_join output_dir (name i)) indices.
Proof.
  induction indices as [|i rest IH]; [reflexivity|].
  cbn [flat_map map]. rewrite omap_app, IH.
  unfold iteration_view. now destruct cb.
Qed.

Lemma view_progress os_path_join output_dir file_count name indices :
  omap (fun v : pystr + Z => match v with inl _ => None | inr z => Some z end)
       (flat_map (iteration_view os_path_join output_dir true file_count name) indices)
  = map (fun i => percent_value i file_count) indices.
Proof.
  induction indices as [|i rest IH]; [reflexivity|].
  cbn [flat_map map]. rewrite omap_app, IH. reflexivity.
Qed.

Lemma length_range n : length (range n) = Z.to_nat n.
Proof. unfold range. now rewrite length_map, length_seq. Qed.

(** C10.  With at least one file, a naming mode other than "timestamp"
    and "custom_number", and an output directory that exists or can be
    created, [generate_vcf_files] raises NameError for the unassigned
    variable [timestamp] in the first iteration: no record is returned, no
    file is opened and no progress is reported. *)
Theorem C10_unknown_naming_mode_raises
    (str_format : pystr -> Z -> outcome pystr)
    (os_path_join : pystr -> pystr -> pystr)
    (file_count contacts_per_file : Z) (output_dir filename_prefix gender : pystr)
    (carrier : option pystr) (unique_phones progress_callback : bool)
    (naming_mode : pystr) (start_number : Z) (number_format : pystr) (s : state) :
  1 <= file_count ->
  naming_mode <> u8 "timestamp" ->
  naming_mode <> u8 "custom_number" ->
  dir_available output_dir s ->
  exists s',
    VCFGenerator.generate_vcf_files str_format os_path_join file_count
      contacts_per_file output_dir filename_prefix gender carrier unique_phones
      progress_callback naming_mode start_number number_format s
    = (Raise (NameError
         (u8 "cannot access local variable 'timestamp' where it is not associated with a value")),
       s')
    /\ trace (the_world s') = trace (the_world s)
    /\ fs_files (the_world s') = fs_files (the_world s).
Proof.
  intros Hcount Hts Hcustom Hdir.
  destruct (directory_step str_format os_path_join file_count contacts_per_file
              output_dir filename_prefix gender carrier unique_phones
              progress_callback naming_mode start_number number_format s Hdir)
    as (s1 & -> & Htr & Hfiles & _).
  unfold after_directory, str_eqb.
  rewrite (bool_decide_eq_false_2 (naming_mode = u8 "timestamp")) by assumption.
  unfold bind at 1. unfold ret at 1.
  destruct (range_cons file_count Hcount) as (rest & ->).
  destruct (files_loop_raises str_format os_path_join contacts_per_file output_dir
              filename_prefix gender carrier unique_phones progress_callback
              naming_mode start_number number_format file_count None 0 rest
              (NameError
                 (u8 "cannot access local variable 'timestamp' where it is not associated with a value"))
              [] [] s1) as (s' & Hloop & Hw).
  { intros s0. unfold filename_expr, str_eqb.
    rewrite bool_decide_eq_false_2 by assumption. reflexivity. }
  rewrite (bind_raise _ _ _ _ _ Hloop).
  exists s'. rewrite Hw. auto.
Qed.

Lemma C10_unknown_naming_mode_raises_witness :
  exists s',
    VCFGenerator.generate_vcf_files str_format_ui posix_join 2 10 (u8 "vcf_output")
      (u8 "通讯录") (u8 "all") None true true (u8 "sequence") 1 (u8 "{:03d}")
      example_state
    = (Raise (NameError
         (u8 "cannot access local variable 'timestamp' where it is not associated with a value")),
       s')
    /\ trace (the_world s') = trace (the_world example_state)
    /\ fs_files (the_world s') = fs_files (the_world example_state).
Proof.
  apply C10_unknown_naming_mode_raises.
  - lia.
  - discriminate.
  - discriminate.
  - right. right. reflexivity.
Defined.

(** C9.  In "custom_number" mode, with an output directory that exists or
    can be created and a format that accepts the numbers
    [start_number + i], the files opened are, in order, those named
    [{filename_prefix}_{number_format.format(start_number + i)}.vcf] for
    [i] in [range(file_count)], every path of the two returned lists is
    one of them, and the returned record reports [files_created] as the
    length of [created_files] and [total_contacts] as [files_created]
    times [contacts_per_file]. *)
Theorem C9_custom_number_names
    (str_format : pystr -> Z -> outcome pystr)
    (os_path_join : pystr -> pystr -> pystr)
    (file_count contacts_per_file : Z) (output_dir filename_prefix gender : pystr)
    (carrier : option pystr) (unique_phones progress_callback : bool)
    (start_number : Z) (number_format : pystr) (formatted : Z -> pystr)
    (s : state) :
  file_count < 2 ^ 53 ->
  dir_available output_dir s ->
  (forall i, 0 <= i < file_count ->
     str_format number_format (start_number + i) = Ok (formatted i)) ->
  let path i :=
    os_path_join output_dir
      (filename_prefix ++ u8 "_" ++ formatted i ++ u8 ".vcf") in
  exists record s' new created failed,
    VCFGenerator.generate_vcf_files str_format os_path_join file_count
      contacts_per_file output_dir filename_prefix gender carrier unique_phones
      progress_callback (u8 "custom_number") start_number number_format s
    = (Ok record, s')
    /\ trace (the_world s') = trace (the_world s) ++ new
    /\ omap opened_path new = map path (range file_count)
    /\ record !! "created_files" = Some (VList created)
    /\ record !! "failed_files" = Some (VList failed)
    /\ (forall p, p ∈ created ++ failed -> p ∈ map path (range file_count))
    /\ Z.of_nat (length created + length failed) = Z.max 0 file_count
    /\ record !! "files_created" = Some (VInt (Z.of_nat (length created)))
    /\ record !! "total_contacts"
       = Some (VInt (Z.of_nat (length created) * contacts_per_file)).
Proof.
  intros Hn Hdir Hfmt path.
  destruct (generate_vcf_files_run str_format os_path_join file_count
              contacts_per_file output_dir filename_prefix gender carrier
              unique_phones progress_callback (u8 "custom_number") start_number
              number_format
              (fun i => filename_prefix ++ u8 "_" ++ formatted i ++ u8 ".vcf")
              s Hn Hdir)
    as (created & failed & s' & new & Hrun & Htr & Hobs & Hin & Hlen).
  { right. split; [reflexivity|]. intros i Hi. exists (formatted i). auto. }
  exists (batch_record created failed output_dir contacts_per_file), s', new,
    created, failed.
  split_and!; auto.
  - rewrite omap_opened_path, Hobs. apply view_opened_paths.
  - rewrite Hlen, length_range. lia.
Qed.

Lemma C9_custom_number_names_witness :
  let path i :=
    posix_join (u8 "vcf_output")
      (u8 "通讯录" ++ u8 "_" ++ format_03d (5 + i) ++ u8 ".vcf") in
  exists record s' new created failed,
    VCFGenerator.generate_vcf_files str_format_ui posix_join 3 10
      (u8 "vcf_output") (u8 "通讯录") (u8 "all") None true false
      (u8 "custom_number") 5 (u8 "{:03d}") example_state
    = (Ok record, s')
    /\ trace (the_world s') = trace (the_world example_state) ++ new
    /\ omap opened_path new = map path (range 3)
    /\ record !! "created_files" = Some (VList created)
    /\ record !! "failed_files" = Some (VList failed)
    /\ (forall p, p ∈ created ++ failed -> p ∈ map path (range 3))
    /\ Z.of_nat (length created + length failed) = Z.max 0 3
    /\ record !! "files_created" = Some (VInt (Z.of_nat (length created)))
    /\ record !! "total_contacts" = Some (VInt (Z.of_nat (length created) * 10)).
Proof.
  apply (C9_custom_number_names str_format_ui posix_join 3 10 (u8 "vcf_output")
           (u8 "通讯录") (u8 "all") None true false 5 (u8 "{:03d}")
           (fun i => format_03d (5 + i)) example_state).
  - lia.
  - right. right. reflexivity.
  - intros i Hi. reflexivity.
Defined.

(** The scenario of the spec: three files of ten contacts from number 5
    with three digits, in a writable directory. *)
Example generate_vcf_files_scenario :
  let r := VCFGenerator.generate_vcf_files str_format_ui posix_join 3 10
             (u8 "vcf_output") (u8 "通讯录") (u8 "all") None true false
             (u8 "custom_number") 5 (u8 "{:03d}") example_state in
  match fst r with
  | Ok record =>
      record !! "created_files"
      = Some (VList [u8 "vcf_output/通讯录_005.vcf"; u8 "vcf_output/通讯录_006.vcf";
                     u8 "vcf_output/通讯录_007.vcf"])
      /\ record !! "files_created" = Some (VInt 3)
      /\ record !! "files_failed" = Some (VInt 0)
      /\ record !! "total_contacts" = Some (VInt 30)
      /\ record !! "success" = Some (VBool true)
  | _ => False
  end.
Proof. vm_compute. repeat split. Qed.

(** C2, as stated, fails: with three files the callback receives 33, 66
    and 100, the truncations of 33.33.., 66.66.. and 100.0, whereas the
    roundings are 33, 67 and 100. *)
Lemma C2_callback_truncates_not_rounds :
  let r := VCFGenerator.generate_vcf_files str_format_ui posix_join 3 1
             (u8 "vcf_output") (u8 "通讯录") (u8 "all") None true true
             (u8 "timestamp") 1 (u8 "{:03d}") example_state in
  let reported := omap progress_of (trace (the_world (snd r))) in
  let rounded := map (fun i => spec_rounded_percent i 3) (range 3) in
  reported = [33; 66; 100] /\ rounded = [33; 67; 100] /\ reported <> rounded.
Proof.
  cbv zeta.
  assert (omap progress_of
            (trace (the_world (snd
               (VCFGenerator.generate_vcf_files str_format_ui posix_join 3 1
                  (u8 "vcf_output") (u8 "通讯录") (u8 "all") None true true
                  (u8 "timestamp") 1 (u8 "{:03d}") example_state))))
          = [33; 66; 100]) as -> by (vm_compute; reflexivity).
  assert (map (fun i => spec_rounded_percent i 3) (range 3) = [33; 67; 100]) as ->
    by (vm_compute; reflexivity).
  split_and!; [reflexivity | reflexivity | discriminate].
Qed.

(** The percentage is the truncation of the double-precision product,
    which can fall below the exact quotient: 29 files of 100 give 28. *)
Example percent_value_examples :
  percent_value 0 3 = 33 /\ percent_value 1 3 = 66 /\ percent_value 2 3 = 100
  /\ percent_value 28 100 = 28 /\ percent_value 99 100 = 100.
Proof. vm_compute. repeat split. Qed.

(** C2, amended.  With a supplied callback, an output directory that
    exists or can be created and file names that can be computed,
    [generate_vcf_files] returns a record and calls the callback exactly
    once per iteration [i], right after the file of that iteration was
    opened, with [int((i + 1) / file_count * 100)]: the double-precision
    value truncated toward zero, not rounded. *)
Theorem C2_progress_callback_truncated
    (str_format : pystr -> Z -> outcome pystr)
    (os_path_join : pystr -> pystr -> pystr)
    (file_count contacts_per_file : Z) (output_dir filename_prefix gender : pystr)
    (carrier : option pystr) (unique_phones : bool)
    (naming_mode : pystr) (start_number : Z) (number_format : pystr)
    (name : Z -> pystr) (s : state) :
  1 <= file_count < 2 ^ 53 ->
  dir_available output_dir s ->
  naming_ok str_format file_count filename_prefix naming_mode start_number
            number_format name s ->
  exists record s' new,
    VCFGenerator.generate_vcf_files str_format os_path_join file_count
      contacts_per_file output_dir filename_prefix gender carrier unique_phones
      true naming_mode start_number number_format s
    = (Ok record, s')
    /\ trace (the_world s') = trace (the_world s) ++ new
    /\ omap progress_of new
       = map (fun i => percent_value i file_count) (range file_count)
    /\ omap observe new
       = flat_map (fun i => [inl (os_path_join output_dir (name i));
                             inr (percent_value i file_count)])
                  (range file_count).
Proof.
  intros [_ Hn] Hdir Hname.
  destruct (generate_vcf_files_run str_format os_path_join file_count
              contacts_per_file output_dir filename_prefix gender carrier
              unique_phones true naming_mode start_number number_format name
              s Hn Hdir Hname)
    as (created & failed & s' & new & Hrun & Htr & Hobs & _ & _).
  exists (batch_record created failed output_dir contacts_per_file), s', new.
  split_and!; auto.
  rewrite omap_progress_of, Hobs. apply view_progress.
Qed.

Lemma C2_progress_callback_truncated_witness :
  let name i := u8 "通讯录" ++ u8 "_" ++ u8 "20240101_120000" ++ u8 "_"
                ++ format_03d (i + 1) ++ u8 ".vcf" in
  exists record s' new,
    VCFGenerator.generate_vcf_files str_format_ui posix_join 3 10
      (u8 "vcf_output") (u8 "通讯录") (u8 "all") None true
      true (u8 "timestamp") 1 (u8 "{:03d}") example_state
    = (Ok record, s')
    /\ trace (the_world s') = trace (the_world example_state) ++ new
    /\ omap progress_of new = map (fun i => percent_value i 3) (range 3)
    /\ omap observe new
       = flat_map (fun i => [inl (posix_join (u8 "vcf_output") (name i));
                             inr (percent_value i 3)])
                  (range 3).
Proof.
  intros name.
  apply (C2_progress_callback_truncated str_format_ui posix_join 3 10
           (u8 "vcf_output") (u8 "通讯录") (u8 "all") None true (u8 "timestamp")
           1 (u8 "{:03d}") name example_state).
  - lia.
  - right. right. reflexivity.
  - left. split; [reflexivity|]. intros i. reflexivity.
Defined.


(** When the output directory is missing and cannot be created, the
    failure record is returned before the naming mode is looked at: it has
    no [total_contacts] entry and nothing is opened. *)
Example generate_vcf_files_directory_failure :
  let r := VCFGenerator.generate_vcf_files str_format_ui posix_join 2 10
             (u8 "vcf_output") (u8 "通讯录") (u8 "all") None true true
             (u8 "sequence") 1 (u8 "{:03d}") readonly_state in
  match fst r with
  | Ok record =>
      record !! "success" = Some (VBool false)
      /\ record !! "error"
         = Some (VStr (u8 "无法创建输出目录: Permission denied"))
      /\ record !! "files_created" = Some (VInt 0)
      /\ record !! "total_contacts" = None
      /\ trace (the_world (snd r)) = []
  | _ => False
  end.
Proof. vm_compute. repeat split. Qed.

(** * Further properties *)

(** ** Batches of phone numbers *)

Lemma phone_loop_from (pool : list pystr) fuel :
  forall count max_attempts prefix carrier unique phone_numbers generated_set
         attempts s l s',
    prefix_arg_valid prefix ->
    prefix_pool prefix carrier = pool ->
    Forall (phone_from pool) phone_numbers ->
    PhoneGenerator.phone_loop fuel count max_attempts prefix carrier unique
      phone_numbers generated_set attempts s = (Ok l, s') ->
    Forall (phone_from pool) l.
Proof.
  induction fuel as [|fuel IH];
    intros count max_attempts prefix carrier unique pn gs attempts s l s'
           Hv Hpool Hpn Hrun.
  - cbn [PhoneGenerator.phone_loop] in Hrun.
    destruct (_ && _); [discriminate|].
    unfold ret in Hrun. congruence.
  - rewrite phone_loop_unfold in Hrun.
    destruct (_ && _); [|unfold ret in Hrun; congruence].
    destruct (generate_phone_number_run prefix carrier s Hv)
      as (phone & s1 & Hone & (chosen & ds & -> & Hin & _ & Hlen & Hdig) & _).
    rewrite (bind_ok _ _ _ _ _ Hone) in Hrun.
    assert (Forall (phone_from pool) (pn ++ [chosen ++ ds])) as Hpn'.
    { apply Forall_app. split; [assumption|]. constructor; [|constructor].
      exists chosen, ds. rewrite <- Hpool. auto. }
    cbv beta in Hrun.
    destruct unique, gs as [seen|];
      try destruct (bool_decide (chosen ++ ds ∈ seen));
      (eapply IH; [exact Hv | exact Hpool | | exact Hrun]); assumption.
Qed.

Lemma generate_phone_numbers_from count prefix carrier unique s :
  prefix_arg_valid prefix ->
  exists l s',
    PhoneGenerator.generate_phone_numbers count prefix carrier unique s = (Ok l, s')
    /\ Forall (phone_from (prefix_pool prefix carrier)) l
    /\ the_world s' = the_world s.
Proof.
  intros Hv.
  destruct (generate_phone_numbers_run count prefix carrier unique s Hv)
    as (k & l & s' & Hrun & _ & Hw & _).
  exists l, s'. split_and!; auto.
  unfold PhoneGenerator.generate_phone_numbers in Hrun.
  destruct (count <=? 0).
  - unfold ret in Hrun. injection Hrun as <- _. constructor.
  - eapply phone_loop_from; eauto.
Qed.

(** X1.  For a valid prefix argument, every number of a batch has length
    11, is made of digits and starts with a prefix of the pool that the
    arguments select: the prefix argument itself when one is given, else
    the list of the carrier, else the full list.  The batch never raises
    and leaves the file system and the event trace alone. *)
Theorem X1_batch_numbers_from_pool count prefix carrier unique s :
  prefix_arg_valid prefix ->
  exists l s',
    PhoneGenerator.generate_phone_numbers count prefix carrier unique s = (Ok l, s')
    /\ Forall (phone_from (prefix_pool prefix carrier)) l
    /\ (forall p, prefix = Some p -> p <> [] ->
          Forall (fun phone => startswith phone p = true) l)
    /\ the_world s' = the_world s.
Proof.
  intros Hv.
  destruct (generate_phone_numbers_from count prefix carrier unique s Hv)
    as (l & s' & Hrun & Hall & Hw).
  exists l, s'. split_and!; auto.
  intros p -> Hp. eapply Forall_impl; [exact Hall|].
  intros phone (chosen & ds & -> & Hin & _).
  destruct p as [|c p]; [congruence|]. cbn [prefix_pool] in Hin.
  apply list_elem_of_singleton in Hin. subst chosen.
  unfold startswith, str_eqb. rewrite take_app_length.
  now apply bool_decide_eq_true_2.
Qed.

Lemma X1_batch_numbers_from_pool_witness :
  prefix_arg_valid (Some (u8 "138"))
  /\ exists l s',
    PhoneGenerator.generate_phone_numbers 5 (Some (u8 "138")) None true example_state
      = (Ok l, s')
    /\ Forall (phone_from (prefix_pool (Some (u8 "138")) None)) l
    /\ (forall p, Some (u8 "138") = Some p -> p <> [] ->
          Forall (fun phone => startswith phone p = true) l)
    /\ the_world s' = the_world example_state.
Proof.
  assert (prefix_arg_valid (Some (u8 "138"))) as Hv by (right; by_evaluation).
  split; [exact Hv|].
  exact (X1_batch_numbers_from_pool 5 (Some (u8 "138")) None true example_state Hv).
Defined.

Lemma carrier_pool_classified :
  Forall (fun kd =>
            Forall (fun p => length p = 3%nat
                             /\ PhoneGenerator.get_carrier_name (p ++ []) = snd kd)
                   (prefix_pool None (Some (fst kd))))
         carrier_names.
Proof. by_evaluation. Qed.

(** X2.  For each of the four carriers, every number of a batch generated
    for that carrier (no prefix argument) is classified by
    [get_carrier_name] to the carrier's display name. *)
Theorem X2_batch_carrier_round_trip key display count unique s :
  (key, display) ∈ carrier_names ->
  exists l s',
    PhoneGenerator.generate_phone_numbers count None (Some key) unique s = (Ok l, s')
    /\ Forall (fun phone => PhoneGenerator.get_carrier_name phone = display) l.
Proof.
  intros Hkey.
  destruct (generate_phone_numbers_from count None (Some key) unique s I)
    as (l & s' & Hrun & Hall & _).
  exists l, s'. split; [assumption|].
  pose proof (proj1 (Forall_forall _ _) carrier_pool_classified _ Hkey) as Hpool.
  cbn [fst snd] in Hpool. apply pool_classified in Hpool.
  eapply Forall_impl; [exact Hall|].
  intros phone (chosen & ds & -> & Hin & _).
  now apply (proj1 (Forall_forall _ _) Hpool chosen Hin).
Qed.

Lemma X2_batch_carrier_round_trip_witness :
  (u8 "unicom", u8 "中国联通") ∈ carrier_names
  /\ exists l s',
    PhoneGenerator.generate_phone_numbers 4 None (Some (u8 "unicom")) true example_state
      = (Ok l, s')
    /\ Forall (fun phone => PhoneGenerator.get_carrier_name phone = u8 "中国联通") l.
Proof.
  assert ((u8 "unicom", u8 "中国联通") ∈ carrier_names) as Hk by by_evaluation.
  split; [exact Hk|].
  exact (X2_batch_carrier_round_trip _ _ 4 true example_state Hk).
Defined.

(** X3.  [get_carrier_name] looks at nothing but the first three
    characters: it answers "未知" exactly for the strings shorter than
    three characters, and for a longer string the answer is that of its
    first three characters, whatever follows them and however long the
    string is; it is always one of six names. *)
Theorem X3_get_carrier_name_first_three :
  (forall phone : pystr,
     PhoneGenerator.get_carrier_name phone = u8 "未知" <-> (length phone < 3)%nat)
  /\ (forall phone : pystr,
        (3 <= length phone)%nat ->
        PhoneGenerator.get_carrier_name phone
        = PhoneGenerator.get_carrier_name (take 3 phone))
  /\ (forall phone : pystr,
        PhoneGenerator.get_carrier_name phone
        ∈ [u8 "未知"; u8 "中国移动"; u8 "中国联通"; u8 "中国电信";
           u8 "虚拟运营商"; u8 "未知运营商"]).
Proof.
  assert (forall phone : pystr, (3 <= length phone)%nat ->
            exists p ds, phone = p ++ ds /\ length p = 3%nat /\ take 3 phone = p)
    as Hsplit.
  { intros phone Hlen. exists (take 3 phone), (drop 3 phone).
    rewrite take_drop, length_take. split_and!; auto. lia. }
  assert (forall p ds, length p = 3%nat ->
            PhoneGenerator.get_carrier_name (p ++ ds)
            ∈ [u8 "中国移动"; u8 "中国联通"; u8 "中国电信"; u8 "虚拟运营商";
               u8 "未知运营商"]) as Hfive.
  { intros p ds Hp. rewrite get_carrier_name_app by assumption.
    apply list_elem_of_In.
    repeat (destruct (str_in p _)); simpl; tauto. }
  assert (forall phone : pystr, (length phone < 3)%nat ->
            PhoneGenerator.get_carrier_name phone = u8 "未知") as Hshort.
  { intros phone Hlen. unfold PhoneGenerator.get_carrier_name.
    destruct (Nat.ltb_spec (length phone) 3); [|lia].
    now rewrite orb_true_r. }
  split_and!.
  - intros phone. split; [|apply Hshort].
    intros Hname. destruct (Nat.lt_ge_cases (length phone) 3) as [|Hlen]; [assumption|].
    destruct (Hsplit phone Hlen) as (p & ds & -> & Hp & _).
    pose proof (Hfive p ds Hp) as Hin. rewrite Hname in Hin.
    exfalso. revert Hin. by_evaluation.
  - intros phone Hlen. destruct (Hsplit phone Hlen) as (p & ds & -> & Hp & ->).
    rewrite <- (app_nil_r p) at 2. now rewrite !get_carrier_name_app.
  - intros phone. destruct (Nat.lt_ge_cases (length phone) 3) as [Hlt|Hlen].
    + rewrite (Hshort phone Hlt). now left.
    + destruct (Hsplit phone Hlen) as (p & ds & -> & Hp & _).
      right. apply Hfive, Hp.
Qed.

Lemma X3_get_carrier_name_first_three_witness :
  PhoneGenerator.get_carrier_name (u8 "13812345678")
  = PhoneGenerator.get_carrier_name (take 3 (u8 "13812345678")).
Proof.
  apply (proj1 (proj2 X3_get_carrier_name_first_three) (u8 "13812345678")).
  vm_compute. lia.
Defined.

(** ** Names and genders *)

Lemma name_tables_lengths :
  Forall (fun x => (1 <= length x <= 2)%nat) NameGenerator.xing
  /\ Forall (fun g => (1 <= length g <= 2)%nat) (boy_given ++ girl_given).
Proof. split; by_evaluation. Qed.

Lemma make_name_from (given2 given1 : list pystr) s :
  given2 <> [] -> given1 <> [] ->
  pure_run
    (first <- NameGenerator.get_random_from_array NameGenerator.xing ;;
     r <- random_random ;;
     let choice := if SFltb r float_0_7 then 1 else 2 in
     second <- (if choice =? 1 then NameGenerator.get_random_from_array given2
                else NameGenerator.get_random_from_array given1) ;;
     ret (first ++ second))
    s 0 (name_from (given2 ++ given1)).
Proof.
  intros H2 H1.
  apply (pure_run_bind _ _ _ 0 0 (fun x => x ∈ NameGenerator.xing)).
  { apply random_choice_run. discriminate. }
  intros first s1 Hfirst _ _.
  apply (pure_run_bind _ _ _ 0 0 (fun _ => True)); [apply random_random_run|].
  intros r s2 _ _ _. cbv zeta.
  apply (pure_run_bind _ _ _ 0 0 (fun g => g ∈ given2 ++ given1)).
  { destruct (_ =? 1);
      (eapply pure_run_weaken; [apply random_choice_run; assumption|]);
      intros g Hg; apply elem_of_app; auto. }
  intros second s3 Hsecond _ _. apply pure_run_ret.
  exists first, second. auto.
Qed.

Lemma make_boy_name_from s :
  pure_run NameGenerator.make_boy_name s 0 (name_from boy_given).
Proof. apply make_name_from; discriminate. Qed.

Lemma make_girl_name_from s :
  pure_run NameGenerator.make_girl_name s 0 (name_from girl_given).
Proof. apply make_name_from; discriminate. Qed.

Lemma name_from_mono (given given' : list pystr) name :
  given ⊆ given' -> name_from given name -> name_from given' name.
Proof. intros Hsub (x & g & -> & Hx & Hg). exists x, g. auto. Qed.

Lemma append_name_from (c : M pystr) (given : list pystr) (names : list pystr) s :
  pure_run c s 0 (name_from given) ->
  Forall (name_from given) names ->
  pure_run (name <- c ;; ret (names ++ [name])) s 0 (Forall (name_from given)).
Proof.
  intros Hc Hnames.
  apply (pure_run_bind _ _ _ 0 0 (name_from given)); [assumption|].
  intros name s1 Hname _ _. apply pure_run_ret.
  apply Forall_app. split; [assumption | now constructor].
Qed.

Lemma names_loop_from n :
  forall gender names s,
    Forall (name_from (given_of_gender gender)) names ->
    pure_run (NameGenerator.names_loop n gender names) s 0
             (Forall (name_from (given_of_gender gender))).
Proof.
  induction n as [|n IH]; intros gender names s Hnames;
    cbn [NameGenerator.names_loop].
  - now apply pure_run_ret.
  - apply (pure_run_bind _ _ _ 0 0 (Forall (name_from (given_of_gender gender))));
      [|intros l s1 Hl _ _; now apply IH].
    revert Hnames. unfold given_of_gender, str_eqb.
    repeat case_bool_decide; intros Hnames.
    + apply append_name_from; [apply make_boy_name_from | assumption].
    + apply append_name_from; [apply make_girl_name_from | assumption].
    + apply (pure_run_bind _ _ _ 0 0 (fun _ => True));
        [eapply pure_run_weaken; [apply random_randint_run; lia | auto]|].
      intros choice s1 _ _ _.
      destruct (choice =? 1); (apply append_name_from; [|assumption]).
      * eapply pure_run_weaken; [apply make_boy_name_from|].
        intros name. apply name_from_mono. intros g Hg. apply elem_of_app. auto.
      * eapply pure_run_weaken; [apply make_girl_name_from|].
        intros name. apply name_from_mono. intros g Hg. apply elem_of_app. auto.
    + now apply pure_run_ret.
Qed.

Lemma generate_names_from count gender s :
  pure_run (NameGenerator.generate_names count gender) s 0
           (Forall (name_from (given_of_gender gender))).
Proof.
  unfold NameGenerator.generate_names. destruct (count <=? 0).
  - apply pure_run_ret. constructor.
  - apply names_loop_from. constructor.
Qed.

Lemma xing_nonempty : Forall (fun x : pystr => x <> []) NameGenerator.xing.
Proof. by_evaluation. Qed.

Lemma name_from_nonempty given name : name_from given name -> name <> [].
Proof.
  intros (x & g & -> & Hx & _).
  pose proof (proj1 (Forall_forall _ _) xing_nonempty x Hx) as Hne.
  destruct x; [contradiction | discriminate].
Qed.

Lemma unknown_gender_loop gender n :
  ~ gender_valid gender ->
  forall names s, NameGenerator.names_loop n gender names s = (Ok names, s).
Proof.
  intros Hg. induction n as [|n IH]; intros names s;
    cbn [NameGenerator.names_loop]; [reflexivity|].
  unfold str_eqb.
  repeat (rewrite bool_decide_eq_false_2;
          [|intros ->; apply Hg, list_elem_of_In; simpl; tauto]).
  unfold bind, ret. apply IH.
Qed.

(** X4.  [generate_names] respects the gender: every name it returns is a
    surname of the table followed by a given name of the tables of that
    gender (the boy tables for "boy", the girl tables for "girl", either
    for "all"), and so has two to four characters.  It never raises and
    leaves the file system and the event trace alone. *)
Theorem X4_names_respect_gender count gender s :
  exists names s',
    NameGenerator.generate_names count gender s = (Ok names, s')
    /\ Forall (name_from (given_of_gender gender)) names
    /\ Forall (fun name => (2 <= length name <= 4)%nat) names
    /\ the_world s' = the_world s.
Proof.
  destruct (generate_names_from count gender s)
    as (names & s' & Hrun & Hall & Hw & _).
  exists names, s'. split_and!; auto.
  eapply Forall_impl; [exact Hall|].
  intros name (x & g & -> & Hx & Hg).
  destruct name_tables_lengths as [Hxing Hgiven].
  pose proof (proj1 (Forall_forall _ _) Hxing x Hx).
  assert (g ∈ boy_given ++ girl_given) as Hg'.
  { revert Hg. unfold given_of_gender.
    repeat (destruct (str_eqb gender _)); rewrite ?elem_of_app; try tauto.
    intros Hnil. now apply elem_of_nil in Hnil. }
  pose proof (proj1 (Forall_forall _ _) Hgiven g Hg').
  cbv beta in *. rewrite length_app. lia.
Qed.

(** X5.  For a gender other than "boy", "girl" and "all",
    [generate_names] returns the empty list whatever the count, without an
    error and without drawing anything. *)
Theorem X5_unknown_gender_no_names count gender s :
  gender ∉ [u8 "boy"; u8 "girl"; u8 "all"] ->
  NameGenerator.generate_names count gender s = (Ok [], s).
Proof.
  intros Hg. unfold NameGenerator.generate_names.
  destruct (count <=? 0); [reflexivity|].
  now apply unknown_gender_loop.
Qed.

Lemma X5_unknown_gender_no_names_witness :
  NameGenerator.generate_names 5 (u8 "male") example_state = (Ok [], example_state).
Proof.
  apply (X5_unknown_gender_no_names 5 (u8 "male") example_state). by_evaluation.
Defined.

(** ** The statistics of the name tab *)

Lemma boy_name_loop_true name_part boy_names :
  name_part ∈ boy_names -> MainWindow.boy_name_loop name_part boy_names = true.
Proof.
  induction boy_names as [|b rest IH]; intros Hin.
  - now apply elem_of_nil in Hin.
  - cbn [MainWindow.boy_name_loop]. unfold str_eqb. case_bool_decide; [reflexivity|].
    apply elem_of_cons in Hin as [->|Hin]; [congruence | auto].
Qed.

Lemma boy_name_loop_false name_part boy_names :
  name_part ∉ boy_names -> MainWindow.boy_name_loop name_part boy_names = false.
Proof.
  induction boy_names as [|b rest IH]; intros Hout; [reflexivity|].
  cbn [MainWindow.boy_name_loop]. unfold str_eqb. case_bool_decide as Heq.
  - subst. exfalso. apply Hout. now left.
  - apply IH. intros Hin. apply Hout. now right.
Qed.

(** X6.  [is_likely_boy_name] takes the first character for the surname:
    a name of more than one character counts as male exactly when the
    rest after its first character is an entry of the boy tables.  So a
    boy's name with a one-character surname always counts as male, and a
    boy's name with a two-character surname counts as male only if the
    second surname character followed by the given name happens to be an
    entry of the boy tables. *)
Theorem X6_is_likely_boy_name_first_character :
  (forall (c : N) (rest : pystr),
     rest <> [] ->
     MainWindow.is_likely_boy_name (c :: rest) = bool_decide (rest ∈ boy_given))
  /\ (forall (x g : pystr),
        length x = 1%nat -> g ∈ boy_given ->
        MainWindow.is_likely_boy_name (x ++ g) = true)
  /\ (forall (c d : N) (g : pystr),
        MainWindow.is_likely_boy_name ([c; d] ++ g)
        = bool_decide (d :: g ∈ boy_given)).
Proof.
  assert (forall (c : N) (rest : pystr), rest <> [] ->
            MainWindow.is_likely_boy_name (c :: rest)
            = bool_decide (rest ∈ boy_given)) as Hfirst.
  { intros c rest Hrest. unfold MainWindow.is_likely_boy_name.
    destruct rest as [|r rest]; [congruence|]. cbn [length Nat.leb drop].
    fold boy_given. case_bool_decide.
    - now apply boy_name_loop_true.
    - now apply boy_name_loop_false. }
  split_and!.
  - exact Hfirst.
  - intros x g Hx Hg. destruct x as [|c [|? ?]]; try discriminate.
    cbn [app]. rewrite Hfirst.
    + now apply bool_decide_eq_true_2.
    + intros ->. revert Hg. by_evaluation.
  - intros c d g. cbn [app]. apply Hfirst. discriminate.
Qed.

Lemma X6_is_likely_boy_name_first_character_witness :
  MainWindow.is_likely_boy_name (u8 "李" ++ u8 "子轩") = true
  /\ MainWindow.is_likely_boy_name (u8 "司马" ++ u8 "子轩") = false.
Proof.
  split.
  - apply (proj1 (proj2 X6_is_likely_boy_name_first_character));
      [reflexivity | by_evaluation].
  - etransitivity;
      [exact (proj2 (proj2 X6_is_likely_boy_name_first_character)
                21496%N 39532%N (u8 "子轩"))|].
    vm_compute. reflexivity.
Defined.

(** ** Contacts *)

Lemma generate_phone_numbers_length count prefix carrier unique s :
  prefix_arg_valid prefix ->
  exists l s',
    PhoneGenerator.generate_phone_numbers count prefix carrier unique s = (Ok l, s')
    /\ Z.of_nat (length l) <= Z.max 0 count
    /\ (unique = false -> Z.of_nat (length l) = Z.max 0 count)
    /\ the_world s' = the_world s.
Proof.
  intros Hv. unfold PhoneGenerator.generate_phone_numbers.
  destruct (Z.leb_spec count 0) as [|Hpos].
  { exists [], s. unfold ret. split_and!; auto; simpl; lia. }
  destruct unique.
  - destruct (phone_loop_unique (Z.to_nat (count * 10)) count (count * 10)
                prefix carrier [] ∅ 0 s)
      as (k & (l & s' & Hrun & (_ & Hlen & _) & Hw & _) & _); auto; try lia.
    + constructor.
    + intros x Hx. now apply elem_of_nil in Hx.
    + simpl. lia.
    + exists l, s'. split_and!; auto; [lia | discriminate].
  - destruct (phone_loop_any (Z.to_nat (count * 10)) count (count * 10)
                prefix carrier [] 0 s)
      as (k & l & s' & Hrun & Hlen & Hw & _); auto; try (simpl; lia).
    exists l, s'. split_and!; auto; lia.
Qed.

Lemma zipped_contacts (P Q : pystr -> Prop) (names phones : list pystr) :
  Forall P names -> Forall Q phones ->
  Forall (fun c : pystr * pystr => P (fst c) /\ Q (snd c))
    (map (fun i => (nth i names [], nth i phones []))
         (seq 0 (Nat.min (length names) (length phones)))).
Proof.
  intros HP HQ. apply Forall_forall. intros c Hc.
  apply list_elem_of_fmap in Hc as (i & -> & Hi).
  apply elem_of_seq in Hi. cbn [fst snd]. split.
  - apply (proj1 (Forall_forall _ _) HP), list_elem_of_In, nth_In. lia.
  - apply (proj1 (Forall_forall _ _) HQ), list_elem_of_In, nth_In. lia.
Qed.

(** What [generate_contacts] gives, with all that the later lemmas need. *)
Lemma generate_contacts_from count gender carrier unique_phones s :
  exists contacts s',
    VCFGenerator.generate_contacts count gender carrier unique_phones s
      = (Ok contacts, s')
    /\ Forall (contact_from gender carrier) contacts
    /\ Z.of_nat (length contacts) <= Z.max 0 count
    /\ (gender_valid gender -> unique_phones = false ->
        Z.of_nat (length contacts) = Z.max 0 count)
    /\ (~ gender_valid gender -> contacts = [])
    /\ the_world s' = the_world s.
Proof.
  unfold VCFGenerator.generate_contacts.
  destruct (Z.leb_spec count 0).
  { exists [], s. unfold ret. split_and!; auto; simpl; lia. }
  destruct (generate_names_run count gender s)
    as (names & s1 & Hnames & (_ & Hnlen) & Hw1 & _).
  destruct (generate_names_from count gender s)
    as (names' & s1' & Hnames' & Hfrom & _).
  rewrite Hnames in Hnames'. injection Hnames' as <- <-.
  destruct (generate_phone_numbers_length count None carrier unique_phones s1 I)
    as (phones & s2 & Hphones & Hplen & Hpexact & Hw2).
  destruct (generate_phone_numbers_from count None carrier unique_phones s1 I)
    as (phones' & s2' & Hphones' & Hpfrom & _).
  rewrite Hphones in Hphones'. injection Hphones' as <- <-.
  rewrite (bind_ok _ _ _ _ _ Hnames), (bind_ok _ _ _ _ _ Hphones).
  eexists _, s2. split; [reflexivity|].
  split_and!.
  - now apply zipped_contacts.
  - rewrite length_map, length_seq. lia.
  - intros Hg ->. rewrite length_map, length_seq, (Hnlen Hg). lia.
  - intros Hg. unfold NameGenerator.generate_names in Hnames.
    destruct (count <=? 0); [unfold ret in Hnames|];
      [|rewrite unknown_gender_loop in Hnames by assumption];
      injection Hnames as <- _; reflexivity.
  - congruence.
Qed.

(** X7.  [generate_contacts] pairs names of the requested gender with
    numbers of the requested carrier: it returns at most [count] contacts,
    exactly [count] of them when the gender is one of the three and
    duplicates of numbers are allowed, and leaves the file system and the
    event trace alone. *)
Theorem X7_contacts_well_formed count gender carrier unique_phones s :
  exists contacts s',
    VCFGenerator.generate_contacts count gender carrier unique_phones s
      = (Ok contacts, s')
    /\ Forall (contact_from gender carrier) contacts
    /\ Z.of_nat (length contacts) <= Z.max 0 count
    /\ (gender_valid gender -> unique_phones = false ->
        Z.of_nat (length contacts) = Z.max 0 count)
    /\ the_world s' = the_world s.
Proof.
  destruct (generate_contacts_from count gender carrier unique_phones s)
    as (contacts & s' & Hrun & Hfrom & Hle & Hexact & _ & Hw).
  exists contacts, s'. auto.
Qed.

Lemma X7_contacts_well_formed_witness :
  exists contacts s',
    VCFGenerator.generate_contacts 3 (u8 "girl") (Some (u8 "telecom")) false
      example_state = (Ok contacts, s')
    /\ Forall (contact_from (u8 "girl") (Some (u8 "telecom"))) contacts
    /\ Z.of_nat (length contacts) <= Z.max 0 3
    /\ (gender_valid (u8 "girl") -> false = false ->
        Z.of_nat (length contacts) = Z.max 0 3)
    /\ the_world s' = the_world example_state.
Proof.
  exact (X7_contacts_well_formed 3 (u8 "girl") (Some (u8 "telecom")) false
           example_state).
Defined.

(** X8.  With a gender other than "boy", "girl" and "all",
    [generate_contacts] returns no contact at all, whatever the count: the
    numbers are generated and then dropped, since there is no name to pair
    them with. *)
Theorem X8_unknown_gender_no_contacts count gender carrier unique_phones s :
  ~ gender_valid gender ->
  exists s',
    VCFGenerator.generate_contacts count gender carrier unique_phones s
      = (Ok [], s')
    /\ the_world s' = the_world s.
Proof.
  intros Hg.
  destruct (generate_contacts_from count gender carrier unique_phones s)
    as (contacts & s' & Hrun & _ & _ & _ & Hnone & Hw).
  rewrite (Hnone Hg) in Hrun. exists s'. auto.
Qed.

Lemma X8_unknown_gender_no_contacts_witness :
  ~ gender_valid (u8 "male")
  /\ exists s',
    VCFGenerator.generate_contacts 10 (u8 "male") None true example_state
      = (Ok [], s')
    /\ the_world s' = the_world example_state.
Proof.
  assert (~ gender_valid (u8 "male")) as Hg by by_evaluation.
  split; [exact Hg|].
  exact (X8_unknown_gender_no_contacts 10 (u8 "male") None true example_state Hg).
Defined.

(** ** Writing and previewing contacts *)

Lemma with_file_lookup s filename content events :
  fs_files (the_world (with_file s filename content events)) !! filename
  = Some content.
Proof. unfold with_file. cbn [the_world fs_files]. apply lookup_insert_eq. Qed.

Lemma with_file_again s filename content events content' events' :
  with_file (with_file s filename content events) filename content' events'
  = with_file s filename content' (events ++ events').
Proof.
  unfold with_file.
  cbn [the_world rand_tape rand_pos gen_calls fs_dirs fs_files env_mkdir_error
       env_open_error env_now trace].
  now rewrite insert_insert_eq, app_assoc.
Qed.

Lemma file_write_run filename data old s :
  fs_files (the_world s) !! filename = Some old ->
  file_write filename data s = (Ok tt, with_file s filename (old ++ data) []).
Proof.
  intros Hold. unfold file_write, with_world, with_file.
  rewrite Hold, app_nil_r. reflexivity.
Qed.

Lemma named_entry (name phone : pystr) :
  name <> [] ->
  exists entry,
    VCFGenerator.create_contact_vcf_entry name phone = Ok entry
    /\ vcf_text [(name, phone)] = entry ++ [10%N].
Proof.
  intros Hname. unfold vcf_text. cbn [flat_map].
  unfold VCFGenerator.create_contact_vcf_entry.
  destruct name as [|c rest]; [congruence|].
  eexists. split; [reflexivity|]. now rewrite app_nil_r.
Qed.

Lemma vcf_text_app (xs ys : list (pystr * pystr)) :
  vcf_text (xs ++ ys) = vcf_text xs ++ vcf_text ys.
Proof. unfold vcf_text. apply flat_map_app. Qed.

(** Writing the contacts that have a name appends their text. *)
Lemma write_entries_good filename (good : list (pystr * pystr)) :
  named good ->
  forall tail old events s,
    for_each (good ++ tail) (fun '(name, phone) =>
       vcf_entry <- lift (VCFGenerator.create_contact_vcf_entry name phone) ;;
       file_write filename vcf_entry ;;;
       file_write filename [10%N]) (with_file s filename old events)
    = for_each tail (fun '(name, phone) =>
       vcf_entry <- lift (VCFGenerator.create_contact_vcf_entry name phone) ;;
       file_write filename vcf_entry ;;;
       file_write filename [10%N])
       (with_file s filename (old ++ vcf_text good) events).
Proof.
  induction good as [|[name phone] good IH]; intros Hgood tail old events s.
  - cbn [app]. unfold vcf_text. cbn [flat_map]. now rewrite app_nil_r.
  - apply Forall_cons in Hgood as [Hname Hgood]. cbn [fst] in Hname.
    destruct (named_entry name phone Hname) as (entry & Hentry & Htext).
    cbn [app for_each].
    unfold bind at 1. unfold bind at 1. unfold lift at 1. rewrite Hentry.
    unfold bind at 1.
    rewrite (file_write_run filename entry old) by apply with_file_lookup.
    rewrite with_file_again.
    rewrite (file_write_run filename [10%N] (old ++ entry))
      by apply with_file_lookup.
    rewrite with_file_again, !app_nil_r.
    rewrite IH by assumption. f_equal. f_equal.
    change ((name, phone) :: good) with ([(name, phone)] ++ good).
    rewrite vcf_text_app, Htext. now rewrite !app_assoc.
Qed.

Lemma open_w_ok filename s :
  env_open_error (the_world s) filename = None ->
  open_w filename s = (Ok tt, with_file s filename [] [EvOpen filename true]).
Proof.
  intros Hopen. unfold open_w, bind, read_world. rewrite Hopen. reflexivity.
Qed.

Lemma create_vcf_file_named contacts filename s :
  env_open_error (the_world s) filename = None ->
  named contacts ->
  VCFGenerator.create_vcf_file contacts filename s
  = (Ok true, with_file s filename (vcf_text contacts) [EvOpen filename true]).
Proof.
  intros Hopen Hnamed. unfold VCFGenerator.create_vcf_file, try_except.
  unfold bind at 1. rewrite (open_w_ok _ _ Hopen).
  rewrite <- (app_nil_r contacts) at 1.
  unfold bind at 1. rewrite (write_entries_good filename contacts Hnamed).
  cbn [for_each app]. reflexivity.
Qed.

Lemma create_vcf_file_unopened contacts filename msg s :
  env_open_error (the_world s) filename = Some msg ->
  VCFGenerator.create_vcf_file contacts filename s
  = (Ok false,
     with_events s [EvOpen filename false;
                    EvPrint (u8 "创建VCF文件失败: " ++ msg)]).
Proof.
  intros Hopen. unfold VCFGenerator.create_vcf_file, try_except.
  unfold bind at 1. unfold open_w. unfold bind at 1. unfold read_world at 1.
  rewrite Hopen.
  unfold bind, emit, with_world, raise, print, emit, with_world, ret, with_events.
  cbn [the_world rand_tape rand_pos gen_calls fs_dirs fs_files env_mkdir_error
       env_open_error env_now trace exn_str].
  now rewrite <- app_assoc.
Qed.



(** X10.  When the file cannot be opened, [create_vcf_file] returns False
    instead of raising: the failure is printed, and no file is created or
    changed. *)
Theorem X10_create_vcf_file_open_failure contacts filename msg s :
  env_open_error (the_world s) filename = Some msg ->
  exists s',
    VCFGenerator.create_vcf_file contacts filename s = (Ok false, s')
    /\ fs_files (the_world s') = fs_files (the_world s)
    /\ trace (the_world s')
       = trace (the_world s)
         ++ [EvOpen filename false; EvPrint (u8 "创建VCF文件失败: " ++ msg)].
Proof.
  intros Hopen.
  exists (with_events s [EvOpen filename false;
                         EvPrint (u8 "创建VCF文件失败: " ++ msg)]).
  split; [exact (create_vcf_file_unopened contacts filename msg s Hopen)|].
  split; reflexivity.
Qed.

Lemma X10_create_vcf_file_open_failure_witness :
  let s := mkState example_tape 0 0
             (mkWorld ∅ ∅ (fun _ => None) (fun _ => Some (u8 "Permission denied"))
                      (u8 "20240101_120000") []) in
  exists s',
    VCFGenerator.create_vcf_file [(u8 "王芳", u8 "13300000000")] (u8 "a.vcf") s
      = (Ok false, s')
    /\ fs_files (the_world s') = fs_files (the_world s)
    /\ trace (the_world s')
       = trace (the_world s)
         ++ [EvOpen (u8 "a.vcf") false;
             EvPrint (u8 "创建VCF文件失败: " ++ u8 "Permission denied")].
Proof.
  intros s.
  apply (X10_create_vcf_file_open_failure _ (u8 "a.vcf") (u8 "Permission denied") s).
  reflexivity.
Defined.



Lemma contacts_named gender carrier contacts :
  Forall (contact_from gender carrier) contacts -> named contacts.
Proof.
  intros Hall. eapply Forall_impl; [exact Hall|].
  intros c [Hname _]. now apply name_from_nonempty in Hname.
Qed.




(** ** The batch as a whole *)

Lemma opens_stable s s' :
  env_open_error (the_world s') = env_open_error (the_world s) ->
  opens s' = opens s.
Proof. intros H. unfold opens. now rewrite H. Qed.

(** The callback step changes nothing but the trace. *)
Lemma progress_step (progress_callback : bool) i file_count s :
  0 <= i < file_count -> file_count < 2 ^ 53 ->
  exists events,
    (if progress_callback then
       q <- lift (int_truediv (i + 1) file_count) ;;
       let progress := float_mul_int q 100 in
       pct <- lift (int_of_float progress) ;;
       emit (EvProgress pct)
     else ret tt) s = (Ok tt, with_events s events).
Proof.
  intros Hi Hn. destruct progress_callback.
  - destruct (progress_percent_defined (i + 1) file_count) as (q & pct & Hq & Hpct);
      try lia.
    exists [EvProgress pct].
    unfold bind, lift, emit, with_world. rewrite Hq. cbv zeta.
    rewrite Hpct. reflexivity.
  - exists []. unfold ret, with_events. rewrite app_nil_r.
    now destruct s as [? ? ? []].
Qed.

Section FilesOutcome.

Variable str_format : pystr -> Z -> outcome pystr.
Variable os_path_join : pystr -> pystr -> pystr.
Variables (contacts_per_file : Z) (output_dir filename_prefix gender : pystr)
          (carrier : option pystr) (unique_phones progress_callback : bool)
          (naming_mode : pystr) (start_number : Z) (number_format : pystr)
          (file_count : Z) (timestamp : option pystr).

Variable name : Z -> pystr.

Local Abbreviation file_name :=
  (filename_expr str_format filename_prefix naming_mode start_number
                 number_format timestamp).
Local Abbreviation path := (fun i => os_path_join output_dir (name i)).
Local Abbreviation good_batch :=
  (batch_ok gender carrier unique_phones contacts_per_file).

(** The loop sorts the paths by whether they can be opened, writes a full
    batch to each one that can, and touches no other file. *)
Lemma files_loop_outcome indices :
  file_count < 2 ^ 53 ->
  (forall i, i ∈ indices ->
     0 <= i < file_count /\ forall s, file_name i s = (Ok (name i), s)) ->
  forall created_files failed_files s,
  exists s',
    VCFGenerator.files_loop str_format os_path_join indices contacts_per_file
      output_dir filename_prefix gender carrier unique_phones progress_callback
      naming_mode start_number number_format file_count timestamp
      created_files failed_files s
    = (Ok (created_files ++ List.filter (opens s) (map path indices),
           failed_files
           ++ List.filter (fun p => negb (opens s p)) (map path indices)), s')
    /\ env_open_error (the_world s') = env_open_error (the_world s)
    /\ (forall p, p ∈ map path indices -> opens s p = true ->
          exists batch,
            good_batch batch
            /\ fs_files (the_world s') !! p = Some (vcf_text batch))
    /\ (forall p, (p ∈ map path indices -> opens s p = false) ->
          fs_files (the_world s') !! p = fs_files (the_world s) !! p).
Proof.
  intros Hn. induction indices as [|i rest IH]; intros Hidx created failed s.
  - exists s. cbn [VCFGenerator.files_loop map List.filter]. unfold ret.
    rewrite !app_nil_r. split_and!; auto.
    intros p Hp. now apply elem_of_nil in Hp.
  - destruct (Hidx i ltac:(left)) as [Hi Hname].
    destruct (generate_contacts_from contacts_per_file gender carrier
                unique_phones s)
      as (contacts & s1 & Hcontacts & Hfrom & Hle & Hexact & Hnone & Hw1).
    assert (good_batch contacts) as Hbatch by (unfold batch_ok; auto).
    specialize (Hname s1). unfold filename_expr in Hname.
    assert (forall j, j ∈ rest ->
              0 <= j < file_count
              /\ forall s, file_name j s = (Ok (name j), s)) as Hrest.
    { intros j Hj. apply Hidx. now right. }
    cbn [VCFGenerator.files_loop].
    rewrite (bind_ok _ _ _ _ _ Hcontacts).
    rewrite (bind_ok _ _ _ _ _ Hname). cbv zeta.
    cbn [map List.filter].
    destruct (opens s (path i)) eqn:Hopens.
    + assert (env_open_error (the_world s1) (path i) = None) as Hopen.
      { rewrite Hw1. now apply bool_decide_eq_true in Hopens. }
      rewrite (bind_ok _ _ _ _ _
                 (create_vcf_file_named contacts (path i) s1 Hopen
                    (contacts_named gender carrier contacts Hfrom))).
      set (s2 := with_file s1 (path i) (vcf_text contacts) [EvOpen (path i) true]).
      destruct (progress_step progress_callback i file_count s2 Hi Hn)
        as (events & Hcb).
      rewrite (bind_ok _ _ _ _ _ Hcb).
      set (s3 := with_events s2 events).
      assert (env_open_error (the_world s3) = env_open_error (the_world s)) as Henv.
      { unfold s3, s2, with_events, with_file. cbn [the_world env_open_error].
        now rewrite Hw1. }
      destruct (IH Hrest (created ++ [path i]) failed s3)
        as (s' & Hloop & Henv' & Hdone & Hframe).
      rewrite (opens_stable _ _ Henv) in Hloop, Hdone, Hframe.
      exists s'. rewrite Hloop, <- app_assoc. cbn [negb app].
      split_and!.
      * reflexivity.
      * congruence.
      * intros p Hp Hpo.
        destruct (decide (p ∈ map path rest)) as [Hin|Hout]; [now apply Hdone|].
        apply elem_of_cons in Hp as [->|Hp]; [|contradiction].
        exists contacts. split; [assumption|].
        rewrite Hframe by (intros; contradiction).
        unfold s3, with_events. cbn [the_world fs_files].
        apply with_file_lookup.
      * intros p Hp.
        assert (p <> path i) as Hne.
        { intros ->. rewrite Hp in Hopens by now left. discriminate. }
        rewrite Hframe by (intros Hin; apply Hp; now right).
        unfold s3, s2, with_events, with_file. cbn [the_world fs_files].
        rewrite lookup_insert_ne by congruence. now rewrite Hw1.
    + assert (exists msg, env_open_error (the_world s1) (path i) = Some msg)
        as (msg & Hopen).
      { rewrite Hw1. apply bool_decide_eq_false in Hopens.
        destruct (env_open_error (the_world s) (path i)); [eauto|congruence]. }
      rewrite (bind_ok _ _ _ _ _
                 (create_vcf_file_unopened contacts (path i) msg s1 Hopen)).
      set (s2 := with_events s1 [EvOpen (path i) false;
                                EvPrint (u8 "创建VCF文件失败: " ++ msg)]).
      destruct (progress_step progress_callback i file_count s2 Hi Hn)
        as (events & Hcb).
      rewrite (bind_ok _ _ _ _ _ Hcb).
      set (s3 := with_events s2 events).
      assert (env_open_error (the_world s3) = env_open_error (the_world s)) as Henv.
      { unfold s3, s2, with_events. cbn [the_world env_open_error].
        now rewrite Hw1. }
      assert (fs_files (the_world s3) = fs_files (the_world s)) as Hfiles.
      { unfold s3, s2, with_events. cbn [the_world fs_files]. now rewrite Hw1. }
      destruct (IH Hrest created (failed ++ [path i]) s3)
        as (s' & Hloop & Henv' & Hdone & Hframe).
      rewrite (opens_stable _ _ Henv) in Hloop, Hdone, Hframe.
      exists s'. rewrite Hloop, <- app_assoc. cbn [negb app].
      split_and!.
      * reflexivity.
      * congruence.
      * intros p Hp Hpo.
        apply elem_of_cons in Hp as [->|Hp]; [congruence|].
        now apply Hdone.
      * intros p Hp.
        rewrite Hframe by (intros Hin; apply Hp; now right).
        now rewrite Hfiles.
Qed.

End FilesOutcome.

Lemma range_nonpositive n : n <= 0 -> range n = [].
Proof. intros Hn. unfold range. now replace (Z.to_nat n) with 0%nat by lia. Qed.

Lemma elem_of_filter_list {A} (f : A -> bool) (l : list A) x :
  x ∈ List.filter f l <-> x ∈ l /\ f x = true.
Proof. rewrite !list_elem_of_In. apply filter_In. Qed.


Lemma filter_all {A} (f : A -> bool) (l : list A) :
  (forall x, x ∈ l -> f x = true) ->
  List.filter f l = l /\ List.filter (fun x => negb (f x)) l = [].
Proof.
  induction l as [|x l IH]; intros Hall; [auto|].
  cbn [List.filter]. rewrite (Hall x) by now left. cbn [negb].
  destruct IH as [-> ->]; [|auto]. intros y Hy. apply Hall. now right.
Qed.

Section BatchOutcome.

Variable str_format : pystr -> Z -> outcome pystr.
Variable os_path_join : pystr -> pystr -> pystr.
Variables (file_count contacts_per_file : Z)
          (output_dir filename_prefix gender : pystr)
          (carrier : option pystr) (unique_phones progress_callback : bool)
          (naming_mode : pystr) (start_number : Z) (number_format : pystr).

Local Abbreviation run :=
  (VCFGenerator.generate_vcf_files str_format os_path_join file_count
     contacts_per_file output_dir filename_prefix gender carrier unique_phones
     progress_callback naming_mode start_number number_format).
Local Abbreviation rest_of_run :=
  (after_directory str_format os_path_join file_count contacts_per_file
     output_dir filename_prefix gender carrier unique_phones progress_callback
     naming_mode start_number number_format).

(** The directory step leaves everything but the set of directories. *)
Lemma directory_step_world s :
  dir_available output_dir s ->
  exists s1,
    run s = rest_of_run s1
    /\ trace (the_world s1) = trace (the_world s)
    /\ fs_files (the_world s1) = fs_files (the_world s)
    /\ env_now (the_world s1) = env_now (the_world s)
    /\ env_open_error (the_world s1) = env_open_error (the_world s).
Proof.
  intros Hdir. unfold VCFGenerator.generate_vcf_files.
  unfold bind at 1. unfold os_path_exists, read_world.
  destruct (bool_decide (output_dir ∈ fs_dirs (the_world s))
            || bool_decide (output_dir ∈ dom (fs_files (the_world s)))) eqn:Hpresent.
  - cbn [negb]. unfold bind at 1. unfold ret at 1. exists s. auto.
  - apply orb_false_iff in Hpresent as [Hd Hf].
    apply bool_decide_eq_false in Hd, Hf.
    destruct Hdir as [Hdir|[Hdir|Hdir]]; [contradiction | contradiction |].
    cbn [negb]. unfold bind at 1, try_except, os_makedirs.
    unfold bind at 1. unfold bind at 1. unfold read_world at 1. rewrite Hdir.
    unfold with_world at 1. unfold ret at 1.
    eexists. split; [reflexivity|]. auto.
Qed.

(** The part after the directory step, by which paths can be opened. *)
Lemma after_directory_outcome (name : Z -> pystr) s :
  file_count < 2 ^ 53 ->
  naming_ok str_format file_count filename_prefix naming_mode start_number
            number_format name s ->
  let paths := map (fun i => os_path_join output_dir (name i)) (range file_count) in
  exists s',
    rest_of_run s
    = (Ok (batch_record (List.filter (opens s) paths)
                        (List.filter (fun p => negb (opens s p)) paths)
                        output_dir contacts_per_file), s')
    /\ (forall p, p ∈ paths -> opens s p = true ->
          exists batch,
            batch_ok gender carrier unique_phones contacts_per_file batch
            /\ fs_files (the_world s') !! p = Some (vcf_text batch))
    /\ (forall p, (p ∈ paths -> opens s p = false) ->
          fs_files (the_world s') !! p = fs_files (the_world s) !! p).
Proof.
  intros Hn Hmode paths. unfold after_directory.
  set (timestamp := if str_eqb naming_mode (u8 "timestamp")
                    then Some (env_now (the_world s)) else None).
  assert ((if str_eqb naming_mode (u8 "timestamp") then
             ts <- datetime_now_strftime ;; ret (Some ts)
           else ret None) s = (Ok timestamp, s)) as Hts.
  { unfold timestamp. now destruct (str_eqb naming_mode (u8 "timestamp")). }
  rewrite (bind_ok _ _ _ _ _ Hts).
  destruct (files_loop_outcome str_format os_path_join contacts_per_file
              output_dir filename_prefix gender carrier unique_phones
              progress_callback naming_mode start_number number_format
              file_count timestamp name (range file_count) Hn)
    with (created_files := @nil pystr) (failed_files := @nil pystr) (s := s)
    as (s' & Hloop & _ & Hdone & Hframe).
  { intros i Hi. apply elem_of_range in Hi. split; [assumption|].
    intros s0. unfold filename_expr, timestamp, str_eqb.
    destruct Hmode as [[-> Hname] | [-> Hname]].
    - rewrite (bool_decide_eq_false_2 (u8 "timestamp" = u8 "custom_number"))
        by discriminate.
      rewrite bool_decide_eq_true_2 by reflexivity.
      rewrite Hname. reflexivity.
    - rewrite (bool_decide_eq_true_2 (u8 "custom_number" = u8 "custom_number"))
        by reflexivity.
      destruct (Hname i Hi) as (v & Hv & ->).
      unfold bind, lift. rewrite Hv. reflexivity. }
  rewrite (bind_ok _ _ _ _ _ Hloop). cbn [app].
  exists s'. split_and!; auto.
Qed.

Lemma naming_ok_transfer (name : Z -> pystr) s s1 :
  env_now (the_world s1) = env_now (the_world s) ->
  naming_ok str_format file_count filename_prefix naming_mode start_number
            number_format name s ->
  naming_ok str_format file_count filename_prefix naming_mode start_number
            number_format name s1.
Proof. intros Hnow. unfold naming_ok. now rewrite Hnow. Qed.

End BatchOutcome.






(** X15.  For a gender other than "boy", "girl" and "all" the batch still
    runs: every file it creates is empty, while [total_contacts] reports
    [contacts_per_file] contacts for each of them. *)
Theorem X15_unknown_gender_empty_files
    (str_format : pystr -> Z -> outcome pystr)
    (os_path_join : pystr -> pystr -> pystr)
    (file_count contacts_per_file : Z) (output_dir filename_prefix gender : pystr)
    (carrier : option pystr) (unique_phones progress_callback : bool)
    (naming_mode : pystr) (start_number : Z) (number_format : pystr)
    (name : Z -> pystr) (s : state) :
  ~ gender_valid gender ->
  file_count < 2 ^ 53 ->
  dir_available output_dir s ->
  naming_ok str_format file_count filename_prefix naming_mode start_number
            number_format name s ->
  exists record created s',
    VCFGenerator.generate_vcf_files str_format os_path_join file_count
      contacts_per_file output_dir filename_prefix gender carrier unique_phones
      progress_callback naming_mode start_number number_format s
    = (Ok record, s')
    /\ record !! "created_files" = Some (VList created)
    /\ record !! "total_contacts"
       = Some (VInt (Z.of_nat (length created) * contacts_per_file))
    /\ (forall p, p ∈ created -> fs_files (the_world s') !! p = Some []).
Proof.
  intros Hgender Hn Hdir Hmode.
  destruct (directory_step_world str_format os_path_join file_count
              contacts_per_file output_dir filename_prefix gender carrier
              unique_phones progress_callback naming_mode start_number
              number_format s Hdir)
    as (s1 & -> & _ & _ & Hnow & _).
  destruct (after_directory_outcome str_format os_path_join file_count
              contacts_per_file output_dir filename_prefix gender carrier
              unique_phones progress_callback naming_mode start_number
              number_format name s1 Hn
              (naming_ok_transfer str_format file_count filename_prefix
                 naming_mode start_number number_format name s s1 Hnow Hmode))
    as (s' & Hrun & Hdone & _).
  eexists _, _, s'. split; [exact Hrun|]. split_and!; [reflexivity.. |].
  intros p Hp. apply elem_of_filter_list in Hp as [Hp Hpo].
  destruct (Hdone p Hp Hpo) as (batch & (_ & _ & _ & Hempty) & Hfile).
  rewrite Hfile, (Hempty Hgender). reflexivity.
Qed.

Lemma X15_unknown_gender_empty_files_witness :
  exists record created s',
    VCFGenerator.generate_vcf_files str_format_ui posix_join 2 10
      (u8 "vcf_output") (u8 "通讯录") (u8 "male") None true false
      (u8 "timestamp") 1 (u8 "{:03d}") example_state
    = (Ok record, s')
    /\ record !! "created_files" = Some (VList created)
    /\ record !! "total_contacts"
       = Some (VInt (Z.of_nat (length created) * 10))
    /\ (forall p, p ∈ created -> fs_files (the_world s') !! p = Some []).
Proof.
  apply (X15_unknown_gender_empty_files str_format_ui posix_join 2 10
           (u8 "vcf_output") (u8 "通讯录") (u8 "male") None true false
           (u8 "timestamp") 1 (u8 "{:03d}")
           (fun i => u8 "通讯录" ++ u8 "_" ++ u8 "20240101_120000" ++ u8 "_"
                     ++ format_03d (i + 1) ++ u8 ".vcf")).
  - unfold gender_valid. by_evaluation.
  - lia.
  - right. right. reflexivity.
  - left. split; reflexivity.
Defined.

(** X16.  With [file_count <= 0] and a usable output directory, the loop
    body never runs: whatever the naming mode, even an unknown one,
    [generate_vcf_files] returns a record with [success] True, no files and
    zero contacts; no file is opened or changed and nothing is printed. *)
Theorem X16_no_files_requested
    (str_format : pystr -> Z -> outcome pystr)
    (os_path_join : pystr -> pystr -> pystr)
    (file_count contacts_per_file : Z) (output_dir filename_prefix gender : pystr)
    (carrier : option pystr) (unique_phones progress_callback : bool)
    (naming_mode : pystr) (start_number : Z) (number_format : pystr) (s : state) :
  file_count <= 0 ->
  dir_available output_dir s ->
  exists record s',
    VCFGenerator.generate_vcf_files str_format os_path_join file_count
      contacts_per_file output_dir filename_prefix gender carrier unique_phones
      progress_callback naming_mode start_number number_format s
    = (Ok record, s')
    /\ record !! "success" = Some (VBool true)
    /\ record !! "files_created" = Some (VInt 0)
    /\ record !! "files_failed" = Some (VInt 0)
    /\ record !! "created_files" = Some (VList [])
    /\ record !! "failed_files" = Some (VList [])
    /\ record !! "total_contacts" = Some (VInt 0)
    /\ trace (the_world s') = trace (the_world s)
    /\ fs_files (the_world s') = fs_files (the_world s).
Proof.
  intros Hn Hdir.
  destruct (directory_step_world str_format os_path_join file_count
              contacts_per_file output_dir filename_prefix gender carrier
              unique_phones progress_callback naming_mode start_number
              number_format s Hdir)
    as (s1 & -> & Htr & Hfiles & _ & _).
  unfold after_directory. rewrite (range_nonpositive file_count Hn).
  exists (batch_record [] [] output_dir contacts_per_file), s1.
  split.
  - destruct (str_eqb naming_mode (u8 "timestamp")); reflexivity.
  - split_and!; auto.
Qed.

Lemma X16_no_files_requested_witness :
  exists record s',
    VCFGenerator.generate_vcf_files str_format_ui posix_join 0 10
      (u8 "vcf_output") (u8 "通讯录") (u8 "all") None true true
      (u8 "sequence") 1 (u8 "{:03d}") example_state
    = (Ok record, s')
    /\ record !! "success" = Some (VBool true)
    /\ record !! "files_created" = Some (VInt 0)
    /\ record !! "files_failed" = Some (VInt 0)
    /\ record !! "created_files" = Some (VList [])
    /\ record !! "failed_files" = Some (VList [])
    /\ record !! "total_contacts" = Some (VInt 0)
    /\ trace (the_world s') = trace (the_world example_state)
    /\ fs_files (the_world s') = fs_files (the_world example_state).
Proof.
  apply (X16_no_files_requested str_format_ui posix_join 0 10 (u8 "vcf_output")
           (u8 "通讯录") (u8 "all") None true true (u8 "sequence") 1
           (u8 "{:03d}") example_state).
  - lia.
  - right. right. reflexivity.
Defined.

(** X17.  When the output directory neither exists nor can be created,
    [generate_vcf_files] does not raise: it returns the three-key failure
    record carrying the error text, with no [total_contacts] key, and it
    generates nothing, opens no file and leaves the state as it was. *)
Theorem X17_directory_failure_record
    (str_format : pystr -> Z -> outcome pystr)
    (os_path_join : pystr -> pystr -> pystr)
    (file_count contacts_per_file : Z) (output_dir filename_prefix gender : pystr)
    (carrier : option pystr) (unique_phones progress_callback : bool)
    (naming_mode : pystr) (start_number : Z) (number_format : pystr)
    (msg : pystr) (s : state) :
  output_dir ∉ fs_dirs (the_world s) ->
  output_dir ∉ dom (fs_files (the_world s)) ->
  env_mkdir_error (the_world s) output_dir = Some msg ->
  VCFGenerator.generate_vcf_files str_format os_path_join file_count
    contacts_per_file output_dir filename_prefix gender carrier unique_phones
    progress_callback naming_mode start_number number_format s
  = (Ok (failure_record msg), s)
  /\ failure_record msg !! "success" = Some (VBool false)
  /\ failure_record msg !! "error"
     = Some (VStr (u8 "无法创建输出目录: " ++ msg))
  /\ failure_record msg !! "files_created" = Some (VInt 0)
  /\ failure_record msg !! "total_contacts" = None.
Proof.
  intros Hd Hf Herr. split; [|split_and!; reflexivity].
  unfold VCFGenerator.generate_vcf_files.
  unfold bind at 1. unfold os_path_exists, read_world.
  rewrite (bool_decide_eq_false_2 _ Hd), (bool_decide_eq_false_2 _ Hf).
  cbn [orb negb]. unfold bind at 1, try_except, os_makedirs.
  unfold bind at 1. unfold bind at 1. unfold read_world at 1. rewrite Herr.
  reflexivity.
Qed.

Lemma X17_directory_failure_record_witness :
  VCFGenerator.generate_vcf_files str_format_ui posix_join 2 10
    (u8 "vcf_output") (u8 "通讯录") (u8 "all") None true true
    (u8 "timestamp") 1 (u8 "{:03d}") readonly_state
  = (Ok (failure_record (u8 "Permission denied")), readonly_state)
  /\ failure_record (u8 "Permission denied") !! "success" = Some (VBool false)
  /\ failure_record (u8 "Permission denied") !! "error"
     = Some (VStr (u8 "无法创建输出目录: " ++ u8 "Permission denied"))
  /\ failure_record (u8 "Permission denied") !! "files_created" = Some (VInt 0)
  /\ failure_record (u8 "Permission denied") !! "total_contacts" = None.
Proof.
  apply (X17_directory_failure_record str_format_ui posix_join 2 10
           (u8 "vcf_output") (u8 "通讯录") (u8 "all") None true true
           (u8 "timestamp") 1 (u8 "{:03d}") (u8 "Permission denied")
           readonly_state).
  - intros H. vm_compute in H. discriminate.
  - intros H. vm_compute in H. discriminate.
  - reflexivity.
Defined.

(** ** The last progress value *)

Lemma new_location_exact m : new_location m 0 = loc_Exact.
Proof. unfold new_location. now destruct (Z.even m). Qed.

(** [n / n] is exactly [1.0]. *)
Lemma truediv_self n :
  1 <= n < 2 ^ 53 ->
  int_truediv n n = Ok (S754_finite false 4503599627370496 (-52)).
Proof.
  intros Hn. unfold int_truediv. destruct (Z.eqb_spec n 0); [lia|].
  destruct (float_of_int_pos n Hn) as (m & e & -> & _ & _). f_equal.
  unfold SFdiv. rewrite SFdiv_core_binary_eq. cbv zeta.
  replace (Zdigits2 (Z.pos m) + e - (Zdigits2 (Z.pos m) + e) - 53) with (-53)
    by lia.
  replace (e - e) with 0 by lia.
  change (Z.min (Z.max (-53) (-1074)) 0) with (-53).
  change (0 - -53) with 53. cbv iota.
  rewrite Z.shiftl_mul_pow2 by lia.
  rewrite (Z.mul_comm (Z.pos m)), Z.div_mul, Z.mod_mul by lia.
  rewrite new_location_exact. reflexivity.
Qed.

(** The percentage of the last iteration is 100. *)
Lemma percent_value_last n : 1 <= n < 2 ^ 53 -> percent_value (n - 1) n = 100.
Proof.
  intros Hn. unfold percent_value.
  replace (n - 1 + 1) with n by lia. rewrite (truediv_self n Hn).
  reflexivity.
Qed.

Lemma range_snoc n : 1 <= n -> range n = range (n - 1) ++ [n - 1].
Proof.
  intros Hn. unfold range.
  replace (Z.to_nat n) with (S (Z.to_nat (n - 1))) by lia.
  rewrite seq_S, map_app. cbn [map Nat.add]. f_equal. f_equal. lia.
Qed.

(** X18.  With a supplied callback and at least one file, the last value
    the callback receives is exactly 100: the division of [file_count] by
    itself is exact, so the truncation of the final percentage loses
    nothing. *)
Theorem X18_progress_ends_at_100
    (str_format : pystr -> Z -> outcome pystr)
    (os_path_join : pystr -> pystr -> pystr)
    (file_count contacts_per_file : Z) (output_dir filename_prefix gender : pystr)
    (carrier : option pystr) (unique_phones : bool)
    (naming_mode : pystr) (start_number : Z) (number_format : pystr)
    (name : Z -> pystr) (s : state) :
  1 <= file_count < 2 ^ 53 ->
  dir_available output_dir s ->
  naming_ok str_format file_count filename_prefix naming_mode start_number
            number_format name s ->
  exists record s' new,
    VCFGenerator.generate_vcf_files str_format os_path_join file_count
      contacts_per_file output_dir filename_prefix gender carrier unique_phones
      true naming_mode start_number number_format s
    = (Ok record, s')
    /\ trace (the_world s') = trace (the_world s) ++ new
    /\ last (omap progress_of new) = Some 100.
Proof.
  intros Hn Hdir Hname.
  destruct (generate_vcf_files_run str_format os_path_join file_count
              contacts_per_file output_dir filename_prefix gender carrier
              unique_phones true naming_mode start_number number_format name
              s (proj2 Hn) Hdir Hname)
    as (created & failed & s' & new & Hrun & Htr & Hobs & _ & _).
  exists (batch_record created failed output_dir contacts_per_file), s', new.
  split_and!; auto.
  rewrite omap_progress_of, Hobs, view_progress.
  rewrite (range_snoc file_count) by lia.
  rewrite map_app. cbn [map]. rewrite last_snoc.
  now rewrite (percent_value_last file_count Hn).
Qed.

Lemma X18_progress_ends_at_100_witness :
  exists record s' new,
    VCFGenerator.generate_vcf_files str_format_ui posix_join 7 2
      (u8 "vcf_output") (u8 "通讯录") (u8 "all") None true
      true (u8 "timestamp") 1 (u8 "{:03d}") example_state
    = (Ok record, s')
    /\ trace (the_world s') = trace (the_world example_state) ++ new
    /\ last (omap progress_of new) = Some 100.
Proof.
  apply (X18_progress_ends_at_100 str_format_ui posix_join 7 2 (u8 "vcf_output")
           (u8 "通讯录") (u8 "all") None true (u8 "timestamp") 1 (u8 "{:03d}")
           (fun i => u8 "通讯录" ++ u8 "_" ++ u8 "20240101_120000" ++ u8 "_"
                     ++ format_03d (i + 1) ++ u8 ".vcf")
           example_state).
  - lia.
  - right. right. reflexivity.
  - left. split; reflexivity.
Defined.

(** ** Distinct numbers within one list of contacts *)

Lemma generate_phone_numbers_nodup count prefix carrier s :
  prefix_arg_valid prefix ->
  exists l s',
    PhoneGenerator.generate_phone_numbers count prefix carrier true s = (Ok l, s')
    /\ NoDup l.
Proof.
  intros Hv. unfold PhoneGenerator.generate_phone_numbers.
  destruct (Z.leb_spec count 0) as [|Hpos].
  { exists [], s. split; [reflexivity | constructor]. }
  destruct (phone_loop_unique (Z.to_nat (count * 10)) count (count * 10)
              prefix carrier [] ∅ 0 s)
    as (k & (l & s' & Hrun & (Hnd & _) & _) & _); auto; try lia.
  - constructor.
  - intros x Hx. now apply elem_of_nil in Hx.
  - simpl. lia.
  - exists l, s'. auto.
Qed.

Lemma nodup_prefix_by_index (names phones : list pystr) k :
  (k <= length phones)%nat -> NoDup phones ->
  NoDup (map snd (map (fun i => (nth i names [], nth i phones [])) (seq 0 k))).
Proof.
  intros Hk Hnd. rewrite map_map. cbn [snd].
  apply NoDup_fmap_2_strong; [|apply NoDup_seq].
  intros i j Hi Hj Heq. apply elem_of_seq in Hi, Hj.
  apply (proj1 (List.NoDup_nth phones [])
           (proj1 (NoDup_ListNoDup phones) Hnd)); [lia | lia | exact Heq].
Qed.

(** X19.  With [unique_phones] the contacts of one call of
    [generate_contacts] carry pairwise distinct numbers. *)
Theorem X19_contacts_distinct_numbers count gender carrier s :
  exists contacts s',
    VCFGenerator.generate_contacts count gender carrier true s = (Ok contacts, s')
    /\ NoDup (map snd contacts).
Proof.
  unfold VCFGenerator.generate_contacts.
  destruct (Z.leb_spec count 0).
  { exists [], s. split; [reflexivity | constructor]. }
  destruct (generate_names_run count gender s) as (names & s1 & Hnames & _).
  destruct (generate_phone_numbers_nodup count None carrier s1 I)
    as (phones & s2 & Hphones & Hnd).
  rewrite (bind_ok _ _ _ _ _ Hnames), (bind_ok _ _ _ _ _ Hphones).
  eexists _, s2. split; [reflexivity|].
  apply nodup_prefix_by_index; [lia | assumption].
Qed.

(** ** The worker threads of the window *)

Lemma generate_phone_numbers_unsupported count prefix carrier unique s :
  prefix <> [] ->
  prefix ∉ PhoneGenerator.prefixes ->
  0 < count ->
  PhoneGenerator.generate_phone_numbers count (Some prefix) carrier unique s
  = (Raise (ValueError (u8 "不支持的号段前缀: " ++ prefix)),
     mkState (rand_tape s) (rand_pos s) (S (gen_calls s)) (the_world s)).
Proof.
  intros Hne Hnot Hcount.
  unfold PhoneGenerator.generate_phone_numbers.
  destruct (Z.leb_spec count 0); [lia|].
  destruct (Z.to_nat (count * 10)) as [|fuel] eqn:Hfuel; [lia|].
  rewrite phone_loop_unfold.
  change (Z.of_nat (length (@nil pystr))) with 0.
  destruct (Z.ltb_spec 0 count); [|lia].
  destruct (Z.ltb_spec 0 (count * 10)); [|lia].
  cbn [andb].
  now rewrite (bind_raise _ _ _ _ _
                 (unsupported_prefix_raises_once prefix carrier s Hne Hnot)).
Qed.

Lemma generate_phone_numbers_distinct count prefix carrier s :
  prefix_arg_valid prefix ->
  exists l s',
    PhoneGenerator.generate_phone_numbers count prefix carrier true s = (Ok l, s')
    /\ Forall (phone_from (prefix_pool prefix carrier)) l
    /\ NoDup l
    /\ the_world s' = the_world s.
Proof.
  intros Hv.
  destruct (generate_phone_numbers_from count prefix carrier true s Hv)
    as (l & s' & Hrun & Hall & Hw).
  destruct (generate_phone_numbers_nodup count prefix carrier s Hv)
    as (l' & s'' & Hrun' & Hnd).
  rewrite Hrun in Hrun'. injection Hrun' as <- <-.
  exists l, s'. auto.
Qed.

Lemma carrier_map_names carrier_text key :
  MainWindow.dict_get MainWindow.carrier_map carrier_text = Some key ->
  (key, carrier_text) ∈ carrier_names.
Proof.
  unfold MainWindow.carrier_map. cbn [MainWindow.dict_get]. unfold str_eqb.
  repeat case_bool_decide; subst; try discriminate;
    intros [= <-]; by_evaluation.
Qed.

(** X20.  The texts of the carrier box and the names shown in the result
    agree: when the text selected in the box stands for a carrier in
    [carrier_map] and the prefix box is left at "随机", the phone thread
    emits [finished], never [error], and [get_carrier_name] gives every
    number it carries the very text that was selected. *)
Theorem X20_carrier_text_round_trip carrier_text key count s :
  MainWindow.dict_get MainWindow.carrier_map carrier_text = Some key ->
  exists phones s',
    PhoneGeneratorThread.run count
      (MainWindow.dict_get MainWindow.carrier_map carrier_text) (u8 "随机") s
    = (Ok (Finished phones), s')
    /\ Forall (fun phone => PhoneGenerator.get_carrier_name phone = carrier_text)
              phones.
Proof.
  intros Hkey. pose proof (carrier_map_names _ _ Hkey) as Hname.
  rewrite Hkey. unfold PhoneGeneratorThread.run, try_except.
  assert (key <> u8 "全部") as Hall.
  { intros ->. revert Hname. by_evaluation. }
  rewrite (bool_decide_eq_false_2 (Some key = Some (u8 "全部"))) by congruence.
  change (str_eqb (u8 "随机") (u8 "随机")) with true. cbn [negb].
  destruct (generate_phone_numbers_from count None (Some key) true s I)
    as (l & s' & Hrun & Hfrom & _).
  rewrite (bind_ok _ _ _ _ _ Hrun). unfold ret.
  exists l, s'. split; [reflexivity|].
  pose proof (proj1 (Forall_forall _ _) carrier_pool_classified _ Hname) as Hpool.
  cbn [fst snd] in Hpool. apply pool_classified in Hpool.
  eapply Forall_impl; [exact Hfrom|].
  intros phone (chosen & ds & -> & Hin & _).
  now apply (proj1 (Forall_forall _ _) Hpool chosen Hin).
Qed.

Lemma X20_carrier_text_round_trip_witness :
  exists phones s',
    PhoneGeneratorThread.run 5
      (MainWindow.dict_get MainWindow.carrier_map (u8 "中国电信")) (u8 "随机")
      example_state
    = (Ok (Finished phones), s')
    /\ Forall (fun phone => PhoneGenerator.get_carrier_name phone = u8 "中国电信")
              phones.
Proof.
  apply (X20_carrier_text_round_trip (u8 "中国电信") (u8 "telecom") 5 example_state).
  reflexivity.
Defined.

(** X21.  No exception leaves the phone thread, and it emits exactly one
    signal: [error], with the message of the ValueError, when the count is
    positive and the prefix text is neither "随机", nor empty, nor a
    supported prefix; otherwise [finished] with pairwise distinct numbers
    of eleven digits.  The file system and the trace are left alone. *)
Theorem X21_phone_thread_signal count carrier prefix s :
  exists sig s',
    PhoneGeneratorThread.run count carrier prefix s = (Ok sig, s')
    /\ the_world s' = the_world s
    /\ match sig with
       | Error msg =>
           0 < count /\ unsupported_prefix prefix
           /\ msg = u8 "不支持的号段前缀: " ++ prefix
       | Finished phones =>
           (count <= 0 \/ ~ unsupported_prefix prefix)
           /\ Forall (fun phone => length phone = 11%nat /\ all_digits phone)
                     phones
           /\ NoDup phones
       end.
Proof.
  unfold PhoneGeneratorThread.run.
  set (carrier' := if negb (bool_decide (carrier = Some (u8 "全部")))
                   then carrier else None).
  assert (forall prefix',
            prefix_arg_valid prefix' -> ~ unsupported_prefix prefix ->
            exists sig s',
              try_except
                (phones <-
                   PhoneGenerator.generate_phone_numbers count prefix' carrier'
                     true ;;
                 ret (Finished phones))
                (fun e => ret (Error (exn_str e))) s = (Ok sig, s')
              /\ the_world s' = the_world s
              /\ match sig with
                 | Error msg =>
                     0 < count /\ unsupported_prefix prefix
                     /\ msg = u8 "不支持的号段前缀: " ++ prefix
                 | Finished phones =>
                     (count <= 0 \/ ~ unsupported_prefix prefix)
                     /\ Forall (fun phone => length phone = 11%nat
                                             /\ all_digits phone) phones
                     /\ NoDup phones
                 end) as Hgood.
  { intros prefix' Hv Hsup. unfold try_except.
    destruct (generate_phone_numbers_distinct count prefix' carrier' s Hv)
      as (l & s' & Hrun & Hfrom & Hnd & Hw).
    rewrite (bind_ok _ _ _ _ _ Hrun). unfold ret.
    exists (Finished l), s'. split_and!; auto.
    eapply Forall_impl; [exact Hfrom|].
    intros phone (chosen & ds & _ & _ & Hlen & Hdig). auto. }
  unfold str_eqb. case_bool_decide as Hrandom; cbn [negb].
  { apply Hgood; [exact I|]. intros (Hr & _). contradiction. }
  destruct (decide (prefix = [])) as [Hnil|Hne].
  { apply Hgood; [now left|]. intros (_ & Hn & _). contradiction. }
  destruct (decide (prefix ∈ PhoneGenerator.prefixes)) as [Hin|Hnot].
  { apply Hgood; [now right|]. intros (_ & _ & Hn). contradiction. }
  unfold try_except.
  destruct (Z.leb_spec count 0) as [Hcount|Hcount].
  - exists (Finished []), s.
    unfold PhoneGenerator.generate_phone_numbers.
    destruct (Z.leb_spec count 0); [|lia].
    split_and!; auto; constructor.
  - rewrite (bind_raise _ _ _ _ _
               (generate_phone_numbers_unsupported count prefix carrier' true s
                  Hne Hnot Hcount)).
    eexists (Error _), _. unfold ret. split; [reflexivity|].
    split; [reflexivity|]. unfold unsupported_prefix. auto.
Qed.

(** X22.  The name thread always emits [finished], never [error],
    whatever the count and the gender: the names it carries are of the
    requested gender, and there are exactly [max(0, count)] of them when the
    gender is "boy", "girl" or "all". *)
Theorem X22_name_thread_finishes count gender s :
  exists names s',
    NameGeneratorThread.run count gender s = (Ok (Finished names), s')
    /\ Forall (name_from (given_of_gender gender)) names
    /\ (gender_valid gender -> Z.of_nat (length names) = Z.max 0 count)
    /\ the_world s' = the_world s.
Proof.
  unfold NameGeneratorThread.run, try_except.
  destruct (generate_names_run count gender s)
    as (names & s1 & Hnames & (_ & Hlen) & Hw & _).
  destruct (generate_names_from count gender s)
    as (names' & s1' & Hnames' & Hfrom & _).
  rewrite Hnames in Hnames'. injection Hnames' as <- <-.
  rewrite (bind_ok _ _ _ _ _ Hnames). unfold ret.
  exists names, s1. split_and!; auto.
  intros Hg. rewrite (Hlen Hg). lia.
Qed.

Lemma X22_name_thread_finishes_witness :
  exists names s',
    NameGeneratorThread.run 4 (u8 "girl") example_state = (Ok (Finished names), s')
    /\ Forall (name_from (given_of_gender (u8 "girl"))) names
    /\ (gender_valid (u8 "girl") -> Z.of_nat (length names) = Z.max 0 4)
    /\ the_world s' = the_world example_state.
Proof.
  exact (X22_name_thread_finishes 4 (u8 "girl") example_state).
Defined.

(** X23.  The batch thread cannot fail on what the window passes: with a
    naming mode "timestamp" or "custom_number", a number format "{:03d}"
    or "{:d}" and a usable output directory, it emits [finished] with the
    record of the loop, in which the created and the failed files add up to
    [file_count]; neither the NameError of an unknown naming mode nor a
    format error can occur. *)
Theorem X23_vcf_thread_finishes
    (os_path_join : pystr -> pystr -> pystr)
    (file_count contacts_per_file : Z) (output_dir filename_prefix gender : pystr)
    (carrier : option pystr) (naming_mode : pystr) (start_number : Z)
    (number_format : pystr) (s : state) :
  file_count < 2 ^ 53 ->
  dir_available output_dir s ->
  naming_mode ∈ [u8 "timestamp"; u8 "custom_number"] ->
  number_format ∈ [u8 "{:03d}"; u8 "{:d}"] ->
  exists created failed s',
    VCFGeneratorThread.run str_format_ui os_path_join file_count
      contacts_per_file output_dir filename_prefix gender carrier naming_mode
      start_number number_format s
    = (Ok (Finished (batch_record created failed output_dir contacts_per_file)),
       s')
    /\ Z.of_nat (length created + length failed) = Z.max 0 file_count.
Proof.
  intros Hn Hdir Hmode Hfmt.
  assert (exists name,
            naming_ok str_format_ui file_count filename_prefix naming_mode
              start_number number_format name s) as (name & Hname).
  { apply elem_of_cons in Hmode as [->|Hmode].
    - eexists (fun i => _). left. split; [reflexivity|]. intros i. reflexivity.
    - apply list_elem_of_singleton in Hmode as ->.
      apply elem_of_cons in Hfmt as [->|Hfmt].
      + exists (fun i => filename_prefix ++ u8 "_"
                         ++ format_03d (start_number + i) ++ u8 ".vcf").
        right. split; [reflexivity|]. intros i _.
        exists (format_03d (start_number + i)). split; reflexivity.
      + apply list_elem_of_singleton in Hfmt as ->.
        exists (fun i => filename_prefix ++ u8 "_"
                         ++ str_of_int (start_number + i) ++ u8 ".vcf").
        right. split; [reflexivity|]. intros i _.
        exists (str_of_int (start_number + i)). split; reflexivity. }
  unfold VCFGeneratorThread.run, try_except.
  destruct (generate_vcf_files_run str_format_ui os_path_join file_count
              contacts_per_file output_dir filename_prefix gender
              (if negb (bool_decide (carrier = Some (u8 "全部")))
               then carrier else None)
              true true naming_mode start_number number_format name s
              Hn Hdir Hname)
    as (created & failed & s' & new & Hrun & _ & _ & _ & Hlen).
  rewrite (bind_ok _ _ _ _ _ Hrun). unfold ret.
  exists created, failed, s'. split; [reflexivity|].
  rewrite Hlen, length_range. lia.
Qed.

Lemma X23_vcf_thread_finishes_witness :
  exists created failed s',
    VCFGeneratorThread.run str_format_ui posix_join 3 5 (u8 "vcf_output")
      (u8 "通讯录") (u8 "all") (Some (u8 "全部")) (u8 "custom_number") 98
      (u8 "{:d}") example_state
    = (Ok (Finished (batch_record created failed (u8 "vcf_output") 5)), s')
    /\ Z.of_nat (length created + length failed) = Z.max 0 3.
Proof.
  apply (X23_vcf_thread_finishes posix_join 3 5 (u8 "vcf_output") (u8 "通讯录")
           (u8 "all") (Some (u8 "全部")) (u8 "custom_number") 98 (u8 "{:d}")
           example_state).
  - lia.
  - right. right. reflexivity.
  - by_evaluation.
  - by_evaluation.
Defined.

(** ** The files of one batch are pairwise distinct *)

(** Reading a string of decimal digits back, leading zeros allowed. *)
Lemma read_digits_text (str : string) :
  string_of_list_ascii (map ascii_of_N (map N_of_ascii (list_ascii_of_string str)))
  = str.
Proof.
  rewrite map_map.
  rewrite (map_ext _ (fun a => a)) by (intros a; apply ascii_N_embedding).
  rewrite map_id. apply string_of_list_ascii_of_string.
Qed.

Lemma str_of_int_read n :
  0 <= n ->
  option_map Z.of_uint
    (NilEmpty.uint_of_string
       (string_of_list_ascii (map ascii_of_N (str_of_int n))))
  = Some n.
Proof.
  intros Hn. unfold str_of_int. rewrite read_digits_text.
  destruct n as [|p|p]; [reflexivity | | lia].
  pose proof (DecimalZ.of_to (Z.pos p)) as Hback.
  cbn [Z.to_int NilZero.string_of_int]. unfold NilZero.string_of_uint.
  cbn [Z.to_int Z.of_int] in Hback.
  destruct (Pos.to_uint p) eqn:Hd;
    try (now apply DecimalPos.Unsigned.to_uint_nonnil in Hd);
    rewrite NilEmpty.usu; cbn [option_map]; now rewrite Hback.
Qed.

Lemma zeros_read k (digits : pystr) :
  option_map Z.of_uint
    (NilEmpty.uint_of_string
       (string_of_list_ascii (map ascii_of_N (replicate k 48%N ++ digits))))
  = option_map Z.of_uint
      (NilEmpty.uint_of_string (string_of_list_ascii (map ascii_of_N digits))).
Proof.
  induction k as [|k IH]; [reflexivity|].
  cbn [replicate app map string_of_list_ascii NilEmpty.uint_of_string].
  change (ascii_of_N 48) with "0"%char.
  destruct (NilEmpty.uint_of_string
              (string_of_list_ascii (map ascii_of_N (replicate k 48%N ++ digits))))
    as [d|] eqn:Hd;
    destruct (NilEmpty.uint_of_string
                (string_of_list_ascii (map ascii_of_N digits))) as [d'|];
    cbn [uint_of_char option_map] in *; try discriminate; auto.
Qed.

Lemma format_03d_read n :
  0 <= n ->
  option_map Z.of_uint
    (NilEmpty.uint_of_string
       (string_of_list_ascii (map ascii_of_N (format_03d n))))
  = Some n.
Proof.
  intros Hn. unfold format_03d.
  destruct (Z.ltb_spec n 0); [lia|]. cbn [app].
  rewrite zeros_read, Z.abs_eq by assumption. now apply str_of_int_read.
Qed.

Lemma str_of_int_inj a b : 0 <= a -> 0 <= b -> str_of_int a = str_of_int b -> a = b.
Proof.
  intros Ha Hb Heq. pose proof (str_of_int_read a Ha) as Hread.
  rewrite Heq, (str_of_int_read b Hb) in Hread. congruence.
Qed.

Lemma format_03d_inj a b : 0 <= a -> 0 <= b -> format_03d a = format_03d b -> a = b.
Proof.
  intros Ha Hb Heq. pose proof (format_03d_read a Ha) as Hread.
  rewrite Heq, (format_03d_read b Hb) in Hread. congruence.
Qed.

Lemma nodup_range n : NoDup (range n).
Proof.
  unfold range. apply NoDup_fmap_2; [|apply NoDup_seq].
  intros a b. apply Nat2Z.inj.
Qed.

(** Joining a relative name to a directory that is not absolute and has
    no trailing slash loses nothing. *)
Lemma posix_join_relative_inj (a b : pystr) :
  posix_join (u8 "vcf_output") a = posix_join (u8 "vcf_output") b -> a = b.
Proof.
  unfold posix_join.
  change (bool_decide (u8 "vcf_output" = [])
          || str_eqb (drop (length (u8 "vcf_output") - 1) (u8 "vcf_output"))
                     (u8 "/")) with false.
  cbv iota.
  assert (forall x y : pystr,
            startswith x (u8 "/") = true ->
            x <> u8 "vcf_output" ++ u8 "/" ++ y) as Habs.
  { intros x y Hx ->. vm_compute in Hx. discriminate. }
  destruct (startswith a (u8 "/")) eqn:Ha, (startswith b (u8 "/")) eqn:Hb;
    intros Heq.
  - exact Heq.
  - now apply Habs in Heq.
  - symmetry in Heq. now apply Habs in Heq.
  - now apply app_inv_head in Heq; apply app_inv_head in Heq.
Qed.

(** X24.  One batch never opens a path twice: in "timestamp" mode, and in
    "custom_number" mode with one of the two number formats of the window
    and a start number that is not negative, the [file_count] file names
    are pairwise distinct, so that, [os.path.join] keeping distinct names
    apart, no file of the batch overwrites another. *)
Theorem X24_batch_paths_distinct
    (os_path_join : pystr -> pystr -> pystr)
    (file_count contacts_per_file : Z) (output_dir filename_prefix gender : pystr)
    (carrier : option pystr) (unique_phones progress_callback : bool)
    (naming_mode : pystr) (start_number : Z) (number_format : pystr)
    (s : state) :
  file_count < 2 ^ 53 ->
  dir_available output_dir s ->
  (forall a b, os_path_join output_dir a = os_path_join output_dir b -> a = b) ->
  naming_mode ∈ [u8 "timestamp"; u8 "custom_number"] ->
  number_format ∈ [u8 "{:03d}"; u8 "{:d}"] ->
  0 <= start_number ->
  exists record s' new,
    VCFGenerator.generate_vcf_files str_format_ui os_path_join file_count
      contacts_per_file output_dir filename_prefix gender carrier unique_phones
      progress_callback naming_mode start_number number_format s
    = (Ok record, s')
    /\ trace (the_world s') = trace (the_world s) ++ new
    /\ NoDup (omap opened_path new)
    /\ Z.of_nat (length (omap opened_path new)) = Z.max 0 file_count.
Proof.
  intros Hn Hdir Hjoin Hmode Hfmt Hstart.
  assert (exists name,
            naming_ok str_format_ui file_count filename_prefix naming_mode
              start_number number_format name s
            /\ forall i j, 0 <= i -> 0 <= j -> name i = name j -> i = j)
    as (name & Hname & Hinj).
  { apply elem_of_cons in Hmode as [->|Hmode].
    - exists (fun i => filename_prefix ++ u8 "_" ++ env_now (the_world s)
                       ++ u8 "_" ++ format_03d (i + 1) ++ u8 ".vcf").
      split; [left; split; [reflexivity | intros i; reflexivity]|].
      intros i j Hi Hj Heq. cbv beta in Heq.
      do 4 apply app_inv_head in Heq. apply app_inv_tail in Heq.
      apply format_03d_inj in Heq; lia.
    - apply list_elem_of_singleton in Hmode as ->.
      apply elem_of_cons in Hfmt as [->|Hfmt].
      + exists (fun i => filename_prefix ++ u8 "_"
                         ++ format_03d (start_number + i) ++ u8 ".vcf").
        split.
        * right. split; [reflexivity|]. intros i _.
          exists (format_03d (start_number + i)). split; reflexivity.
        * intros i j Hi Hj Heq. cbv beta in Heq.
          do 2 apply app_inv_head in Heq. apply app_inv_tail in Heq.
          apply format_03d_inj in Heq; lia.
      + apply list_elem_of_singleton in Hfmt as ->.
        exists (fun i => filename_prefix ++ u8 "_"
                         ++ str_of_int (start_number + i) ++ u8 ".vcf").
        split.
        * right. split; [reflexivity|]. intros i _.
          exists (str_of_int (start_number + i)). split; reflexivity.
        * intros i j Hi Hj Heq. cbv beta in Heq.
          do 2 apply app_inv_head in Heq. apply app_inv_tail in Heq.
          apply str_of_int_inj in Heq; lia. }
  destruct (generate_vcf_files_run str_format_ui os_path_join file_count
              contacts_per_file output_dir filename_prefix gender carrier
              unique_phones progress_callback naming_mode start_number
              number_format name s Hn Hdir Hname)
    as (created & failed & s' & new & Hrun & Htr & Hobs & _ & _).
  exists (batch_record created failed output_dir contacts_per_file), s', new.
  split_and!; auto.
  - rewrite omap_opened_path, Hobs, view_opened_paths.
    apply NoDup_fmap_2_strong; [|apply nodup_range].
    intros i j Hi Hj Heq. apply elem_of_range in Hi, Hj.
    apply Hjoin in Heq. apply Hinj; [lia | lia | exact Heq].
  - rewrite omap_opened_path, Hobs, view_opened_paths.
    rewrite length_map, length_range. lia.
Qed.

Lemma X24_batch_paths_distinct_witness :
  exists record s' new,
    VCFGenerator.generate_vcf_files str_format_ui posix_join 12 2
      (u8 "vcf_output") (u8 "通讯录") (u8 "all") None true false
      (u8 "custom_number") 995 (u8 "{:03d}") example_state
    = (Ok record, s')
    /\ trace (the_world s') = trace (the_world example_state) ++ new
    /\ NoDup (omap opened_path new)
    /\ Z.of_nat (length (omap opened_path new)) = Z.max 0 12.
Proof.
  apply (X24_batch_paths_distinct posix_join 12 2 (u8 "vcf_output") (u8 "通讯录")
           (u8 "all") None true false (u8 "custom_number") 995 (u8 "{:03d}")
           example_state).
  - lia.
  - right. right. reflexivity.
  - exact posix_join_relative_inj.
  - by_evaluation.
  - by_evaluation.
  - lia.
Defined.

